(** * The glTF/GLB optimisation pipeline of the immersive-web-sdk, embedded in Rocq

    Sources embedded here (package [vite-plugin-gltf-optimizer]):
    - [compression-mapper.ts]  (class [CompressionMapper])
    - [preset-manager.ts]      (class [PresetManager])
    - [gltf-processor.ts]      (class [GLTFProcessor])
    - [index.ts]               (the plugin [optimizeGLTF] and its closures)

    JavaScript numbers are IEEE-754 binary64 values: they are modelled by
    Rocq's primitive [float], whose operations are specified by [SpecFloat].
    Strings are sequences of 8-bit code units; [toLowerCase] acts on the
    ASCII letters.  Exceptions are explicit ([Exc]); objects that the code
    mutates live in explicit state. *)

From Stdlib Require Import ZArith List String Ascii Bool Lia.
From Stdlib Require Import Floats.
From stdpp Require Import gmap strings.
Import ListNotations.

Set Warnings "-inexact-float,-register-all".

(* ===================================================================== *)
(** * Part I.  The embedding                                              *)
(* ===================================================================== *)

(** ** JavaScript numbers *)

Module JSNum.

Definition number := float.

(** [isNaN(x)] for a number. *)
Definition isNaN (x : number) : bool := PrimFloat.is_nan x.

(** The float is the negative zero. *)
Definition is_neg_zero (x : number) : bool :=
  match Prim2SF x with S754_zero true => true | _ => false end.

(** [Math.min(a, b)]: NaN if either argument is NaN; -0 is below +0. *)
Definition Math_min (a b : number) : number :=
  if isNaN a || isNaN b then nan
  else if (a <? b)%float then a
  else if (b <? a)%float then b
  else if is_neg_zero b then b else a.

(** [Math.max(a, b)]: NaN if either argument is NaN; +0 is above -0. *)
Definition Math_max (a b : number) : number :=
  if isNaN a || isNaN b then nan
  else if (a <? b)%float then b
  else if (b <? a)%float then a
  else if is_neg_zero a then b else a.

(** [Math.round] on the specification level: the integer closest to [x],
    ties towards +infinity; NaN, infinities and zeros are returned as they
    are, and a result that rounds to zero keeps the sign of [x]. *)
Definition SFround (x : spec_float) : spec_float :=
  match x with
  | S754_finite s m e =>
      if (0 <=? e)%Z then x
      else
        let z := ((2 * cond_Zopp s (Zpos m) + 2 ^ (- e)) / 2 ^ (1 - e))%Z in
        if (z =? 0)%Z then S754_zero s
        else binary_normalize prec emax z 0 false
  | _ => x
  end.

Definition Math_round (x : number) : number := SF2Prim (SFround (Prim2SF x)).

(** [Number.isInteger(x)]. *)
Definition Number_isInteger (x : number) : bool :=
  match Prim2SF x with
  | S754_zero _ => true
  | S754_finite _ m e => (0 <=? e)%Z || (Zpos m mod 2 ^ (- e) =? 0)%Z
  | _ => false
  end.

(** The number with a given integer value (exact below 2^53). *)
Definition of_Z (z : Z) : number := SF2Prim (binary_normalize prec emax z 0 false).

(** [lo <= x <= hi] as a JavaScript comparison. *)
Definition between (lo hi x : number) : bool := ((lo <=? x) && (x <=? hi))%float.

End JSNum.
Export JSNum.

(** ** types.ts *)

Inductive GeometryCompression :=
| quantize_c | meshopt_c | draco_c | both_c | false_c.

Inductive TextureCompressionMode :=
| auto | etc1s | uastc | mixed | manual.

(** A regular expression object: its [source] and [flags]. *)
Record RegExp := { source : string; flags : string }.

(** With the flag [g] or [y], [RegExp.prototype.test] starts at the
    [lastIndex] of the object and changes it, so that two calls with the same
    string may answer differently. A pattern with neither flag keeps no
    state: its [test] is a function of the string. The embedding models
    [test] for these patterns only. *)
Definition has_flag (flag : string) (r : RegExp) : bool :=
  match index 0 flag (flags r) with Some _ => true | None => false end.

Definition stateless (r : RegExp) : bool :=
  negb (has_flag "g" r || has_flag "y" r).

Definition all_stateless (patterns : option (list RegExp)) : bool :=
  match patterns with
  | Some l => forallb stateless l
  | None => true
  end.

Inductive DracoMethod := edgebreaker | sequential.
Inductive MeshoptLevel := level_medium | level_high.

Record DracoQuantizationBits := {
  POSITION : number;
  NORMAL : number;
  TEXCOORD_0 : number
}.

Record DracoParams := {
  method : DracoMethod;
  encodeSpeed : number;
  decodeSpeed : number;
  quantizationBits : DracoQuantizationBits
}.

Record MeshoptParams := { level : MeshoptLevel }.

Record TextureCompressionParams := {
  tc_mode : TextureCompressionMode;
  tc_quality : number;
  tc_pattern : option string
}.

Record QuantizationBits := {
  quantizePosition : number;
  quantizeNormal : number;
  quantizeTexcoord : number;
  quantizeColor : number;
  quantizeWeight : number;
  quantizeGeneric : number
}.

(** ** compression-mapper.ts *)

Module CompressionMapper.

(** A parameter with a default value: [undefined] selects the default. *)
Definition param (dflt : number) (x : option number) : number :=
  match x with Some v => v | None => dflt end.

(** [Math.max(0, Math.min(1, x))]. *)
Definition clamp01 (x : number) : number := Math_max 0%float (Math_min 1%float x).

Definition toDracoParams (quality speed precision : option number) : DracoParams :=
  let quality := clamp01 (param 0.75%float quality) in
  let speed := clamp01 (param 0.5%float speed) in
  let precision := clamp01 (param 0.8%float precision) in
  {| method := if (0.5 <? quality)%float then edgebreaker else sequential;
     encodeSpeed := Math_round (speed * 10);
     decodeSpeed := Math_round (quality * 10);
     quantizationBits :=
       {| POSITION := 10 + Math_round (precision * 6);
          NORMAL := 8 + Math_round (precision * 2);
          TEXCOORD_0 := 10 + Math_round (precision * 2) |} |}%float.

Definition toMeshoptParams (quality : option number) : MeshoptParams :=
  let quality := clamp01 (param 0.75%float quality) in
  {| level := if (0.6 <? quality)%float then level_medium else level_high |}.

Definition toQuantizationBits (precision : option number) : QuantizationBits :=
  let precision := clamp01 (param 0.8%float precision) in
  {| quantizePosition := 10 + Math_round (precision * 6);
     quantizeNormal := 8 + Math_round (precision * 2);
     quantizeTexcoord := 10 + Math_round (precision * 2);
     quantizeColor := 8;
     quantizeWeight := 8;
     quantizeGeneric := 10 + Math_round (precision * 2) |}%float.

Definition toETC1SParams (quality : option number) (pattern : option string)
  : TextureCompressionParams :=
  let quality := clamp01 (param 0.75%float quality) in
  {| tc_mode := etc1s;
     tc_quality := Math_round (quality * 255);
     tc_pattern := pattern |}%float.

Definition toUASTCParams (quality : option number) (pattern : option string)
  : TextureCompressionParams :=
  let quality := clamp01 (param 0.75%float quality) in
  {| tc_mode := uastc;
     tc_quality := Math_round ((1 - quality) * 4);
     tc_pattern := pattern |}%float.

End CompressionMapper.

(** ** types.ts: the options of the plugin

    [GLTFOptimizerOptions] is what the user passes: every field is optional
    ([None] stands for an absent or [undefined] field).  [ProcessedOptions]
    is the same shape with every field required, except [exclude], whose
    default is [undefined]. *)

Module Geometry.
Record t := mk {
  compress : option GeometryCompression;
  quality : option number;
  speed : option number;
  precision : option number
}.
Definition empty : t := mk None None None None.
End Geometry.

Module Textures.
Record t := mk {
  mode : option TextureCompressionMode;
  quality : option number;
  maxSize : option number;
  etc1sPatterns : option (list RegExp);
  uastcPatterns : option (list RegExp)
}.
Definition empty : t := mk None None None None None.
End Textures.

Module Options.
Record t := mk {
  level : option string;
  include : option RegExp;
  exclude : option RegExp;
  verbose : option bool;
  geometry : option Geometry.t;
  textures : option Textures.t
}.
Definition empty : t := mk None None None None None None.
End Options.

Definition GLTFOptimizerOptions := Options.t.

Module PGeometry.
Record t := mk {
  compress : GeometryCompression;
  quality : number;
  speed : number;
  precision : number
}.
End PGeometry.

Module PTextures.
Record t := mk {
  mode : TextureCompressionMode;
  quality : number;
  maxSize : number;
  etc1sPatterns : list RegExp;
  uastcPatterns : list RegExp
}.
End PTextures.

Module Processed.
Record t := mk {
  level : string;
  include : RegExp;
  exclude : option RegExp;
  verbose : bool;
  geometry : PGeometry.t;
  textures : PTextures.t
}.
End Processed.

Definition ProcessedOptions := Processed.t.

(** ** preset-manager.ts *)

Module PresetManager.

Definition medium_preset : GLTFOptimizerOptions :=
  {| Options.level := None; Options.include := None; Options.exclude := None;
     Options.verbose := None;
     Options.geometry := Some
       {| Geometry.compress := Some meshopt_c;
          Geometry.quality := Some 0.75%float;
          Geometry.precision := Some 0.8%float;
          Geometry.speed := Some 0.5%float |};
     Options.textures := Some
       {| Textures.mode := Some auto;
          Textures.quality := Some 0.75%float;
          Textures.maxSize := Some 1024%float;
          Textures.etc1sPatterns := None;
          Textures.uastcPatterns := None |} |}.

(** [getPreset(level)]; any level other than the three named ones takes the
    [default:] branch, which returns [getPreset('medium')]. *)
Definition getPreset (level : string) : GLTFOptimizerOptions :=
  if String.eqb level "light" then
    {| Options.level := None; Options.include := None; Options.exclude := None;
       Options.verbose := None;
       Options.geometry := Some
         {| Geometry.compress := Some quantize_c;
            Geometry.quality := Some 0.9%float;
            Geometry.precision := Some 0.95%float;
            Geometry.speed := Some 0.8%float |};
       Options.textures := Some
         {| Textures.mode := Some auto;
            Textures.quality := Some 0.85%float;
            Textures.maxSize := Some 2048%float;
            Textures.etc1sPatterns := None;
            Textures.uastcPatterns := None |} |}
  else if String.eqb level "medium" then medium_preset
  else if String.eqb level "aggressive" then
    {| Options.level := None; Options.include := None; Options.exclude := None;
       Options.verbose := None;
       Options.geometry := Some
         {| Geometry.compress := Some draco_c;
            Geometry.quality := Some 0.5%float;
            Geometry.precision := Some 0.6%float;
            Geometry.speed := Some 0.3%float |};
       Options.textures := Some
         {| Textures.mode := Some auto;
            Textures.quality := Some 0.55%float;
            Textures.maxSize := Some 512%float;
            Textures.etc1sPatterns := None;
            Textures.uastcPatterns := None |} |}
  else medium_preset.

(** One assignment of [deepMerge]'s inner loop for a field that is not a
    plain object: [undefined] is skipped, anything else replaces. *)
Definition assign {A} (result value : option A) : option A :=
  match value with
  | Some v => Some v
  | None => result
  end.

(** The body of the outer loop of [deepMerge] at the type of the
    [geometry] group: the entries of [obj] are assigned to [result]. *)
Definition merge_geometry (result obj : Geometry.t) : Geometry.t :=
  {| Geometry.compress := assign (Geometry.compress result) (Geometry.compress obj);
     Geometry.quality := assign (Geometry.quality result) (Geometry.quality obj);
     Geometry.speed := assign (Geometry.speed result) (Geometry.speed obj);
     Geometry.precision := assign (Geometry.precision result) (Geometry.precision obj) |}.

(** [deepMerge(...objects)] at the type of the [geometry] group. *)
Definition deepMerge_geometry (objects : list Geometry.t) : Geometry.t :=
  fold_left merge_geometry objects Geometry.empty.

(** The same at the type of the [textures] group; the pattern arrays are
    replaced, not merged. *)
Definition merge_textures (result obj : Textures.t) : Textures.t :=
  {| Textures.mode := assign (Textures.mode result) (Textures.mode obj);
     Textures.quality := assign (Textures.quality result) (Textures.quality obj);
     Textures.maxSize := assign (Textures.maxSize result) (Textures.maxSize obj);
     Textures.etc1sPatterns :=
       assign (Textures.etc1sPatterns result) (Textures.etc1sPatterns obj);
     Textures.uastcPatterns :=
       assign (Textures.uastcPatterns result) (Textures.uastcPatterns obj) |}.

Definition deepMerge_textures (objects : list Textures.t) : Textures.t :=
  fold_left merge_textures objects Textures.empty.

(** The same at the type of the options: a nested plain object [value] is
    merged by [deepMerge(result[key] || {}, value)]. *)
Definition merge_options (result obj : GLTFOptimizerOptions) : GLTFOptimizerOptions :=
  {| Options.level := assign (Options.level result) (Options.level obj);
     Options.include := assign (Options.include result) (Options.include obj);
     Options.exclude := assign (Options.exclude result) (Options.exclude obj);
     Options.verbose := assign (Options.verbose result) (Options.verbose obj);
     Options.geometry :=
       match Options.geometry obj with
       | None => Options.geometry result
       | Some value =>
           Some (deepMerge_geometry
                   [match Options.geometry result with
                    | Some g => g | None => Geometry.empty end; value])
       end;
     Options.textures :=
       match Options.textures obj with
       | None => Options.textures result
       | Some value =>
           Some (deepMerge_textures
                   [match Options.textures result with
                    | Some g => g | None => Textures.empty end; value])
       end |}.

Definition deepMerge (objects : list GLTFOptimizerOptions) : GLTFOptimizerOptions :=
  fold_left merge_options objects Options.empty.

(** The [baseDefaults] object literal of [processOptions]; its [exclude] is
    [undefined]. *)
Definition baseDefaults : GLTFOptimizerOptions :=
  {| Options.level := Some "medium"%string;
     Options.include := Some {| source := "\.(gltf|glb)$"; flags := "i" |};
     Options.exclude := None;
     Options.verbose := Some false;
     Options.geometry := Some
       {| Geometry.compress := Some meshopt_c;
          Geometry.quality := Some 0.75%float;
          Geometry.speed := Some 0.5%float;
          Geometry.precision := Some 0.8%float |};
     Options.textures := Some
       {| Textures.mode := Some auto;
          Textures.quality := Some 0.75%float;
          Textures.maxSize := Some 1024%float;
          Textures.etc1sPatterns := Some [];
          Textures.uastcPatterns := Some [] |} |}.

(** A string is truthy when it is not empty. *)
Definition truthy_string (s : string) : bool := negb (String.eqb s "").

(** [processOptions(options = {})]: the object [merged] that the function
    returns.  The argument [None] is the omitted (or [undefined]) argument. *)
Definition processOptions (options : option GLTFOptimizerOptions)
  : GLTFOptimizerOptions :=
  let options := match options with Some o => o | None => Options.empty end in
  let presetConfig :=
    match Options.level options with
    | Some l => if truthy_string l then getPreset l else Options.empty
    | None => Options.empty
    end in
  let merged := deepMerge [baseDefaults; presetConfig; options] in
  match Options.exclude options, Options.exclude presetConfig with
  | None, None =>
      {| Options.level := Options.level merged;
         Options.include := Options.include merged;
         Options.exclude := None;
         Options.verbose := Options.verbose merged;
         Options.geometry := Options.geometry merged;
         Options.textures := Options.textures merged |}
  | _, _ => merged
  end.

(** The cast [merged as ProcessedOptions]: it is sound when every required
    field of the merged object is present. *)
Definition as_PGeometry (g : Geometry.t) : option PGeometry.t :=
  match Geometry.compress g, Geometry.quality g, Geometry.speed g, Geometry.precision g with
  | Some c, Some q, Some s, Some p => Some (PGeometry.mk c q s p)
  | _, _, _, _ => None
  end.

Definition as_PTextures (x : Textures.t) : option PTextures.t :=
  match Textures.mode x, Textures.quality x, Textures.maxSize x,
        Textures.etc1sPatterns x, Textures.uastcPatterns x with
  | Some m, Some q, Some s, Some e, Some u => Some (PTextures.mk m q s e u)
  | _, _, _, _, _ => None
  end.

Definition as_ProcessedOptions (o : GLTFOptimizerOptions) : option ProcessedOptions :=
  match Options.level o, Options.include o, Options.verbose o,
        Options.geometry o, Options.textures o with
  | Some l, Some i, Some v, Some g, Some x =>
      match as_PGeometry g, as_PTextures x with
      | Some g', Some x' => Some (Processed.mk l i (Options.exclude o) v g' x')
      | _, _ => None
      end
  | _, _, _, _, _ => None
  end.

(** The warnings of [validateOptions], each with the offending value. *)
Inductive warning :=
| Invalid_geometry_quality (v : number)
| Invalid_geometry_speed (v : number)
| Invalid_geometry_precision (v : number)
| Invalid_textures_quality (v : number)
| Invalid_textures_maxSize (v : number).

(** The test [x < 0 || x > 1 || isNaN(x)]. *)
Definition out_of_unit_range (x : number) : bool :=
  (x <? 0)%float || (1 <? x)%float || isNaN x.

(** The test [x <= 0 || !Number.isInteger(x)]. *)
Definition not_positive_integer (x : number) : bool :=
  (x <=? 0)%float || negb (Number_isInteger x).

(** The body of [validateOptions] on the contents of the options object:
    the contents after the call, and the warnings pushed, in order. *)
Definition validate (options : ProcessedOptions) : ProcessedOptions * list warning :=
  let g := Processed.geometry options in
  let x := Processed.textures options in
  let '(gq, w1) :=
    if out_of_unit_range (PGeometry.quality g)
    then (0.75%float, [Invalid_geometry_quality (PGeometry.quality g)])
    else (PGeometry.quality g, []) in
  let '(gs, w2) :=
    if out_of_unit_range (PGeometry.speed g)
    then (0.5%float, [Invalid_geometry_speed (PGeometry.speed g)])
    else (PGeometry.speed g, []) in
  let '(gp, w3) :=
    if out_of_unit_range (PGeometry.precision g)
    then (0.8%float, [Invalid_geometry_precision (PGeometry.precision g)])
    else (PGeometry.precision g, []) in
  let '(tq, w4) :=
    if out_of_unit_range (PTextures.quality x)
    then (0.75%float, [Invalid_textures_quality (PTextures.quality x)])
    else (PTextures.quality x, []) in
  let '(tm, w5) :=
    if not_positive_integer (PTextures.maxSize x)
    then (1024%float, [Invalid_textures_maxSize (PTextures.maxSize x)])
    else (PTextures.maxSize x, []) in
  ({| Processed.level := Processed.level options;
      Processed.include := Processed.include options;
      Processed.exclude := Processed.exclude options;
      Processed.verbose := Processed.verbose options;
      Processed.geometry :=
        {| PGeometry.compress := PGeometry.compress g;
           PGeometry.quality := gq;
           PGeometry.speed := gs;
           PGeometry.precision := gp |};
      Processed.textures :=
        {| PTextures.mode := PTextures.mode x;
           PTextures.quality := tq;
           PTextures.maxSize := tm;
           PTextures.etc1sPatterns := PTextures.etc1sPatterns x;
           PTextures.uastcPatterns := PTextures.uastcPatterns x |} |},
   w1 ++ w2 ++ w3 ++ w4 ++ w5).

(** Objects live in a heap: a reference is a location, and the options
    object is mutated in place. *)
Abbreviation ref := positive (only parsing).
Abbreviation heap := (gmap positive ProcessedOptions) (only parsing).

(** What [validateOptions] prints with [console.warn]. *)
Inductive console_line :=
| Warn_header
| Warn_line (w : warning)
| Warn_footer.

Record validate_result := {
  returned : ref;
  heap_after : heap;
  printed : list console_line
}.

(** [validateOptions(options, verbose = false)]: the object behind
    [options] is updated in place, and the reference [options] itself is
    returned.  A reference that holds no object makes the first property
    read throw ([None]). *)
Definition validateOptions (options : ref) (verbose : option bool) (h : heap)
  : option validate_result :=
  let verbose := match verbose with Some b => b | None => false end in
  match h !! options with
  | None => None
  | Some o =>
      let '(o', warnings) := validate o in
      Some {| returned := options;
              heap_after := <[options := o']> h;
              printed :=
                if verbose && negb (Nat.eqb (List.length warnings) 0)
                then Warn_header :: map Warn_line warnings ++ [Warn_footer]
                else [] |}
  end.

End PresetManager.

(** ** JavaScript strings, exceptions and JSON values *)

Module JS.

(** *** Strings *)

Fixpoint chars (s : string) : list ascii :=
  match s with
  | EmptyString => []
  | String c r => c :: chars r
  end.

Fixpoint of_chars (l : list ascii) : string :=
  match l with
  | [] => EmptyString
  | c :: r => String c (of_chars r)
  end.

(** [s.startsWith(prefix)] *)
Fixpoint startsWith (s prefix : string) : bool :=
  match prefix with
  | EmptyString => true
  | String c p =>
      match s with
      | EmptyString => false
      | String d r => Ascii.eqb c d && startsWith r p
      end
  end.

(** [s.endsWith(suffix)] *)
Definition endsWith (s suffix : string) : bool :=
  startsWith (of_chars (rev (chars s))) (of_chars (rev (chars suffix))).

Definition lower_ascii (c : ascii) : ascii :=
  let n := nat_of_ascii c in
  if (65 <=? n)%nat && (n <=? 90)%nat then ascii_of_nat (n + 32) else c.

(** [s.toLowerCase()] (ASCII letters). *)
Definition toLowerCase (s : string) : string := of_chars (map lower_ascii (chars s)).

(** [a + b] and [a.concat(b)] *)
Definition concat (a b : string) : string := String.append a b.

(** [s.replace(/^\.\//, '')]: a leading "./" is dropped (once). *)
Definition strip_dot_slash (s : string) : string :=
  match s with
  | String "."%char (String "/"%char r) => r
  | _ => s
  end.

(** The longest prefix of [l] free of [c], and the rest. *)
Fixpoint break_at (c : ascii) (l : list ascii) : list ascii * list ascii :=
  match l with
  | [] => ([], [])
  | d :: r =>
      if Ascii.eqb c d then ([], l)
      else let '(a, b) := break_at c r in (d :: a, b)
  end.

(** [s.replace(/\.[^.]+$/i, '')]: the last dot and what follows it are
    dropped when at least one character follows that dot. *)
Definition strip_extension (s : string) : string :=
  match break_at "."%char (rev (chars s)) with
  | (_ :: _, _ :: before) => of_chars (rev before)
  | _ => s
  end.

Fixpoint drop_slashes (l : list ascii) : list ascii :=
  match l with
  | "/"%char :: r => drop_slashes r
  | _ => l
  end.

(** [path.posix.basename(p)]: the last segment, trailing slashes ignored. *)
Definition posix_basename (p : string) : string :=
  of_chars (rev (fst (break_at "/"%char (drop_slashes (rev (chars p)))))).

(** [path.extname(name)] for a file name without directory part: from the
    last dot on, and empty when there is no dot, when the only dot is the
    first character, or when the name is "..". *)
Definition extname (name : string) : string :=
  if String.eqb name ".." then EmptyString
  else
    match break_at "."%char (rev (chars name)) with
    | (ext, _ :: _ :: _) => of_chars ("."%char :: rev ext)
    | _ => EmptyString
    end.

(** [path.basename(name, ext)] for a file name without directory part. *)
Definition basename_ext (name ext : string) : string :=
  if negb (String.eqb ext EmptyString) && endsWith name ext && negb (String.eqb name ext)
  then of_chars (firstn (String.length name - String.length ext) (chars name))
  else name.

(** [re.test(s)] for a regular expression that is an alternation of
    literal words: some word occurs in [s]. *)
Fixpoint includes (s word : string) : bool :=
  startsWith s word ||
  match s with
  | EmptyString => false
  | String _ r => includes r word
  end.

Definition test_any_word (words : list string) (s : string) : bool :=
  existsb (includes s) words.

(** *** Exceptions *)

Inductive error :=
| TypeError
| SyntaxError
| RangeError
| Error (message : string)
| SystemError (code : string).

Inductive Exc (A : Type) :=
| Ok (a : A)
| Throw (e : error).
Arguments Ok {A} a.
Arguments Throw {A} e.

(** *** JSON values, as [JSON.parse] returns them *)

Inductive json :=
| JNull
| JBool (b : bool)
| JNumber (n : number)
| JString (s : string)
| JArray (items : list json)
| JObject (fields : list (string * json)).

Fixpoint assoc {A} (k : string) (l : list (string * A)) : option A :=
  match l with
  | [] => None
  | (k', v) :: r => if String.eqb k k' then Some v else assoc k r
  end.

(** [v.k] for a property name [k] that no prototype defines (here "uri",
    "images", "buffers"): reading a property of [null] throws; a missing
    property reads as [undefined] ([None]). *)
Definition get (v : json) (k : string) : Exc (option json) :=
  match v with
  | JNull => Throw TypeError
  | JObject fields => Ok (assoc k fields)
  | _ => Ok None
  end.

(** [obj.k = x] on an object: an own property is replaced in place, a new
    one is added last. *)
Fixpoint set_field {A} (k : string) (x : A) (l : list (string * A)) : list (string * A) :=
  match l with
  | [] => [(k, x)]
  | (k', v) :: r => if String.eqb k k' then (k, x) :: r else (k', v) :: set_field k x r
  end.

(** Truthiness of a value; [undefined] is falsy. *)
Definition truthy (v : option json) : bool :=
  match v with
  | None | Some JNull => false
  | Some (JBool b) => b
  | Some (JNumber n) => negb ((n =? 0)%float || isNaN n)
  | Some (JString s) => negb (String.eqb s EmptyString)
  | Some (JArray _) | Some (JObject _) => true
  end.

(** The values [for (const x of v)] visits: the elements of an array, the
    characters of a string; any other value is not iterable. *)
Definition iterate (v : json) : Exc (list json) :=
  match v with
  | JArray items => Ok items
  | JString s => Ok (map (fun c => JString (String c EmptyString)) (chars s))
  | _ => Throw TypeError
  end.

(** [v.startsWith(prefix)] for a truthy value [v]: only strings have the
    method. *)
Definition call_startsWith (v : json) (prefix : string) : Exc bool :=
  match v with
  | JString s => Ok (startsWith s prefix)
  | _ => Throw TypeError
  end.

End JS.
Export JS.

(** ** Node buffers

    A Node [Buffer] is a view of [length] bytes, starting at [byteOffset],
    of an underlying [ArrayBuffer] (the property [buffer]). *)

Module NodeBuffer.

Record t := mk {
  buffer : list Byte.byte;
  byteOffset : nat;
  length : nat
}.

(** The bytes the view shows. *)
Definition bytes (b : t) : list Byte.byte :=
  firstn (length b) (skipn (byteOffset b) (buffer b)).

(** A buffer that owns its storage, as [fs.readFile] returns one, and as
    [Buffer.from(arrayBuffer)] makes one of a whole [ArrayBuffer]. *)
Definition from (l : list Byte.byte) : t :=
  {| buffer := l; byteOffset := 0; length := List.length l |}.

(** [Buffer.poolSize], as Node sets it. *)
Definition poolSize : nat := 8 * 1024.

(** [Buffer.from(uint8Array)] in a process whose pool is new and filled
    with zeros: the bytes are copied; a copy that is not empty and shorter
    than half of the pool is placed in the pool, which is then the storage
    of the buffer; any other copy owns its storage. *)
Definition from_in_new_pool (l : list Byte.byte) : t :=
  if (0 <? List.length l)%nat && (List.length l <? poolSize / 2)%nat
  then {| buffer := l ++ repeat Byte.x00 (poolSize - List.length l);
          byteOffset := 0;
          length := List.length l |}
  else from l.

(** [b.subarray(start, end)] for non-negative indices: both are clamped to
    the length, and the view shares the storage. *)
Definition subarray (b : t) (start stop : nat) : t :=
  let stop := Nat.min stop (length b) in
  let start := Nat.min start stop in
  {| buffer := buffer b;
     byteOffset := byteOffset b + start;
     length := stop - start |}.

(** [new DataView(ab).getUint32(offset, true)]: the little-endian 32-bit
    word at [offset] of the array buffer; a [RangeError] outside of it. *)
Definition getUint32_le (ab : list Byte.byte) (offset : nat) : Exc N :=
  match skipn offset ab with
  | b0 :: b1 :: b2 :: b3 :: _ =>
      Ok (Byte.to_N b0 + 256 * (Byte.to_N b1 + 256 * (Byte.to_N b2 + 256 * Byte.to_N b3)))%N
  | _ => Throw RangeError
  end.

(** [b.toString('utf8')]: strings are kept in their UTF-8 form. *)
Definition toString_utf8 (b : t) : string :=
  of_chars (map (fun x => ascii_of_N (Byte.to_N x)) (bytes b)).

(** [Buffer.from(s)] and [new TextEncoder().encode(s)]: the bytes of [s]. *)
Definition bytes_of_string (s : string) : list Byte.byte :=
  map (fun c => match Byte.of_N (N_of_ascii c) with Some b => b | None => Byte.x00 end)
      (chars s).

End NodeBuffer.

Definition Buffer := NodeBuffer.t.

(** ** Effects: state and exceptions

    A computation receives a state and returns either a value or a thrown
    error, with the state reached up to then. *)

Module Eff.

Definition M (S A : Type) : Type := S -> Exc A * S.

Definition ret {S A} (a : A) : M S A := fun s => (Ok a, s).

Definition bind {S A B} (m : M S A) (k : A -> M S B) : M S B :=
  fun s =>
    match m s with
    | (Ok a, s') => k a s'
    | (Throw e, s') => (Throw e, s')
    end.

Definition throw {S A} (e : error) : M S A := fun s => (Throw e, s).

(** [try { body } catch (error) { handler }] *)
Definition try_catch {S A} (body : M S A) (handler : error -> M S A) : M S A :=
  fun s =>
    match body s with
    | (Ok a, s') => (Ok a, s')
    | (Throw e, s') => handler e s'
    end.

(** A call of a pure function of the environment that returns or throws. *)
Definition lift {S A} (r : Exc A) : M S A := fun s => (r, s).

Definition get_state {S} : M S S := fun s => (Ok s, s).
Definition modify {S} (f : S -> S) : M S unit := fun s => (Ok tt, f s).

(** [if (cond) { m }] *)
Definition when {S} (cond : bool) (m : M S unit) : M S unit :=
  if cond then m else ret tt.

(** [for (const x of l) { body }], threading the local variables [v]. *)
Fixpoint for_of {S A V} (l : list A) (body : A -> V -> M S V) (v : V) : M S V :=
  match l with
  | [] => ret v
  | x :: r => bind (body x v) (for_of r body)
  end.

(** A computation on a component of the state. *)
Definition zoom {S T A} (proj : T -> S) (upd : S -> T -> T) (m : M S A) : M T A :=
  fun t => let '(r, s') := m (proj t) in (r, upd s' t).

End Eff.

#[global] Instance M_ret {S} : MRet (Eff.M S) := @Eff.ret S.
#[global] Instance M_bind {S} : MBind (Eff.M S) := fun A B k m => @Eff.bind S A B m k.

(** ** The world outside the program: the console and the file system *)

(** What the program prints; numbers that only appear in a printed line
    are left out of it. *)
Inductive message :=
| Processing (fileName : string)
| Failed_to_process (fileName : string) (e : error)
| Processed (fileName : string) (originalSize optimizedSize : nat)
| Collected_resource (uri : string)
| Wrote_resource (uri : string)
| Geometry_compression (compress : GeometryCompression)
| Meshopt_level (l : MeshoptLevel)
| Draco_method (m : DracoMethod) (encodeSpeed : number)
| Applying_both (l : MeshoptLevel) (m : DracoMethod)
| Quantization_only (precision : number)
| No_geometry_compression
| Failed_to_load_image (uri : string)
| Failed_to_load_buffer (uri : string)
| Loaded_resources (n : nat)
| Error_loading_resources (e : error)
| Texture_mode (mode : TextureCompressionMode)
| Applying_KTX2 (mode : TextureCompressionMode)
| KTX2_quality (mode : TextureCompressionMode) (q : number)
| KTX2_mixed (etc1sQuality uastcQuality : number)
| No_KTX2
| Texture_done
| Tracked_dependencies (n : nat)
| Could_not_track (fileName : string) (e : error)
| KTX_not_found
| Initialized
| Summary_header
| Summary_asset (name : string) (originalTotalSize optimizedTotalSize : nat)
| Summary_total (originalTotalSize optimizedTotalSize : nat)
| Summary_footer
| Namespace_failed (gltfName : string) (e : error)
| Emitting (relativePath : string)
| Emitted_KTX2 (resourcePath : string) (rank : number)
| Reused_KTX2 (resourcePath : string) (kept new : number)
| Emitted_resource (resourcePath : string)
| Original_total_size (n : nat)
| Detailed_error (filePath : string) (e : error).

Inductive line :=
| console_log (m : message)
| console_warn (m : message)
| console_error (m : message).

Record World := {
  console : list line;
  files : gmap string (list Byte.byte)
}.

Definition print (l : line) : Eff.M World unit :=
  Eff.modify (fun w => {| console := console w ++ [l]; files := files w |}).

(** [fs.readFile(path)]: the contents of the file, or an error when there
    is no such file. *)
Definition fs_readFile (path : string) : Eff.M World (list Byte.byte) :=
  fun w =>
    match files w !! path with
    | Some data => (Ok data, w)
    | None => (Throw (SystemError "ENOENT"), w)
    end.

(** [fs.writeFile(path, data)] *)
Definition fs_writeFile (path : string) (data : list Byte.byte) : Eff.M World unit :=
  Eff.modify (fun w => {| console := console w; files := <[path := data]> (files w) |}).

(** ** gltf-processor.ts *)

Module GLTFProcessor.

(** [Mode] of [@gltf-transform/cli]. *)
Inductive Mode := ETC1S | UASTC.

(** The transforms of [@gltf-transform/functions] and [@gltf-transform/cli],
    with their options.  ([meshopt] is a transform of the library; the
    source names it in comments only.) *)
Inductive Transform :=
| prune
| dedup
| quantize (bits : QuantizationBits)
| draco (params : DracoParams)
| meshopt (level : MeshoptLevel)
| textureCompress (resize : number * number)
| toktx (mode : Mode) (quality : number) (slots : RegExp).

(** A [Record<string, Uint8Array>]: the entries in the order in which their
    keys were first set, which is the order of [Object.entries] for keys
    that are not canonical array indices (those a JavaScript object lists
    first, in ascending order) and not [__proto__] (which sets no own
    property).  The order of the entries matters only to the order in which
    the resources of a container are written or emitted. *)
Definition Resources := list (string * list Byte.byte).

(** The functions of the environment that the processor calls:
    [JSON], the [NodeIO] object [this.io], the document, [path], and
    [Buffer.from(uint8Array)], which copies the bytes to a new buffer: where
    Node places the copy (in the shared pool or in a storage of its own,
    and at which offset) is left to the environment. *)
Class Library := {
  Document : Type;
  Buffer_from : list Byte.byte -> Buffer;
  JSON_parse : string -> Exc json;
  JSON_stringify : json -> string;
  readJSON : json -> Resources -> Exc Document;
  readBinary : list Byte.byte -> Exc Document;
  writeJSON : Document -> Exc (json * Resources);
  writeBinary : Document -> Exc (list Byte.byte);
  setLogger : Document -> Exc Document;
  transform : Document -> list Transform -> Exc Document;
  path_resolve : string -> string -> string;
  path_dirname : string -> string;
  path_basename : string -> string
}.

Section Processor.
Context `{Library}.

(** The processor keeps a reference to the options object of the plugin:
    every method reads the current contents [options]. *)
Variable options : ProcessedOptions.

Definition verbose : bool := Processed.verbose options.

Definition applyGeometryOptimizations (document : Document) (_fileName : string)
  : Eff.M World Document :=
  let compress := PGeometry.compress (Processed.geometry options) in
  let quality := PGeometry.quality (Processed.geometry options) in
  let speed := PGeometry.speed (Processed.geometry options) in
  let precision := PGeometry.precision (Processed.geometry options) in
  _ ← Eff.when verbose (print (console_log (Geometry_compression compress)));
  document ← Eff.lift (transform document [prune; dedup]);
  document ←
    match compress with
    | false_c => mret document
    | _ =>
        let quantizationBits := CompressionMapper.toQuantizationBits (Some precision) in
        Eff.lift (transform document [quantize quantizationBits])
    end;
  match compress with
  | meshopt_c =>
      let meshoptParams := CompressionMapper.toMeshoptParams (Some quality) in
      _ ← Eff.when verbose (print (console_log (Meshopt_level (level meshoptParams))));
      mret document
  | draco_c =>
      let dracoParams :=
        CompressionMapper.toDracoParams (Some quality) (Some speed) (Some precision) in
      _ ← Eff.when verbose
            (print (console_log (Draco_method (method dracoParams) (encodeSpeed dracoParams))));
      Eff.lift (transform document [draco dracoParams])
  | both_c =>
      let meshoptParams := CompressionMapper.toMeshoptParams (Some quality) in
      let dracoParams :=
        CompressionMapper.toDracoParams (Some quality) (Some speed) (Some precision) in
      _ ← Eff.when verbose
            (print (console_log (Applying_both (level meshoptParams) (method dracoParams))));
      Eff.lift (transform document [draco dracoParams])
  | quantize_c =>
      _ ← Eff.when verbose (print (console_log (Quantization_only precision)));
      mret document
  | false_c =>
      _ ← Eff.when verbose (print (console_log No_geometry_compression));
      mret document
  end.

(** [new RegExp(patterns.map((p) => p.source).join('|'))] *)
Definition join_sources (patterns : list RegExp) : RegExp :=
  {| source := String.concat "|" (map source patterns); flags := EmptyString |}.

Definition slots_or (patterns : list RegExp) (dflt : RegExp) : RegExp :=
  match patterns with
  | [] => dflt
  | _ :: _ => join_sources patterns
  end.

Definition applyTextureOptimizations (document : Document) (_fileName : string)
  : Eff.M World Document :=
  let mode := PTextures.mode (Processed.textures options) in
  let quality := PTextures.quality (Processed.textures options) in
  let maxSize := PTextures.maxSize (Processed.textures options) in
  let etc1sPatterns := PTextures.etc1sPatterns (Processed.textures options) in
  let uastcPatterns := PTextures.uastcPatterns (Processed.textures options) in
  _ ← Eff.when verbose (print (console_log (Texture_mode mode)));
  let etc1sParams := CompressionMapper.toETC1SParams (Some quality) None in
  let uastcParams := CompressionMapper.toUASTCParams (Some quality) None in
  _ ← Eff.when verbose (print (console_log (Applying_KTX2 mode)));
  document ←
    match mode with
    | etc1s =>
        _ ← Eff.when verbose
              (print (console_log (KTX2_quality etc1s (tc_quality etc1sParams))));
        let etc1sSlotPattern :=
          slots_or etc1sPatterns {| source := ".*"; flags := EmptyString |} in
        Eff.lift (transform document
          [textureCompress (maxSize, maxSize);
           toktx ETC1S (tc_quality etc1sParams) etc1sSlotPattern])
    | uastc =>
        _ ← Eff.when verbose
              (print (console_log (KTX2_quality uastc (tc_quality uastcParams))));
        let uastcSlotPattern :=
          slots_or uastcPatterns {| source := ".*"; flags := EmptyString |} in
        Eff.lift (transform document
          [textureCompress (maxSize, maxSize);
           toktx UASTC (tc_quality uastcParams) uastcSlotPattern])
    | auto | mixed =>
        _ ← Eff.when verbose
              (print (console_log
                 (KTX2_mixed (tc_quality etc1sParams) (tc_quality uastcParams))));
        let etc1sSlotPattern :=
          slots_or etc1sPatterns
            {| source := "(baseColorTexture|emissiveTexture|diffuseTexture)";
               flags := "i" |} in
        let uastcSlotPattern :=
          slots_or uastcPatterns
            {| source := "(normalTexture|metallicRoughnessTexture|occlusionTexture)";
               flags := "i" |} in
        Eff.lift (transform document
          [textureCompress (maxSize, maxSize);
           toktx ETC1S (tc_quality etc1sParams) etc1sSlotPattern;
           toktx UASTC (tc_quality uastcParams) uastcSlotPattern])
    | manual =>
        _ ← Eff.when verbose (print (console_log No_KTX2));
        Eff.lift (transform document [textureCompress (maxSize, maxSize)])
    end;
  _ ← Eff.when verbose (print (console_log Texture_done));
  mret document.

(** [processBuffer(inputBuffer, fileName)] *)
Definition processBuffer (inputBuffer : Buffer) (fileName : string)
  : Eff.M World Buffer :=
  _ ← Eff.when verbose (print (console_log (Processing fileName)));
  Eff.try_catch
    (document ←
       (if endsWith (toLowerCase fileName) ".gltf" then
          let jsonString := NodeBuffer.toString_utf8 inputBuffer in
          j ← Eff.lift (JSON_parse jsonString);
          Eff.lift (readJSON j [])
        else if endsWith (toLowerCase fileName) ".glb" then
          Eff.lift (readBinary (NodeBuffer.bytes inputBuffer))
        else
          Eff.throw (Error (concat "Unsupported file format: " fileName)));
     document ←
       (if verbose then Eff.lift (setLogger document) else mret document);
     document ← applyGeometryOptimizations document fileName;
     document ← applyTextureOptimizations document fileName;
     optimizedBuffer ← Eff.lift (writeBinary document);
     _ ← Eff.when verbose
           (print (console_log
              (Processed fileName (NodeBuffer.length inputBuffer)
                 (List.length optimizedBuffer))));
     mret (Buffer_from optimizedBuffer))
    (fun error =>
       _ ← print (console_error (Failed_to_process fileName error));
       mret inputBuffer).

(** The test [x.uri && !x.uri.startsWith('data:')] on an element [x] of
    [images] or [buffers]: the URI when the test holds. *)
Definition external_uri (x : json) : Exc (option string) :=
  match get x "uri" with
  | Throw e => Throw e
  | Ok uri =>
      if truthy uri then
        match uri with
        | Some (JString s) => Ok (if startsWith s "data:" then None else Some s)
        | _ => Throw TypeError
        end
      else Ok None
  end.

(** The state of [loadExternalResources]: the world and the local object
    [resources], which outlives an exception in the [try] block. *)
Definition loading := (World * Resources)%type.

Definition in_world {A} (m : Eff.M World A) : Eff.M loading A :=
  Eff.zoom fst (fun w s => (w, snd s)) m.

Definition store_resource (uri : string) (data : list Byte.byte) : Eff.M loading unit :=
  Eff.modify (fun s => (fst s, set_field uri data (snd s))).

(** One of the two loops of [loadExternalResources], over [gltfJson[key]]. *)
Definition load_group (gltfJson : json) (baseDir : string) (key : string)
  (failed : string -> message) : Eff.M loading unit :=
  group ← Eff.lift (get gltfJson key);
  if truthy group then
    items ← Eff.lift (match group with Some g => iterate g | None => Ok [] end);
    Eff.for_of items (fun item _ =>
      uri ← Eff.lift (external_uri item);
      match uri with
      | Some uri =>
          let resourcePath := path_resolve baseDir uri in
          Eff.try_catch
            (data ← in_world (fs_readFile resourcePath);
             store_resource uri data)
            (fun _ => Eff.when verbose (in_world (print (console_warn (failed uri)))))
      | None => mret tt
      end) tt
  else mret tt.

Definition loadExternalResources (gltfJson : json) (baseDir : string)
  : Eff.M World Resources :=
  fun w =>
    let '(_, (w', resources)) :=
      Eff.try_catch
        (_ ← load_group gltfJson baseDir "images" Failed_to_load_image;
         _ ← load_group gltfJson baseDir "buffers" Failed_to_load_buffer;
         resources ← (s ← Eff.get_state; mret (snd s));
         Eff.when (verbose && negb (Nat.eqb (List.length resources) 0))
           (in_world (print (console_log (Loaded_resources (List.length resources))))))
        (fun error =>
           Eff.when verbose (in_world (print (console_warn (Error_loading_resources error)))))
        (w, []) in
    (Ok resources, w').

(** What [processFile] returns: a buffer, or a buffer with resources. *)
Inductive FileResult :=
| Plain (b : Buffer)
| WithResources (b : Buffer) (resources : Resources).

(** [fs.stat(path).size] *)
Definition fs_stat_size (path : string) : Eff.M World nat :=
  data ← fs_readFile path; mret (List.length data).

(** [processFile(filePath, returnResources = false)].  The local variable
    [optimizedBuffer] is an [ArrayBuffer]: for the JSON form the one of the
    encoded text, for the binary form the whole storage of
    [Buffer.from(binaryResult)]; [mainBuffer] is a buffer on all of it. *)
Definition processFile (filePath : string) (returnResources : bool)
  : Eff.M World FileResult :=
  let fileName := path_basename filePath in
  let isGLTF := endsWith (toLowerCase fileName) ".gltf" in
  _ ← Eff.when verbose (print (console_log (Processing fileName)));
  Eff.try_catch
    (document ←
       (if isGLTF then
          data ← fs_readFile filePath;
          let jsonString := NodeBuffer.toString_utf8 (NodeBuffer.from data) in
          gltfJson ← Eff.lift (JSON_parse jsonString);
          resources ← loadExternalResources gltfJson (path_dirname filePath);
          Eff.lift (readJSON gltfJson resources)
        else if endsWith (toLowerCase fileName) ".glb" then
          inputBuffer ← fs_readFile filePath;
          Eff.lift (readBinary inputBuffer)
        else
          Eff.throw (Error (concat "Unsupported file format: " fileName)));
     document ←
       (if verbose then Eff.lift (setLogger document) else mret document);
     document ← applyGeometryOptimizations document fileName;
     document ← applyTextureOptimizations document fileName;
     '(optimizedBuffer, externalResources) ←
       (if isGLTF then
          jsonDoc ← Eff.lift (writeJSON document);
          externalResources ←
            (if returnResources then
               Eff.for_of (snd jsonDoc) (fun '(uri, data) externalResources =>
                 _ ← Eff.when verbose (print (console_log (Collected_resource uri)));
                 mret (set_field uri data externalResources)) []
             else
               let baseDir := path_dirname filePath in
               _ ← Eff.for_of (snd jsonDoc) (fun '(uri, data) _ =>
                     let resourcePath := path_resolve baseDir uri in
                     _ ← fs_writeFile resourcePath data;
                     Eff.when verbose (print (console_log (Wrote_resource uri)))) tt;
               mret []);
          mret (NodeBuffer.bytes_of_string (JSON_stringify (fst jsonDoc)),
                externalResources)
        else
          binaryResult ← Eff.lift (writeBinary document);
          mret (NodeBuffer.buffer (Buffer_from binaryResult), []));
     _ ← (if verbose then
            originalSize ← fs_stat_size filePath;
            print (console_log (Processed fileName originalSize (List.length optimizedBuffer)))
          else mret tt);
     let mainBuffer := NodeBuffer.from optimizedBuffer in
     mret (if returnResources then WithResources mainBuffer externalResources
           else Plain mainBuffer))
    (fun error =>
       _ ← print (console_error (Failed_to_process fileName error));
       inputBuffer ← fs_readFile filePath;
       mret (if returnResources then WithResources (NodeBuffer.from inputBuffer) []
             else Plain (NodeBuffer.from inputBuffer))).

End Processor.

End GLTFProcessor.

(** ** index.ts: the plugin [optimizeGLTF] *)

Module Plugin.

Import GLTFProcessor.

Record OptimizationStat := {
  name : string;
  originalTotalSize : nat;
  optimizedTotalSize : nat
}.

(** An entry of [sharedKTXCache]. *)
Record CacheEntry := {
  rank : number;
  cached : Buffer
}.

(** The [source] of a bundle entry. *)
Inductive Source :=
| SourceBuffer (b : Buffer)
| SourceString (s : string).

(** An entry of the bundle: [{ fileName, source, type, name }]. *)
Record BundleEntry := {
  entry_type : string;
  entry_fileName : string;
  entry_source : Source;
  entry_name : option string
}.

(** The bundle object, in the order of [Object.entries]. *)
Definition Bundle := list (string * BundleEntry).

Record AssetInfo := {
  fileName : string;
  source : Source;
  isAsset : bool
}.

(** The resolved configuration of the bundler, as far as the plugin reads it. *)
Record Config := {
  command : string;
  publicDir : option string
}.

(** The variables of the closure of [optimizeGLTF]. *)
Record State := {
  processedOptions : ProcessedOptions;
  isInitialized : bool;
  config : option Config;
  ktxAvailable : option bool;
  warnedAboutKTX : bool;
  dependencyFiles : gset string;
  originalFilesToCleanup : gset string;
  optimizationStats : list OptimizationStat;
  sharedKTXCache : gmap string CacheEntry
}.

(** What the hooks of one plugin instance act on: the closure, the bundle
    object the bundler passes, and the world. *)
Record Build := {
  closure : State;
  bundle : Bundle;
  world : World
}.

(** The functions of the host that the plugin calls besides those of the
    processor. [regexp_test r s] is [r.test(s)] for a pattern [r] that is
    [stateless]; for a pattern with the flag [g] or [y] the answer of [test]
    also depends on the calls made before, which this function does not
    describe: the statements about [include] and [exclude] assume patterns
    without these flags. *)
Class Host := {
  regexp_test : RegExp -> string -> bool;
  path_relative : string -> string -> string;
  path_join : string -> string -> string;
  posix_join : string -> string -> string;
  glob : string -> World -> list string;
  checkKTXAvailable : World -> bool;
  initialize : ProcessedOptions -> Exc unit
}.

Section Closure.
Context `{Library} `{Host}.

Definition in_world {A} (m : Eff.M World A) : Eff.M Build A :=
  Eff.zoom world (fun w b => {| closure := closure b; bundle := bundle b; world := w |}) m.

Definition get_closure : Eff.M Build State :=
  b ← Eff.get_state; mret (closure b).

Definition set_closure (f : State -> State) : Eff.M Build unit :=
  Eff.modify (fun b => {| closure := f (closure b); bundle := bundle b; world := world b |}).

Definition set_bundle (f : Bundle -> Bundle) : Eff.M Build unit :=
  Eff.modify (fun b => {| closure := closure b; bundle := f (bundle b); world := world b |}).

(** [optimizeGLTF(options)]: the initial closure.  The options object is
    the one [processOptions] returns, after [validateOptions]. *)
Definition optimizeGLTF (options : option GLTFOptimizerOptions) : option State :=
  match PresetManager.as_ProcessedOptions (PresetManager.processOptions options) with
  | None => None
  | Some processedOptions =>
      Some {| processedOptions := fst (PresetManager.validate processedOptions);
              isInitialized := false;
              config := None;
              ktxAvailable := None;
              warnedAboutKTX := false;
              dependencyFiles := ∅;
              originalFilesToCleanup := ∅;
              optimizationStats := [];
              sharedKTXCache := ∅ |}
  end.

(** The words of the regular expression of [computeTextureRank]. *)
Definition high_fidelity_words : list string :=
  ["normal"; "roughness"; "metallic"; "orm"; "occlusion"; "specular"; "bump"; "height"]%string.

(** The encoding [computeTextureRank] takes a texture to be meant for. *)
Definition intended (mode : TextureCompressionMode) (filename : string)
  : TextureCompressionMode :=
  let name := toLowerCase filename in
  match mode with
  | uastc => uastc
  | etc1s => etc1s
  | mixed | auto => if test_any_word high_fidelity_words name then uastc else etc1s
  | manual => etc1s
  end.

(** The value of the [return] expression of [computeTextureRank]. *)
Definition rank_of (intended : TextureCompressionMode) (quality : number) : number :=
  let etcQ := tc_quality (CompressionMapper.toETC1SParams (Some quality) None) in
  let uastcLevel := tc_quality (CompressionMapper.toUASTCParams (Some quality) None) in
  match intended with
  | uastc => (10000 + (4 - uastcLevel) * 100 + etcQ / 255)%float
  | _ => etcQ
  end.

Definition computeTextureRank (processedOptions : ProcessedOptions) (filename : string)
  : number :=
  let mode := PTextures.mode (Processed.textures processedOptions) in
  let quality := PTextures.quality (Processed.textures processedOptions) in
  rank_of (intended mode filename) quality.

(** [findGLTFAssets(bundle)], for [include] and [exclude] patterns that are
    [stateless] (see [regexp_test]). *)
Definition findGLTFAssets (processedOptions : ProcessedOptions) (bundle : Bundle)
  : list AssetInfo :=
  flat_map (fun '(fileName, asset) =>
    if negb (String.eqb (entry_type asset) "asset") then []
    else if negb (regexp_test (Processed.include processedOptions) fileName) then []
    else if match Processed.exclude processedOptions with
            | Some exclude => regexp_test exclude fileName
            | None => false
            end then []
    else [{| fileName := fileName; source := entry_source asset; isAsset := true |}])
    bundle.

(** The JSON text of a container: the file itself for the JSON form; for
    the binary form, the bytes [20 .. 20 + n) of the buffer, where [n] is
    the little-endian word at offset 12 of [gltfBuffer.buffer].  [None]
    for any other file name. *)
Definition container_json (gltfFileName : string) (gltfBuffer : Buffer)
  : Exc (option json) :=
  if endsWith gltfFileName ".gltf" then
    match JSON_parse (NodeBuffer.toString_utf8 gltfBuffer) with
    | Ok j => Ok (Some j)
    | Throw e => Throw e
    end
  else if endsWith gltfFileName ".glb" then
    match NodeBuffer.getUint32_le (NodeBuffer.buffer gltfBuffer) 12 with
    | Throw e => Throw e
    | Ok jsonChunkLength =>
        let jsonChunkStart := 20%nat in
        let jsonBytes :=
          NodeBuffer.subarray gltfBuffer jsonChunkStart
            (jsonChunkStart + N.to_nat jsonChunkLength) in
        match JSON_parse (NodeBuffer.toString_utf8 jsonBytes) with
        | Ok j => Ok (Some j)
        | Throw e => Throw e
        end
    end
  else Ok None.

(** One of the two dependency loops, over [gltfJson[key]]: [visit] is
    called with every URI that is truthy and does not start with "data:". *)
Definition for_each_dependency {S} (gltfJson : json) (key : string)
  (visit : string -> Eff.M S unit) : Eff.M S unit :=
  group ← Eff.lift (get gltfJson key);
  if truthy group then
    items ← Eff.lift (match group with Some g => iterate g | None => Ok [] end);
    Eff.for_of items (fun item _ =>
      uri ← Eff.lift (external_uri item);
      match uri with
      | Some uri => visit uri
      | None => mret tt
      end) tt
  else mret tt.

Definition add_dependency (depPath : string) : Eff.M Build unit :=
  set_closure (fun s =>
    {| processedOptions := processedOptions s;
       isInitialized := isInitialized s;
       config := config s;
       ktxAvailable := ktxAvailable s;
       warnedAboutKTX := warnedAboutKTX s;
       dependencyFiles := {[ depPath ]} ∪ dependencyFiles s;
       originalFilesToCleanup := originalFilesToCleanup s;
       optimizationStats := optimizationStats s;
       sharedKTXCache := sharedKTXCache s |}).

Definition is_verbose : Eff.M Build bool :=
  s ← get_closure; mret (Processed.verbose (processedOptions s)).

Definition trackDependencyFiles (gltfFileName : string) (gltfBuffer : Buffer)
  : Eff.M Build unit :=
  Eff.try_catch
    (gltfJson ← Eff.lift (container_json gltfFileName gltfBuffer);
     match gltfJson with
     | None => mret tt
     | Some gltfJson =>
         let basePath := path_dirname gltfFileName in
         _ ← for_each_dependency gltfJson "buffers"
               (fun uri => add_dependency (posix_join basePath uri));
         _ ← for_each_dependency gltfJson "images"
               (fun uri => add_dependency (posix_join basePath uri));
         v ← is_verbose;
         s ← get_closure;
         Eff.when (v && negb (Nat.eqb (size (dependencyFiles s)) 0))
           (in_world (print (console_log (Tracked_dependencies (size (dependencyFiles s))))))
     end)
    (fun error =>
       v ← is_verbose;
       Eff.when v (in_world (print (console_warn (Could_not_track gltfFileName error))))).

(** The local array [dependencies] of [findOriginalDependencies], which is
    only returned when nothing throws. *)
Definition findOriginalDependencies (gltfPath : string) : Eff.M World (list string) :=
  fun w =>
    let body : Eff.M (World * list string) unit :=
      gltfBuffer ← Eff.zoom fst (fun w s => (w, snd s)) (fs_readFile gltfPath);
      let gltfDir := path_dirname gltfPath in
      gltfJson ← Eff.lift (container_json gltfPath (NodeBuffer.from gltfBuffer));
      match gltfJson with
      | None => mret tt
      | Some gltfJson =>
          let push uri : Eff.M (World * list string) unit :=
            Eff.modify (fun s => (fst s, snd s ++ [path_resolve gltfDir uri])) in
          _ ← for_each_dependency gltfJson "buffers" push;
          for_each_dependency gltfJson "images" push
      end in
    match body (w, []) with
    | (Ok _, (w', dependencies)) => (Ok dependencies, w')
    | (Throw _, (w', _)) => (Ok [], w')
    end.

Definition update_closure
  (f_options : ProcessedOptions -> ProcessedOptions)
  (f_init : bool -> bool)
  (f_ktx : option bool -> option bool)
  (f_warned : bool -> bool) : Eff.M Build unit :=
  set_closure (fun s =>
    {| processedOptions := f_options (processedOptions s);
       isInitialized := f_init (isInitialized s);
       config := config s;
       ktxAvailable := f_ktx (ktxAvailable s);
       warnedAboutKTX := f_warned (warnedAboutKTX s);
       dependencyFiles := dependencyFiles s;
       originalFilesToCleanup := originalFilesToCleanup s;
       optimizationStats := optimizationStats s;
       sharedKTXCache := sharedKTXCache s |}).

(** [processedOptions.textures.mode = mode] *)
Definition set_texture_mode (mode : TextureCompressionMode) (o : ProcessedOptions)
  : ProcessedOptions :=
  {| Processed.level := Processed.level o;
     Processed.include := Processed.include o;
     Processed.exclude := Processed.exclude o;
     Processed.verbose := Processed.verbose o;
     Processed.geometry := Processed.geometry o;
     Processed.textures :=
       {| PTextures.mode := mode;
          PTextures.quality := PTextures.quality (Processed.textures o);
          PTextures.maxSize := PTextures.maxSize (Processed.textures o);
          PTextures.etc1sPatterns := PTextures.etc1sPatterns (Processed.textures o);
          PTextures.uastcPatterns := PTextures.uastcPatterns (Processed.textures o) |} |}.

(** The hook [configResolved(resolvedConfig)]; the printed summary of the
    configuration is left out. *)
Definition configResolved (resolvedConfig : Config) : Eff.M Build unit :=
  set_closure (fun s =>
    {| processedOptions := processedOptions s;
       isInitialized := isInitialized s;
       config := Some resolvedConfig;
       ktxAvailable := ktxAvailable s;
       warnedAboutKTX := warnedAboutKTX s;
       dependencyFiles := dependencyFiles s;
       originalFilesToCleanup := originalFilesToCleanup s;
       optimizationStats := optimizationStats s;
       sharedKTXCache := sharedKTXCache s |}).

(** [config.command === 'serve']; reading [command] of an unset [config]
    throws. *)
Definition is_serve : Eff.M Build bool :=
  s ← get_closure;
  match config s with
  | None => Eff.throw TypeError
  | Some c => mret (String.eqb (command c) "serve")
  end.

(** The hook [buildStart()]. *)
Definition buildStart : Eff.M Build unit :=
  serve ← is_serve;
  if (serve : bool) then mret tt
  else
    s ← get_closure;
    _ ← match ktxAvailable s with
        | Some _ => mret tt
        | None =>
            b ← Eff.get_state;
            let available := checkKTXAvailable (world b) in
            _ ← update_closure id id (fun _ => Some available) id;
            if available then mret tt
            else
              _ ← (if warnedAboutKTX s then mret tt
                   else
                     _ ← in_world (print (console_warn KTX_not_found));
                     update_closure id id id (fun _ => true));
              update_closure (set_texture_mode manual) id id id
        end;
    s ← get_closure;
    if isInitialized s then mret tt
    else
      _ ← Eff.lift (initialize (processedOptions s));
      _ ← update_closure id (fun _ => true) id id;
      Eff.when (Processed.verbose (processedOptions s))
        (in_world (print (console_log Initialized))).

(** [Buffer.isBuffer(asset.source) ? asset.source : Buffer.from(asset.source, 'utf8')] *)
Definition input_buffer (src : Source) : Buffer :=
  match src with
  | SourceBuffer b => b
  | SourceString s => NodeBuffer.from (NodeBuffer.bytes_of_string s)
  end.

Definition set_entry_source (src : Source) (e : BundleEntry) : BundleEntry :=
  {| entry_type := entry_type e;
     entry_fileName := entry_fileName e;
     entry_source := src;
     entry_name := entry_name e |}.

Definition processAsset (asset : AssetInfo) : Eff.M Build unit :=
  let inputBuffer := input_buffer (source asset) in
  s ← get_closure;
  optimizedBuffer ← in_world (processBuffer (processedOptions s) inputBuffer (fileName asset));
  b ← Eff.get_state;
  _ ← match assoc (fileName asset) (bundle b) with
      | None => Eff.throw TypeError
      | Some e =>
          set_bundle (set_field (fileName asset)
                        (set_entry_source (SourceBuffer optimizedBuffer) e))
      end;
  trackDependencyFiles (fileName asset) inputBuffer.

(** [Array.isArray(v)] *)
Definition isArray (v : option json) : bool :=
  match v with Some (JArray _) => true | _ => false end.

(** The rewriting of the elements of [json[key]] in the namespacing step:
    an element whose [uri] is a non-empty string that does not start with
    "data:" gets the URI [rewrite uri]. *)
Definition rewrite_uris (key : string) (rewrite : string -> string) (doc : json)
  : Exc json :=
  match get doc key with
  | Throw e => Throw e
  | Ok (Some (JArray items)) =>
      let step item acc :=
        match acc with
        | Throw e => Throw e
        | Ok done =>
            match get item "uri" with
            | Throw e => Throw e
            | Ok (Some (JString uri)) =>
                if negb (String.eqb uri EmptyString) && negb (startsWith uri "data:") then
                  match item with
                  | JObject fields =>
                      Ok (done ++ [JObject (set_field "uri" (JString (rewrite uri)) fields)])
                  | _ => Ok (done ++ [item])
                  end
                else Ok (done ++ [item])
            | Ok _ => Ok (done ++ [item])
            end
        end in
      match fold_left (fun acc item => step item acc) items (Ok []) with
      | Throw e => Throw e
      | Ok items' =>
          match doc with
          | JObject fields => Ok (JObject (set_field key (JArray items') fields))
          | _ => Ok doc
          end
      end
  | Ok _ => Ok doc
  end.

(** The new key of a resource in the object [remapped]. *)
Definition remap_key (binPrefix : string) (ktx2Emitted : bool) (uri : string) : string :=
  let bare := strip_dot_slash uri in
  let lower := toLowerCase bare in
  if endsWith lower ".bin" then concat binPrefix bare
  else if endsWith lower ".ktx2" then posix_basename bare
  else if ktx2Emitted then concat binPrefix bare
  else bare.

Definition remap_resources (binPrefix : string) (ktx2Emitted : bool)
  (resources : Resources) : Resources :=
  fold_left (fun remapped '(uri, buf) =>
               set_field (remap_key binPrefix ktx2Emitted uri) buf remapped)
            resources [].

(** [Object.keys(resources).some((uri) => uri.toLowerCase().endsWith('.ktx2'))] *)
Definition ktx2_emitted (resources : Resources) : bool :=
  existsb (fun '(uri, _) => endsWith (toLowerCase uri) ".ktx2") resources.

(** The body of the [try] block that namespaces the resources of a JSON
    container [gltfName]: the rewritten JSON value and the remapped
    resources. *)
Definition namespace_resources (gltfName : string) (ktx2Emitted : bool)
  (optimizedBuffer : Buffer) (resources : Resources) : Exc (json * Resources) :=
  let baseName := basename_ext gltfName (extname gltfName) in
  let binPrefix := concat baseName "_bin/" in
  match JSON_parse (NodeBuffer.toString_utf8 optimizedBuffer) with
  | Throw e => Throw e
  | Ok doc =>
      match rewrite_uris "buffers"
              (fun uri => concat binPrefix (strip_dot_slash uri)) doc with
      | Throw e => Throw e
      | Ok doc =>
          match (if ktx2Emitted then
                   rewrite_uris "images"
                     (fun uri => concat (strip_extension (posix_basename uri)) ".ktx2") doc
                 else Ok doc) with
          | Throw e => Throw e
          | Ok doc => Ok (doc, remap_resources binPrefix ktx2Emitted resources)
          end
      end
  end.

Definition set_cache (f : gmap string CacheEntry -> gmap string CacheEntry)
  : Eff.M Build unit :=
  set_closure (fun s =>
    {| processedOptions := processedOptions s;
       isInitialized := isInitialized s;
       config := config s;
       ktxAvailable := ktxAvailable s;
       warnedAboutKTX := warnedAboutKTX s;
       dependencyFiles := dependencyFiles s;
       originalFilesToCleanup := originalFilesToCleanup s;
       optimizationStats := optimizationStats s;
       sharedKTXCache := f (sharedKTXCache s) |}).

(** One iteration of the loop that emits the resources of an asset. *)
Definition emit_resource (resourceDir : string) (uri : string) (resourceBuffer : list Byte.byte)
  : Eff.M Build unit :=
  let resourcePath := posix_join resourceDir uri in
  let isKTX2 := endsWith (toLowerCase uri) ".ktx2" in
  let entry :=
    {| entry_type := "asset";
       entry_fileName := resourcePath;
       entry_source := SourceBuffer (NodeBuffer.from resourceBuffer);
       entry_name := Some uri |} in
  s ← get_closure;
  let v := Processed.verbose (processedOptions s) in
  if isKTX2 then
    let rank := computeTextureRank (processedOptions s) uri in
    let cached := sharedKTXCache s !! resourcePath in
    if match cached with
       | None => true
       | Some c => (Plugin.rank c <? rank)%float
       end
    then
      _ ← set_cache (insert resourcePath
                       {| rank := rank; cached := NodeBuffer.from resourceBuffer |});
      _ ← set_bundle (set_field resourcePath entry);
      Eff.when v (in_world (print (console_log (Emitted_KTX2 resourcePath rank))))
    else
      Eff.when v
        (in_world (print (console_log
           (Reused_KTX2 resourcePath
              (match cached with Some c => Plugin.rank c | None => rank end) rank))))
  else
    _ ← set_bundle (set_field resourcePath entry);
    Eff.when v (in_world (print (console_log (Emitted_resource resourcePath)))).

Definition emit_resources (resourceDir : string) (resources : Resources)
  : Eff.M Build unit :=
  Eff.for_of resources (fun '(uri, buf) _ => emit_resource resourceDir uri buf) tt.

(** [s.replace(/\\/g, '/')]: every backslash becomes a slash. *)
Definition slashes (s : string) : string :=
  of_chars (map (fun c => if Ascii.eqb c "\"%char then "/"%char else c) (chars s)).

(** [/\.(png|jpg|jpeg)$/i.test(path)] *)
Definition is_image_path (path : string) : bool :=
  let lower := toLowerCase path in
  endsWith lower ".png" || endsWith lower ".jpg" || endsWith lower ".jpeg".

Definition push_stat (stat : OptimizationStat) : Eff.M Build unit :=
  set_closure (fun s =>
    {| processedOptions := processedOptions s;
       isInitialized := isInitialized s;
       config := config s;
       ktxAvailable := ktxAvailable s;
       warnedAboutKTX := warnedAboutKTX s;
       dependencyFiles := dependencyFiles s;
       originalFilesToCleanup := originalFilesToCleanup s;
       optimizationStats := optimizationStats s ++ [stat];
       sharedKTXCache := sharedKTXCache s |}).

Definition schedule_cleanup (rel : string) : Eff.M Build unit :=
  set_closure (fun s =>
    {| processedOptions := processedOptions s;
       isInitialized := isInitialized s;
       config := config s;
       ktxAvailable := ktxAvailable s;
       warnedAboutKTX := warnedAboutKTX s;
       dependencyFiles := dependencyFiles s;
       originalFilesToCleanup := {[ rel ]} ∪ originalFilesToCleanup s;
       optimizationStats := optimizationStats s;
       sharedKTXCache := sharedKTXCache s |}).

(** [config.publicDir || 'public'] *)
Definition public_dir : Eff.M Build string :=
  s ← get_closure;
  match config s with
  | None => Eff.throw TypeError
  | Some c =>
      mret (match publicDir c with
            | Some d => if String.eqb d EmptyString then "public"%string else d
            | None => "public"%string
            end)
  end.

Definition processPublicSourceGLTFFile (filePath : string) : Eff.M Build unit :=
  v ← is_verbose;
  Eff.try_catch
    (publicDir ← public_dir;
     let relativePath := slashes (path_relative publicDir filePath) in
     let gltfName := path_basename filePath in
     inputBuffer ← in_world (fs_readFile filePath);
     originalDependencies ← in_world (findOriginalDependencies filePath);
     '(originalTotalSize, originalImageDeps) ←
       Eff.for_of originalDependencies (fun depPath '(total, imageDeps) =>
         Eff.try_catch
           (depBuffer ← in_world (fs_readFile depPath);
            mret ((total + List.length depBuffer)%nat,
                  if is_image_path depPath
                  then imageDeps ++ [slashes (path_relative publicDir depPath)]
                  else imageDeps))
           (fun _ => mret (total, imageDeps)))
         (List.length inputBuffer, []);
     _ ← Eff.when v (in_world (print (console_log (Original_total_size originalTotalSize))));
     s ← get_closure;
     result ← in_world (processFile (processedOptions s) filePath true);
     let '(optimizedBuffer, resources) :=
       match result with
       | WithResources b r => (b, r)
       | Plain b => (b, [])
       end in
     let ktx2Emitted := ktx2_emitted resources in
     let isGLTFJson := endsWith (toLowerCase gltfName) ".gltf" in
     '(optimizedBuffer, resources) ←
       (if isGLTFJson then
          match namespace_resources gltfName ktx2Emitted optimizedBuffer resources with
          | Ok (doc, remapped) =>
              mret (NodeBuffer.from (NodeBuffer.bytes_of_string (JSON_stringify doc)),
                    remapped)
          | Throw e =>
              _ ← Eff.when v (in_world (print (console_warn (Namespace_failed gltfName e))));
              mret (optimizedBuffer, resources)
          end
        else mret (optimizedBuffer, resources));
     let optimizedTotalSize :=
       fold_left (fun total '(_, buf) => (total + List.length buf)%nat) resources
                 (NodeBuffer.length optimizedBuffer) in
     _ ← push_stat {| name := gltfName;
                      originalTotalSize := originalTotalSize;
                      optimizedTotalSize := optimizedTotalSize |};
     _ ← Eff.when v (in_world (print (console_log (Emitting relativePath))));
     _ ← set_bundle (set_field relativePath
                       {| entry_type := "asset";
                          entry_fileName := relativePath;
                          entry_source := SourceBuffer optimizedBuffer;
                          entry_name := Some (path_basename filePath) |});
     let resourceDir := path_dirname relativePath in
     _ ← emit_resources resourceDir resources;
     if ktx2Emitted
     then Eff.for_of originalImageDeps (fun rel _ => schedule_cleanup rel) tt
     else mret tt)
    (fun error =>
       _ ← in_world (print (console_error (Detailed_error filePath error)));
       Eff.throw error).

Definition processPublicSourceGLTFFiles : Eff.M Build unit :=
  Eff.try_catch
    (publicDir ← public_dir;
     let gltfPattern := slashes (path_join publicDir "**/gltf/**/*.{gltf,glb}") in
     b ← Eff.get_state;
     let sourceGltfFiles := glob gltfPattern (world b) in
     Eff.for_of sourceGltfFiles (fun filePath _ =>
       Eff.try_catch (processPublicSourceGLTFFile filePath)
         (fun error => in_world (print (console_error (Failed_to_process filePath error)))))
       tt)
    (fun error => in_world (print (console_error (Detailed_error "public" error)))).

(** The handler of the hook [generateBundle]. *)
Definition generateBundle : Eff.M Build unit :=
  serve ← is_serve;
  if (serve : bool) then mret tt
  else
    b ← Eff.get_state;
    let gltfAssets := findGLTFAssets (processedOptions (closure b)) (bundle b) in
    _ ← Eff.for_of gltfAssets (fun asset _ =>
          Eff.try_catch (processAsset asset)
            (fun error =>
               in_world (print (console_error (Failed_to_process (fileName asset) error)))))
          tt;
    processPublicSourceGLTFFiles.

(** The lines the hook [closeBundle] prints for the list of statistics. *)
Definition summary (stats : list OptimizationStat) : list line :=
  match stats with
  | [] => []
  | _ :: _ =>
      let totalOriginalSize := fold_left (fun t s => (t + originalTotalSize s)%nat) stats 0%nat in
      let totalOptimizedSize := fold_left (fun t s => (t + optimizedTotalSize s)%nat) stats 0%nat in
      [console_log Summary_header]
      ++ map (fun s => console_log
                (Summary_asset (name s) (originalTotalSize s) (optimizedTotalSize s))) stats
      ++ (if (1 <? List.length stats)%nat
          then [console_log (Summary_total totalOriginalSize totalOptimizedSize)]
          else [])
      ++ [console_log Summary_footer]
  end.

(** The handler of the hook [closeBundle]. *)
Definition closeBundle : Eff.M Build unit :=
  serve ← is_serve;
  if (serve : bool) then mret tt
  else
    s ← get_closure;
    Eff.for_of (summary (optimizationStats s)) (fun l _ => in_world (print l)) tt.

End Closure.

End Plugin.

(** ** compression-mapper.ts: the detection of the compression mode *)

(** A regular expression that is an alternation of literal words, with or
    without the flag [i] (no flag [g] or [y]: [test] has no state). *)
Record WordPattern := {
  words : list string;
  ignoreCase : bool
}.

(** [pattern.test(s)]: some word occurs in [s]; with the flag [i], letters
    are compared without their case. *)
Definition test_words (pattern : WordPattern) (s : string) : bool :=
  if ignoreCase pattern
  then existsb (fun w => includes (toLowerCase s) (toLowerCase w)) (words pattern)
  else existsb (includes s) (words pattern).

Record AutoTexturePatterns := {
  auto_uastc : list WordPattern;
  auto_etc1s : list WordPattern
}.

(** [CompressionMapper.getAutoTexturePatterns()] *)
Definition getAutoTexturePatterns : AutoTexturePatterns :=
  {| auto_uastc :=
       [ {| words := ["normalTexture"]; ignoreCase := false |};
         {| words := ["metallicRoughnessTexture"]; ignoreCase := false |};
         {| words := ["emissiveTexture"]; ignoreCase := false |};
         {| words := ["occlusionTexture"]; ignoreCase := false |};
         {| words := ["detail"; "bump"; "height"]; ignoreCase := true |};
         {| words := ["hero"; "main"; "primary"]; ignoreCase := true |};
         {| words := ["normal"; "detail"; "specular"]; ignoreCase := true |} ];
     auto_etc1s :=
       [ {| words := ["baseColorTexture"]; ignoreCase := false |};
         {| words := ["diffuseTexture"]; ignoreCase := false |};
         {| words := ["ui"; "interface"; "overlay"]; ignoreCase := true |};
         {| words := ["sky"; "environment"]; ignoreCase := true |};
         {| words := ["logo"; "icon"; "simple"]; ignoreCase := true |};
         {| words := ["background"; "ambient"]; ignoreCase := true |} ] |}%string.

(** The loop [for (const pattern of patterns) { if (pattern.test(name))
    return mode; }]: whether it returns. *)
Fixpoint returns_at_match {P} (test : P -> string -> bool) (patterns : list P)
  (name : string) : bool :=
  match patterns with
  | [] => false
  | pattern :: rest =>
      if test pattern name then true else returns_at_match test rest name
  end.

(** [CompressionMapper.detectTextureCompressionMode(textureName)] *)
Definition detectTextureCompressionMode (textureName : string) : TextureCompressionMode :=
  let patterns := getAutoTexturePatterns in
  if returns_at_match test_words (auto_uastc patterns) textureName then uastc
  else if returns_at_match test_words (auto_etc1s patterns) textureName then etc1s
  else etc1s.

(** [CompressionMapper.detectManualTextureCompressionMode(textureName,
    etc1sPatterns = [], uastcPatterns = [])], for patterns that are
    [stateless]: [test r s] is [r.test(s)], a function of the pattern and
    the name only when the pattern has neither the flag [g] nor [y]. *)
Definition detectManualTextureCompressionMode (test : RegExp -> string -> bool)
  (textureName : string) (etc1sPatterns uastcPatterns : option (list RegExp))
  : TextureCompressionMode :=
  let etc1sPatterns := match etc1sPatterns with Some l => l | None => [] end in
  let uastcPatterns := match uastcPatterns with Some l => l | None => [] end in
  if returns_at_match test uastcPatterns textureName then uastc
  else if returns_at_match test etc1sPatterns textureName then etc1s
  else etc1s.

(** ** index.ts: the hooks [resolveId], [load] and [writeBundle] *)

(** What these hooks print (in verbose mode). *)
Inductive hook_message :=
| Blocking_dependency (normalizedId : string)
| Skipping_dependency (originalId : string)
| Cleaning_up (n : nat)
| Deleted (relativeFilePath : string)
| Could_not_delete (relativeFilePath : string).

(** [s.slice(n)] *)
Fixpoint slice (n : nat) (s : string) : string :=
  match n, s with
  | O, _ => s
  | S n', String _ r => slice n' r
  | S _, EmptyString => EmptyString
  end.

Definition virtual_prefix : string := "virtual:gltf-dependency:".

(** A value together with the lines printed with [console.log]: the hooks
    below return what they print. *)
Definition Logged (A : Type) : Type := (A * list hook_message)%type.

(** The hook [resolveId(id)]; [posix_normalize] is [path.posix.normalize].
    [null] is [None]. *)
Definition resolveId (posix_normalize : string -> string) (s : Plugin.State) (id : string)
  : Logged (option string) :=
  let normalizedId := posix_normalize id in
  let dependencyFiles := Plugin.dependencyFiles s in
  if bool_decide (normalizedId ∈ dependencyFiles)
     || existsb (fun dep => endsWith normalizedId dep) (elements dependencyFiles)
  then
    (Some (concat virtual_prefix normalizedId),
     if Processed.verbose (Plugin.processedOptions s)
     then [Blocking_dependency normalizedId] else [])
  else (None, []).

(** The hook [load(id)].  [id.replace(prefix, '')] on an [id] that starts
    with the prefix drops the prefix. *)
Definition load (s : Plugin.State) (id : string) : Logged (option string) :=
  if startsWith id virtual_prefix then
    (Some "// GLTF dependency file - handled by gltf-transform"%string,
     if Processed.verbose (Plugin.processedOptions s)
     then [Skipping_dependency (slice (String.length virtual_prefix) id)] else [])
  else (None, []).

(** [fs.unlink(path)]: the file is removed, or an error when there is no
    such file. *)
Definition fs_unlink (path : string) : Eff.M World unit :=
  fun w =>
    match files w !! path with
    | Some _ => (Ok tt, {| console := console w; files := delete path (files w) |})
    | None => (Throw (SystemError "ENOENT"), w)
    end.

Section Cleanup.
Import GLTFProcessor Plugin.
Context `{Library} `{Host}.

(** [cleanupOriginalDependencies(outputDir)]: its effect on the build, and
    the lines it prints, which go to the list it returns (the console of
    the world is left as it is).  The set [originalFilesToCleanup] is
    visited in the order of its elements.  The outer [try] of the source
    has no counterpart: every statement of its block that can throw is
    inside the inner [try]. *)
Definition cleanupOriginalDependencies (outputDir : string)
  : Eff.M Build (list hook_message) :=
  s ← get_closure;
  let v := Processed.verbose (processedOptions s) in
  if Nat.eqb (size (originalFilesToCleanup s)) 0 then mret []
  else
    Eff.for_of (elements (originalFilesToCleanup s))
      (fun relativeFilePath printed =>
         let filePath := path_resolve outputDir relativeFilePath in
         Eff.try_catch
           (_ ← Plugin.in_world (fs_unlink filePath);
            mret (if v then printed ++ [Deleted relativeFilePath] else printed))
           (fun _ =>
              mret (if v then printed ++ [Could_not_delete relativeFilePath] else printed)))
      (if v then [Cleaning_up (size (originalFilesToCleanup s))] else []).

(** The handler of the hook [writeBundle(options)], where [dir] is
    [options.dir]. *)
Definition writeBundle (dir : option string) : Eff.M Build (list hook_message) :=
  serve ← is_serve;
  if (serve : bool) then mret []
  else
    cleanupOriginalDependencies
      (match dir with
       | Some d => if String.eqb d EmptyString then "dist"%string else d
       | None => "dist"%string
       end).

End Cleanup.

(* ===================================================================== *)
(** * Part II.  Predicates, invariants and sample inputs                  *)
(* ===================================================================== *)

(** ** Resolved options *)

Section OptionsVocabulary.
Import PresetManager.

(** The options object [{ level: 'medium' }]. *)
Definition level_medium_only : GLTFOptimizerOptions :=
  {| Options.level := Some "medium"%string; Options.include := None;
     Options.exclude := None; Options.verbose := None;
     Options.geometry := None; Options.textures := None |}.

(** The numeric fields of a validated record are in their ranges. *)
Definition in_ranges (o : ProcessedOptions) : Prop :=
  between 0%float 1%float (PGeometry.quality (Processed.geometry o)) = true
  /\ between 0%float 1%float (PGeometry.speed (Processed.geometry o)) = true
  /\ between 0%float 1%float (PGeometry.precision (Processed.geometry o)) = true
  /\ between 0%float 1%float (PTextures.quality (Processed.textures o)) = true
  /\ (0 <? PTextures.maxSize (Processed.textures o))%float = true
  /\ Number_isInteger (PTextures.maxSize (Processed.textures o)) = true.

(** Every numeric field is its value before the call when that value
    passes the test of [validateOptions], and the documented default
    otherwise. *)
Definition reset_to_defaults (o o' : ProcessedOptions) : Prop :=
  let g := Processed.geometry o in
  let x := Processed.textures o in
  let g' := Processed.geometry o' in
  let x' := Processed.textures o' in
  PGeometry.quality g'
    = (if out_of_unit_range (PGeometry.quality g) then 0.75%float else PGeometry.quality g)
  /\ PGeometry.speed g'
    = (if out_of_unit_range (PGeometry.speed g) then 0.5%float else PGeometry.speed g)
  /\ PGeometry.precision g'
    = (if out_of_unit_range (PGeometry.precision g) then 0.8%float else PGeometry.precision g)
  /\ PTextures.quality x'
    = (if out_of_unit_range (PTextures.quality x) then 0.75%float else PTextures.quality x)
  /\ PTextures.maxSize x'
    = (if not_positive_integer (PTextures.maxSize x) then 1024%float else PTextures.maxSize x)
  /\ Processed.level o' = Processed.level o
  /\ Processed.include o' = Processed.include o
  /\ Processed.exclude o' = Processed.exclude o
  /\ Processed.verbose o' = Processed.verbose o
  /\ PGeometry.compress g' = PGeometry.compress g
  /\ PTextures.mode x' = PTextures.mode x
  /\ PTextures.etc1sPatterns x' = PTextures.etc1sPatterns x
  /\ PTextures.uastcPatterns x' = PTextures.uastcPatterns x.

(** A group or an options object with every required field. *)
Definition full_geometry (g : Geometry.t) : Prop :=
  is_Some (Geometry.compress g) /\ is_Some (Geometry.quality g)
  /\ is_Some (Geometry.speed g) /\ is_Some (Geometry.precision g).

Definition full_textures (x : Textures.t) : Prop :=
  is_Some (Textures.mode x) /\ is_Some (Textures.quality x)
  /\ is_Some (Textures.maxSize x) /\ is_Some (Textures.etc1sPatterns x)
  /\ is_Some (Textures.uastcPatterns x).

Definition full_options (o : GLTFOptimizerOptions) : Prop :=
  is_Some (Options.level o) /\ is_Some (Options.include o)
  /\ is_Some (Options.verbose o)
  /\ (exists g, Options.geometry o = Some g /\ full_geometry g)
  /\ (exists x, Options.textures o = Some x /\ full_textures x).

End OptionsVocabulary.

(** ** Computations: outcomes, triples and invariants *)

Section ComputationVocabulary.
Context {S : Type}.

(** The computation throws from every state. *)
Definition throws {A} (m : Eff.M S A) : Prop :=
  forall s, exists e s', m s = (Throw e, s').

(** The computation returns from every state. *)
Definition returns {A} (m : Eff.M S A) : Prop :=
  forall s, exists a s', m s = (Ok a, s').

(** From a state in [P], the computation ends in a state in [Q a] when it
    returns [a], and in a state in [E] when it throws. *)
Definition triple {A} (P : S -> Prop) (m : Eff.M S A)
  (Q : A -> S -> Prop) (E : S -> Prop) : Prop :=
  forall s, P s ->
    match m s with
    | (Ok a, s') => Q a s'
    | (Throw _, s') => E s'
    end.

(** The computation keeps [I], whether it returns or throws. *)
Definition preserves {A} (I : S -> Prop) (m : Eff.M S A) : Prop :=
  triple I m (fun _ => I) I.

End ComputationVocabulary.

(** ** The processor *)

Section ProcessorVocabulary.
Import GLTFProcessor.

(** [r.then(k)] for results. *)
Definition and_then {A B} (r : Exc A) (k : A -> Exc B) : Exc B :=
  match r with
  | Ok a => k a
  | Throw e => Throw e
  end.

Context `{Library}.

Variable options : ProcessedOptions.

(** The stages of the [try] block of [processBuffer], printing apart: what
    each of them yields, or the error it throws.  [loaded] is the document
    read from the input, by the reader that the extension of the name
    (compared without case) selects. *)
Definition loaded (inputBuffer : Buffer) (fileName : string) : Exc Document :=
  if endsWith (toLowerCase fileName) ".gltf" then
    and_then (JSON_parse (NodeBuffer.toString_utf8 inputBuffer)) (fun j => readJSON j [])
  else if endsWith (toLowerCase fileName) ".glb" then
    readBinary (NodeBuffer.bytes inputBuffer)
  else Throw (Error (concat "Unsupported file format: " fileName)).

(** The document with its logger, which is set in verbose mode only. *)
Definition with_logger (document : Document) : Exc Document :=
  if verbose options then setLogger document else Ok document.

(** The document after the calls of [transform] that
    [applyGeometryOptimizations] makes for the geometry mode. *)
Definition geometry_optimized (document : Document) : Exc Document :=
  let g := Processed.geometry options in
  let bits := CompressionMapper.toQuantizationBits (Some (PGeometry.precision g)) in
  let dracoParams :=
    CompressionMapper.toDracoParams (Some (PGeometry.quality g))
      (Some (PGeometry.speed g)) (Some (PGeometry.precision g)) in
  and_then (transform document [prune; dedup]) (fun document =>
    match PGeometry.compress g with
    | false_c => Ok document
    | quantize_c | meshopt_c => transform document [quantize bits]
    | draco_c | both_c =>
        and_then (transform document [quantize bits]) (fun document =>
          transform document [draco dracoParams])
    end).

(** The document after the call of [transform] that
    [applyTextureOptimizations] makes for the texture mode. *)
Definition texture_optimized (document : Document) : Exc Document :=
  let t := Processed.textures options in
  let maxSize := PTextures.maxSize t in
  let etc1sQuality :=
    tc_quality (CompressionMapper.toETC1SParams (Some (PTextures.quality t)) None) in
  let uastcLevel :=
    tc_quality (CompressionMapper.toUASTCParams (Some (PTextures.quality t)) None) in
  let any := {| source := ".*"; flags := EmptyString |} in
  transform document
    (textureCompress (maxSize, maxSize) ::
     match PTextures.mode t with
     | etc1s => [toktx ETC1S etc1sQuality (slots_or (PTextures.etc1sPatterns t) any)]
     | uastc => [toktx UASTC uastcLevel (slots_or (PTextures.uastcPatterns t) any)]
     | auto | mixed =>
         [toktx ETC1S etc1sQuality
            (slots_or (PTextures.etc1sPatterns t)
               {| source := "(baseColorTexture|emissiveTexture|diffuseTexture)";
                  flags := "i" |});
          toktx UASTC uastcLevel
            (slots_or (PTextures.uastcPatterns t)
               {| source := "(normalTexture|metallicRoughnessTexture|occlusionTexture)";
                  flags := "i" |})]
     | manual => []
     end).

(** The bytes [writeBinary] returns for the document that went through
    all stages, or the error of the first stage that throws. *)
Definition optimized (inputBuffer : Buffer) (fileName : string) : Exc (list Byte.byte) :=
  and_then (loaded inputBuffer fileName) (fun document =>
  and_then (with_logger document) (fun document =>
  and_then (geometry_optimized document) (fun document =>
  and_then (texture_optimized document) writeBinary))).

Variable baseDir : string.
Variable w : World.

(** What the loops of [loadExternalResources] maintain: the file system
    is untouched, every key of [resources] names a file that exists, and
    without [verbose] nothing is printed. *)
Definition load_inv (s : loading) : Prop :=
  files (fst s) = files w
  /\ (forall uri, is_Some (assoc uri (snd s)) ->
                  is_Some (files w !! path_resolve baseDir uri))
  /\ (verbose options = false -> console (fst s) = console w).

End ProcessorVocabulary.

(** ** A library that records what is done to a document

    The document is the list of the transforms applied to it so far.  The
    reader of binary containers rejects bytes that do not start with the
    magic "glTF"; the JSON parser only knows the text "{}". *)

Definition glTF_magic (data : list Byte.byte) : bool :=
  match data with
  | Byte.x67 :: Byte.x6c :: Byte.x54 :: Byte.x46 :: _ => true
  | _ => false
  end.

#[local] Instance recording_library : GLTFProcessor.Library := {|
  GLTFProcessor.Document := list GLTFProcessor.Transform;
  GLTFProcessor.Buffer_from := NodeBuffer.from_in_new_pool;
  GLTFProcessor.JSON_parse := fun s =>
    if String.eqb s "{}" then Ok (JObject []) else Throw SyntaxError;
  GLTFProcessor.JSON_stringify := fun _ => "{}"%string;
  GLTFProcessor.readJSON := fun _ _ => Ok [];
  GLTFProcessor.readBinary := fun data =>
    if glTF_magic data then Ok [] else Throw (Error "Invalid glTF");
  GLTFProcessor.writeJSON := fun _ => Ok (JObject [], []);
  GLTFProcessor.writeBinary := fun _ => Ok [Byte.x67; Byte.x6c; Byte.x54; Byte.x46];
  GLTFProcessor.setLogger := fun d => Ok d;
  GLTFProcessor.transform := fun d ts => Ok (d ++ ts);
  GLTFProcessor.path_resolve := fun dir uri => concat dir (concat "/" uri);
  GLTFProcessor.path_dirname := fun p =>
    of_chars (rev (match snd (break_at "/"%char (rev (chars p))) with
                   | _ :: r => r
                   | [] => ["."%char]
                   end));
  GLTFProcessor.path_basename := posix_basename
|}.

(** The options of the 'medium' preset, with another geometry mode. *)
Definition options_with (compress : GeometryCompression) : ProcessedOptions :=
  {| Processed.level := "medium";
     Processed.include := {| source := "\.(gltf|glb)$"; flags := "i" |};
     Processed.exclude := None;
     Processed.verbose := false;
     Processed.geometry :=
       {| PGeometry.compress := compress;
          PGeometry.quality := 0.75%float;
          PGeometry.speed := 0.5%float;
          PGeometry.precision := 0.8%float |};
     Processed.textures :=
       {| PTextures.mode := auto;
          PTextures.quality := 0.75%float;
          PTextures.maxSize := 1024%float;
          PTextures.etc1sPatterns := [];
          PTextures.uastcPatterns := [] |} |}.

Definition empty_world : World := {| console := []; files := ∅ |}.

(** ** A host for concrete runs

    The public directory is the root of the file system; [glob] returns the
    files whose name ends in ".gltf" or ".glb"; the KTX tool is present. *)

#[local] Instance simple_host : Plugin.Host := {|
  Plugin.regexp_test := fun _ s =>
    endsWith (toLowerCase s) ".gltf" || endsWith (toLowerCase s) ".glb";
  Plugin.path_relative := fun _ file => file;
  Plugin.path_join := fun a b => concat a (concat "/" b);
  Plugin.posix_join := fun dir uri =>
    if String.eqb dir "." then uri else concat dir (concat "/" uri);
  Plugin.glob := fun _ w =>
    filter (fun p => endsWith p ".gltf" || endsWith p ".glb")
           (map fst (map_to_list (files w)));
  Plugin.checkKTXAvailable := fun _ => true;
  Plugin.initialize := fun _ => Ok tt
|}.

Definition build_config : Plugin.Config :=
  {| Plugin.command := "build"; Plugin.publicDir := None |}.

(** A binary container the recording reader accepts. *)
Definition tiny_glb : list Byte.byte :=
  [Byte.x67; Byte.x6c; Byte.x54; Byte.x46; Byte.x02; Byte.x00; Byte.x00; Byte.x00].

(** ** The plugin *)

Section PluginVocabulary.
Import GLTFProcessor Plugin.
Context `{Library} `{Host}.

(** The list [optimizationStats] of the closure has the property [P]. *)
Definition stats_inv (P : list OptimizationStat -> Prop) (b : Build) : Prop :=
  P (optimizationStats (closure b)).

(** [uri] is the URI of an element of [gltfJson.buffers] or of
    [gltfJson.images]: a string that is not empty and does not start with
    "data:". *)
Definition external_uri_of (gltfJson : json) (uri : string) : Prop :=
  exists key items item,
    (key = "buffers"%string \/ key = "images"%string)
    /\ get gltfJson key = Ok (Some (JArray items))
    /\ In item items
    /\ get item "uri" = Ok (Some (JString uri))
    /\ uri <> EmptyString
    /\ startsWith uri "data:" = false.

(** The external URIs of the elements of an array, in its order. *)
Definition external_uris (items : list json) : list string :=
  flat_map (fun item =>
              match external_uri item with
              | Ok (Some uri) => [uri]
              | _ => []
              end) items.

(** The elements of [gltfJson[key]] and their URIs can be read without an
    exception: the value is absent or an array, no element is [null], and
    every [uri] is a string or falsy. *)
Definition readable_group (gltfJson : json) (key : string) (items : list json) : Prop :=
  (get gltfJson key = Ok (Some (JArray items))
   \/ (get gltfJson key = Ok None /\ items = []))
  /\ Forall (fun item => exists uri, external_uri item = Ok uri) items.

(** The bundle entry that [emit_resource] writes. *)
Definition emitted_entry (resourcePath uri : string) (data : list Byte.byte) : BundleEntry :=
  {| entry_type := "asset";
     entry_fileName := resourcePath;
     entry_source := SourceBuffer (NodeBuffer.from data);
     entry_name := Some uri |}.

(** Whether an emission to [resourcePath] with [rank] replaces what the
    cache holds: there is no entry, or [rank > cached.rank]. *)
Definition replaces (cache : gmap string CacheEntry) (resourcePath : string)
  (rank : number) : bool :=
  match cache !! resourcePath with
  | None => true
  | Some c => (Plugin.rank c <? rank)%float
  end.

End PluginVocabulary.

(** ** Two builds of one plugin instance *)

(** A plugin instance with the default options, before its first build,
    over a public directory that holds one binary container. *)
Definition first_build_start : option Plugin.Build :=
  match Plugin.optimizeGLTF None with
  | Some st =>
      Some {| Plugin.closure := st; Plugin.bundle := [];
              Plugin.world :=
                {| console := [];
                   files := {[ "gltf/a.glb"%string := tiny_glb ]} |} |}
  | None => None
  end.

(** The hooks of one build, in the order the bundler calls them. *)
Definition one_build : Eff.M Plugin.Build unit :=
  _ ← Plugin.buildStart;
  _ ← Plugin.generateBundle (H := recording_library);
  Plugin.closeBundle.

(** The state in which the second build of the same plugin instance
    starts: the closure is the one the first build left, the console is
    cleared, and the public directory is now empty. *)
Definition second_build_start : option Plugin.Build :=
  match first_build_start with
  | Some b0 =>
      let b1 := snd ((_ ← Plugin.configResolved build_config; one_build) b0) in
      Some {| Plugin.closure := Plugin.closure b1; Plugin.bundle := [];
              Plugin.world := {| console := []; files := ∅ |} |}
  | None => None
  end.

(** ** Binary containers *)

(** The little-endian value of four bytes. *)
Definition le32 (b0 b1 b2 b3 : Byte.byte) : N :=
  (Byte.to_N b0 + 256 * (Byte.to_N b1 + 256 * (Byte.to_N b2 + 256 * Byte.to_N b3)))%N.

(** The text of a sequence of bytes. *)
Definition text (data : list Byte.byte) : string :=
  NodeBuffer.toString_utf8 (NodeBuffer.from data).

(** A library whose JSON parser reads the text "J" as the value [j]. *)
Definition fixed_json_library (j : json) : GLTFProcessor.Library := {|
  GLTFProcessor.Document := list GLTFProcessor.Transform;
  GLTFProcessor.Buffer_from := NodeBuffer.from_in_new_pool;
  GLTFProcessor.JSON_parse := fun s =>
    if String.eqb s "J" then Ok j else Throw SyntaxError;
  GLTFProcessor.JSON_stringify := fun _ => "J"%string;
  GLTFProcessor.readJSON := fun _ _ => Ok [];
  GLTFProcessor.readBinary := fun data =>
    if glTF_magic data then Ok [] else Throw (Error "Invalid glTF");
  GLTFProcessor.writeJSON := fun _ => Ok (j, []);
  GLTFProcessor.writeBinary := fun _ => Ok [Byte.x67; Byte.x6c; Byte.x54; Byte.x46];
  GLTFProcessor.setLogger := fun d => Ok d;
  GLTFProcessor.transform := fun d ts => Ok (d ++ ts);
  GLTFProcessor.path_resolve := fun dir uri => concat dir (concat "/" uri);
  GLTFProcessor.path_dirname := @GLTFProcessor.path_dirname recording_library;
  GLTFProcessor.path_basename := posix_basename
|}.

(** A container with an inline buffer, an external buffer and an image. *)
Definition sample_json : json :=
  JObject [("buffers"%string,
            JArray [JObject [("uri"%string, JString "data:application/octet-stream;base64,AA==")];
                    JObject [("uri"%string, JString "a.bin")]]);
           ("images"%string,
            JArray [JObject [("uri"%string, JString "t.png")]])].

(** The binary container whose JSON chunk is the one-byte text "J". *)
Definition sample_glb : list Byte.byte :=
  [Byte.x67; Byte.x6c; Byte.x54; Byte.x46; Byte.x02; Byte.x00; Byte.x00; Byte.x00;
   Byte.x18; Byte.x00; Byte.x00; Byte.x00]
  ++ [Byte.x01; Byte.x00; Byte.x00; Byte.x00]
  ++ [Byte.x4a; Byte.x53; Byte.x4f; Byte.x4e]
  ++ [Byte.x4a; Byte.x20; Byte.x20; Byte.x20].

(** The same container as a view of a larger storage, as a buffer of the
    pool is: sixteen bytes of the storage come before the container. *)
Definition sample_glb_view : Buffer :=
  {| NodeBuffer.buffer := repeat Byte.x00 16 ++ sample_glb;
     NodeBuffer.byteOffset := 16;
     NodeBuffer.length := List.length sample_glb |}.

(** ** Namespaced resources *)

(** The strings [json[key][i].uri]. *)
Definition uris_of (key : string) (doc : json) : list string :=
  match get doc key with
  | Ok (Some (JArray items)) =>
      flat_map (fun item =>
                  match get item "uri" with
                  | Ok (Some (JString uri)) => [uri]
                  | _ => []
                  end) items
  | _ => []
  end.

(** The output of the processor for an asset with one buffer, one texture
    that was encoded to KTX2 and one texture that was not (a texture of a
    slot that neither slot pattern of the mode 'auto' matches). *)
Definition mixed_textures_json : json :=
  JObject [("buffers"%string,
            JArray [JObject [("uri"%string, JString "data.bin")]]);
           ("images"%string,
            JArray [JObject [("uri"%string, JString "base.ktx2")];
                    JObject [("uri"%string, JString "transmission.png")]])].

Definition mixed_textures_resources : GLTFProcessor.Resources :=
  [("data.bin"%string, [Byte.x00]);
   ("base.ktx2"%string, [Byte.x01]);
   ("transmission.png"%string, [Byte.x02])].

(** The output of the processor for an asset whose buffer file does not
    have the extension ".bin". *)
Definition odd_buffer_json : json :=
  JObject [("buffers"%string,
            JArray [JObject [("uri"%string, JString "data.buf")]])].

Definition odd_buffer_resources : GLTFProcessor.Resources :=
  [("data.buf"%string, [Byte.x00])].

(** ** Binary64 numbers, on integers

    A non-negative value is counted in units of 2^-1074, the smallest
    positive binary64 number. *)

Section NumberVocabulary.
Local Open Scope Z_scope.

(** [x / 2^n] rounded to the nearest integer, ties to even. *)
Definition rne (x n : Z) : Z :=
  if n <=? 0 then x
  else
    let q := x / 2 ^ n in
    match 2 * (x mod 2 ^ n) ?= 2 ^ n with
    | Lt => q
    | Gt => q + 1
    | Eq => if Z.even q then q else q + 1
    end.

(** A value in units of 2^-1074, rounded to binary64: 53 significant
    digits are kept. *)
Definition round64 (x : Z) : Z :=
  let l := Z.max (Zdigits2 x - 53) 0 in
  rne x l * 2 ^ l.

(** The shift record after [k] right shifts of [m], with the round bit and
    the sticky bit. *)
Definition shr_state (m k : Z) : shr_record :=
  {| shr_m := m / 2 ^ k;
     shr_r := if k =? 0 then false else Z.odd (m / 2 ^ (k - 1));
     shr_s := if k =? 0 then false else negb (m mod 2 ^ (k - 1) =? 0) |}.

(** The value of a number in units of [2^-1074]; the infinities lie beyond
    every finite value. *)
Definition ord (x : spec_float) : Z :=
  match x with
  | S754_zero _ => 0
  | S754_infinity s => cond_Zopp s (2 ^ 2100)
  | S754_nan => 0
  | S754_finite s m e => cond_Zopp s (Zpos m * 2 ^ (e + 1074))
  end.

Definition ordf (x : number) : Z := ord (Prim2SF x).

(** The number is [+0] or positive and finite. *)
Definition nonneg_finite (y : number) : Prop :=
  match Prim2SF y with
  | S754_zero false | S754_finite false _ _ => True
  | _ => False
  end.

(** The integer [Math.round] yields on the rounded product of [v] and [C],
    all in units of [2^-1074]. *)
Definition steps (C v : Z) : Z := (2 * round64 (C * v) + 2 ^ 1074) / 2 ^ 1075.

(** The value of a number between 0 and 1, in units of [2^-1074]. *)
Definition unit_value (x : number) : Z := (Z.max 0 (Z.min (2 ^ 1074) (ordf x)))%Z.

End NumberVocabulary.

(** ** Finite checks *)

(** [p] holds of every integer from [0] up to [n - 1]. *)
Fixpoint all_below (n : nat) (p : Z -> bool) : bool :=
  match n with
  | O => true
  | S n' => p (Z.of_nat n') && all_below n' p
  end.

(** ** Two models that share a texture name *)

(** A processor for which the KTX2 texture of a model depends on the model:
    the document is the text of the model, and writing it yields the
    texture "wood.ktx2" whose bytes are that text. *)
Definition echo_library : GLTFProcessor.Library := {|
  GLTFProcessor.Document := string;
  GLTFProcessor.Buffer_from := NodeBuffer.from_in_new_pool;
  GLTFProcessor.JSON_parse := fun s => Ok (JString s);
  GLTFProcessor.JSON_stringify := fun j => match j with JString s => s | _ => "{}"%string end;
  GLTFProcessor.readJSON := fun j _ => Ok (match j with JString s => s | _ => EmptyString end);
  GLTFProcessor.readBinary := fun _ => Throw (Error "Invalid glTF");
  GLTFProcessor.writeJSON := fun d => Ok (JString d, [("wood.ktx2"%string, NodeBuffer.bytes_of_string d)]);
  GLTFProcessor.writeBinary := fun _ => Ok [];
  GLTFProcessor.setLogger := fun d => Ok d;
  GLTFProcessor.transform := fun d _ => Ok d;
  GLTFProcessor.path_resolve := fun dir uri => concat dir (concat "/" uri);
  GLTFProcessor.path_dirname := @GLTFProcessor.path_dirname recording_library;
  GLTFProcessor.path_basename := posix_basename
|}.

(** A host whose [glob] lists the models in a given order. *)
Definition ordered_host (order : list string) : Plugin.Host := {|
  Plugin.regexp_test := @Plugin.regexp_test simple_host;
  Plugin.path_relative := fun _ file => file;
  Plugin.path_join := @Plugin.path_join simple_host;
  Plugin.posix_join := @Plugin.posix_join simple_host;
  Plugin.glob := fun _ _ => order;
  Plugin.checkKTXAvailable := fun _ => true;
  Plugin.initialize := fun _ => Ok tt
|}.

(** A plugin instance with the default options over a public directory
    with two models in the same directory. *)
Definition two_models_start : option Plugin.Build :=
  match Plugin.optimizeGLTF None with
  | Some st =>
      Some {| Plugin.closure := st; Plugin.bundle := [];
              Plugin.world :=
                {| console := [];
                   files := {[ "gltf/a.gltf"%string := NodeBuffer.bytes_of_string "high";
                               "gltf/b.gltf"%string := NodeBuffer.bytes_of_string "low" ]} |} |}
  | None => None
  end.

(** One build in which the models are processed in the given order. *)
Definition build_in_order (order : list string) : Eff.M Plugin.Build unit :=
  _ ← Plugin.configResolved build_config;
  _ ← @Plugin.buildStart (ordered_host order);
  @Plugin.generateBundle echo_library (ordered_host order).

(** The bytes the bundle holds at a path. *)
Definition emitted_bytes (path : string) (b : Plugin.Build) : option (list Byte.byte) :=
  match assoc path (Plugin.bundle b) with
  | Some e =>
      match Plugin.entry_source e with
      | Plugin.SourceBuffer buf => Some (NodeBuffer.bytes buf)
      | _ => None
      end
  | None => None
  end.

(** A build that has not emitted anything yet: the options of the 'medium'
    preset (texture mode 'auto', quality 0.75), an empty cache and an empty
    bundle. *)
Definition fresh_build : Plugin.Build :=
  {| Plugin.closure :=
       {| Plugin.processedOptions := options_with quantize_c;
          Plugin.isInitialized := true;
          Plugin.config := Some build_config;
          Plugin.ktxAvailable := Some true;
          Plugin.warnedAboutKTX := false;
          Plugin.dependencyFiles := ∅;
          Plugin.originalFilesToCleanup := ∅;
          Plugin.optimizationStats := [];
          Plugin.sharedKTXCache := ∅ |};
     Plugin.bundle := [];
     Plugin.world := empty_world |}.

(** ** Options with another level *)

(** The options object [{ ...options, level }]. *)
Definition with_level (level : option string) (options : GLTFOptimizerOptions)
  : GLTFOptimizerOptions :=
  {| Options.level := level;
     Options.include := Options.include options;
     Options.exclude := Options.exclude options;
     Options.verbose := Options.verbose options;
     Options.geometry := Options.geometry options;
     Options.textures := Options.textures options |}.

(** ** The resources that [loadExternalResources] holds *)

Section ResourceVocabulary.
Import GLTFProcessor.
Context `{Library}.
Variable baseDir : string.
Variable w : World.

(** The file system is untouched, and every resource is the content of
    the file its URI resolves to, under a URI that does not start with
    "data:". *)
Definition load_sound (s : loading) : Prop :=
  files (fst s) = files w
  /\ (forall uri data, assoc uri (snd s) = Some data ->
        files w !! path_resolve baseDir uri = Some data
        /\ startsWith uri "data:" = false).

(** An element of [images] or [buffers] whose URI can be tested: the
    element is not [null], and its [uri], when truthy, is a string. *)
Definition testable (item : json) : Prop :=
  exists uri, external_uri item = Ok uri.

(** The resources after one more iteration of a loop of
    [loadExternalResources], on a testable element. *)
Definition stored (res : Resources) (item : json) : Resources :=
  match external_uri item with
  | Ok (Some uri) =>
      match files w !! path_resolve baseDir uri with
      | Some data => set_field uri data res
      | None => res
      end
  | _ => res
  end.

(** [gltfJson[key]] is absent, or is the array of [items]. *)
Definition group_of (gltfJson : json) (key : string) (items : list json) : Prop :=
  get gltfJson key = Ok (Some (JArray items))
  \/ (get gltfJson key = Ok None /\ items = []).

End ResourceVocabulary.

(** ** The file system during a build *)

(** The files of the world have the property [I]. *)
Definition files_inv (I : gmap string (list Byte.byte) -> Prop) (w : World) : Prop :=
  I (files w).

(** What [processFile] returns for the original bytes [data]. *)
Definition original (returnResources : bool) (data : list Byte.byte)
  : GLTFProcessor.FileResult :=
  if returnResources then GLTFProcessor.WithResources (NodeBuffer.from data) []
  else GLTFProcessor.Plain (NodeBuffer.from data).

(** A world with one file. *)
Definition one_file (path : string) (data : list Byte.byte) : World :=
  {| console := []; files := {[ path := data ]} |}.

(** ** Builds without the KTX tool *)

(** The simple host on a machine where the [ktx] tool is missing. *)
Definition host_without_ktx : Plugin.Host := {|
  Plugin.regexp_test := @Plugin.regexp_test simple_host;
  Plugin.path_relative := @Plugin.path_relative simple_host;
  Plugin.path_join := @Plugin.path_join simple_host;
  Plugin.posix_join := @Plugin.posix_join simple_host;
  Plugin.glob := @Plugin.glob simple_host;
  Plugin.checkKTXAvailable := fun _ => false;
  Plugin.initialize := fun _ => Ok tt
|}.

(** A plugin instance after [configResolved], before its first
    [buildStart]. *)
Definition configured_build : Plugin.Build :=
  {| Plugin.closure :=
       {| Plugin.processedOptions := options_with quantize_c;
          Plugin.isInitialized := false;
          Plugin.config := Some build_config;
          Plugin.ktxAvailable := None;
          Plugin.warnedAboutKTX := false;
          Plugin.dependencyFiles := ∅;
          Plugin.originalFilesToCleanup := ∅;
          Plugin.optimizationStats := [];
          Plugin.sharedKTXCache := ∅ |};
     Plugin.bundle := [];
     Plugin.world := empty_world |}.

(** The same closure in another build: another bundle, another world. *)
Definition next_build (b : Plugin.Build) (bundle : Plugin.Bundle) (w : World)
  : Plugin.Build :=
  {| Plugin.closure := Plugin.closure b; Plugin.bundle := bundle; Plugin.world := w |}.

(** A build after [generateBundle] scheduled one original texture for
    cleanup; the output directory holds a copy of it and the model. *)
Definition build_to_clean : Plugin.Build :=
  {| Plugin.closure :=
       {| Plugin.processedOptions := options_with quantize_c;
          Plugin.isInitialized := true;
          Plugin.config := Some build_config;
          Plugin.ktxAvailable := Some true;
          Plugin.warnedAboutKTX := false;
          Plugin.dependencyFiles := ∅;
          Plugin.originalFilesToCleanup := {[ "gltf/wood.png"%string ]};
          Plugin.optimizationStats := [];
          Plugin.sharedKTXCache := ∅ |};
     Plugin.bundle := [];
     Plugin.world :=
       {| console := [];
          files := {[ "dist/gltf/wood.png"%string := [Byte.x89];
                      "dist/gltf/a.glb"%string := tiny_glb ]} |} |}.

(** A plugin instance of a dev server, after [configResolved]. *)
Definition served_build : Plugin.Build :=
  {| Plugin.closure :=
       {| Plugin.processedOptions := options_with quantize_c;
          Plugin.isInitialized := false;
          Plugin.config := Some {| Plugin.command := "serve"; Plugin.publicDir := None |};
          Plugin.ktxAvailable := None;
          Plugin.warnedAboutKTX := false;
          Plugin.dependencyFiles := ∅;
          Plugin.originalFilesToCleanup := ∅;
          Plugin.optimizationStats := [];
          Plugin.sharedKTXCache := ∅ |};
     Plugin.bundle := [];
     Plugin.world := empty_world |}.

(** A bundle with one binary container and one script. *)
Definition model_entry : Plugin.BundleEntry :=
  {| Plugin.entry_type := "asset";
     Plugin.entry_fileName := "assets/model.glb";
     Plugin.entry_source := Plugin.SourceBuffer (NodeBuffer.from tiny_glb);
     Plugin.entry_name := Some "model.glb"%string |}.

Definition bundled_build : Plugin.Build :=
  {| Plugin.closure := Plugin.closure fresh_build;
     Plugin.bundle :=
       [("assets/model.glb"%string, model_entry);
        ("assets/index.js"%string,
         {| Plugin.entry_type := "chunk";
            Plugin.entry_fileName := "assets/index.js";
            Plugin.entry_source := Plugin.SourceString "export {}";
            Plugin.entry_name := None |})];
     Plugin.world := empty_world |}.

(** The build that follows the emission of one KTX2 texture by the same
    plugin instance: the cache holds the texture, the bundle is new. *)
Definition build_after_texture : Plugin.Build :=
  next_build
    (snd (@Plugin.emit_resource simple_host "gltf" "wood.ktx2" [Byte.x01] fresh_build))
    [] empty_world.

(** ** What a build keeps *)

Section BuildVocabulary.
Import GLTFProcessor Plugin.

(** Since the build [b0]: no file was written or deleted, the
    configuration and the options are the same, no path was removed from
    the sets of the closure, and the bundle has the property [R]. *)
Definition grows_from (R : Bundle -> Prop) (b0 b : Build) : Prop :=
  R (bundle b)
  /\ files (world b) = files (world b0)
  /\ config (closure b) = config (closure b0)
  /\ processedOptions (closure b) = processedOptions (closure b0)
  /\ dependencyFiles (closure b0) ⊆ dependencyFiles (closure b)
  /\ originalFilesToCleanup (closure b0) ⊆ originalFilesToCleanup (closure b).

(** Every file name of the bundle [B0] is a file name of [B]. *)
Definition keeps_entries (B0 B : Bundle) : Prop :=
  forall k, is_Some (assoc k B0) -> is_Some (assoc k B).

End BuildVocabulary.

Section CacheVocabulary.
Import GLTFProcessor Plugin.

(** Every path of the cache of KTX2 textures has an entry in the bundle. *)
Definition cache_in_bundle (b : Build) : Prop :=
  forall p, is_Some (sharedKTXCache (closure b) !! p) -> is_Some (assoc p (bundle b)).

End CacheVocabulary.

(* ===================================================================== *)
(** * Part III.  Properties                                               *)
(* ===================================================================== *)

(** ** Comparisons of binary64 numbers *)

Lemma SFcompare_antisym (x y : spec_float) :
  SFcompare y x = option_map CompOpp (SFcompare x y).
Proof.
  destruct x as [sx|sx| |sx mx ex], y as [sy|sy| |sy my ey]; simpl;
    try reflexivity;
    try (destruct sx; reflexivity);
    try (destruct sy; reflexivity);
    try (destruct sx, sy; reflexivity).
  assert (A : Pos.compare_cont Eq my mx = CompOpp (Pos.compare_cont Eq mx my))
    by (symmetry; apply (Pos.compare_cont_antisym mx my Eq)).
  destruct sx, sy; simpl; try reflexivity;
    rewrite (Z.compare_antisym ex ey);
    destruct (ex ?= ey)%Z; simpl; try reflexivity;
    rewrite A; try rewrite CompOpp_involutive; reflexivity.
Qed.

Lemma isNaN_false (x : number) :
  isNaN x = false -> Prim2SF x <> S754_nan.
Proof.
  unfold isNaN, is_nan. rewrite FloatAxioms.eqb_spec. intros E N.
  rewrite N in E. discriminate E.
Qed.

Lemma isNaN_true (x : number) :
  isNaN x = true -> x = nan.
Proof.
  unfold isNaN, is_nan. rewrite FloatAxioms.eqb_spec. intros E.
  apply Prim2SF_inj. change (Prim2SF nan) with S754_nan.
  destruct (Prim2SF x) as [s|s| |s m e]; try reflexivity; try discriminate E.
  - destruct s; discriminate E.
  - exfalso. unfold SFeqb, SFcompare in E.
    rewrite Z.compare_refl, Pos.compare_cont_refl in E. destruct s; discriminate E.
Qed.

Lemma SFcompare_not_nan (x y : spec_float) :
  x <> S754_nan -> y <> S754_nan -> SFcompare x y <> None.
Proof.
  destruct x, y; simpl; congruence.
Qed.

(** [!(y < x)] gives [x <= y] for numbers that are not NaN. *)
Lemma leb_of_not_ltb (x y : number) :
  isNaN x = false -> isNaN y = false -> (y <? x)%float = false -> (x <=? y)%float = true.
Proof.
  intros Nx Ny. rewrite ltb_spec, leb_spec. unfold SFltb, SFleb.
  rewrite (SFcompare_antisym (Prim2SF x) (Prim2SF y)).
  pose proof (SFcompare_not_nan _ _ (isNaN_false x Nx) (isNaN_false y Ny)) as NN.
  destruct (SFcompare (Prim2SF x) (Prim2SF y)) as [[ | | ]|]; simpl; congruence.
Qed.

(** [!(x <= y)] gives [y < x] for numbers that are not NaN. *)
Lemma ltb_of_not_leb (x y : number) :
  isNaN x = false -> isNaN y = false -> (x <=? y)%float = false -> (y <? x)%float = true.
Proof.
  intros Nx Ny. rewrite ltb_spec, leb_spec. unfold SFltb, SFleb.
  rewrite (SFcompare_antisym (Prim2SF x) (Prim2SF y)).
  pose proof (SFcompare_not_nan _ _ (isNaN_false x Nx) (isNaN_false y Ny)) as NN.
  destruct (SFcompare (Prim2SF x) (Prim2SF y)) as [[ | | ]|]; simpl; congruence.
Qed.

Lemma Number_isInteger_not_nan (x : number) :
  Number_isInteger x = true -> isNaN x = false.
Proof.
  intros I. destruct (isNaN x) eqn:E; [|reflexivity].
  apply isNaN_true in E. subst x. discriminate I.
Qed.

(** ** PresetManager: C10 and C2 *)

Section PresetManagerProperties.
Import PresetManager.

(** C10: [processOptions({})] (and [processOptions()]) returns a record
    equal to [processOptions({ level: 'medium' })]; the groups [geometry]
    and [textures] of the base defaults merged with the 'medium' preset are
    the groups of the base defaults themselves. *)
Theorem C10_empty_options_equal_medium :
  processOptions (Some Options.empty) = processOptions (Some level_medium_only)
  /\ processOptions None = processOptions (Some level_medium_only)
  /\ Options.geometry (deepMerge [baseDefaults; getPreset "medium"])
     = Options.geometry baseDefaults
  /\ Options.textures (deepMerge [baseDefaults; getPreset "medium"])
     = Options.textures baseDefaults.
Proof. repeat split; reflexivity. Qed.

Lemma in_unit_range (x : number) :
  out_of_unit_range x = false -> between 0%float 1%float x = true.
Proof.
  unfold out_of_unit_range, between. intros E.
  apply orb_false_elim in E as [E N]. apply orb_false_elim in E as [L U].
  rewrite (leb_of_not_ltb 0%float x eq_refl N L).
  rewrite (leb_of_not_ltb x 1%float N eq_refl U). reflexivity.
Qed.

Lemma positive_integer (x : number) :
  not_positive_integer x = false ->
  (0 <? x)%float = true /\ Number_isInteger x = true.
Proof.
  unfold not_positive_integer. intros E.
  apply orb_false_elim in E as [L I]. apply negb_false_iff in I.
  split; [|exact I].
  apply ltb_of_not_leb; [apply Number_isInteger_not_nan, I|reflexivity|exact L].
Qed.

Lemma assign_is_Some {A} (r v : option A) : is_Some r -> is_Some (assign r v).
Proof. destruct v; simpl; eauto. Qed.

Lemma merge_geometry_full (result obj : Geometry.t) :
  full_geometry result -> full_geometry (merge_geometry result obj).
Proof.
  intros (? & ? & ? & ?). repeat split; simpl; apply assign_is_Some; assumption.
Qed.

Lemma merge_textures_full (result obj : Textures.t) :
  full_textures result -> full_textures (merge_textures result obj).
Proof.
  intros (? & ? & ? & ? & ?). repeat split; simpl; apply assign_is_Some; assumption.
Qed.

Lemma merge_geometry_empty (g : Geometry.t) : merge_geometry Geometry.empty g = g.
Proof. destruct g as [[?|] [?|] [?|] [?|]]; reflexivity. Qed.

Lemma merge_textures_empty (x : Textures.t) : merge_textures Textures.empty x = x.
Proof. destruct x as [[?|] [?|] [?|] [?|] [?|]]; reflexivity. Qed.

Lemma merge_options_full (result obj : GLTFOptimizerOptions) :
  full_options result -> full_options (merge_options result obj).
Proof.
  intros (Hl & Hi & Hv & (g & Eg & Fg) & (x & Ex & Fx)).
  repeat split; simpl; try (apply assign_is_Some; assumption).
  - destruct (Options.geometry obj) as [value|]; [|eauto].
    eexists; split; [reflexivity|].
    rewrite Eg. unfold deepMerge_geometry. cbn [fold_left].
    rewrite merge_geometry_empty. apply merge_geometry_full, Fg.
  - destruct (Options.textures obj) as [value|]; [|eauto].
    eexists; split; [reflexivity|].
    rewrite Ex. unfold deepMerge_textures. cbn [fold_left].
    rewrite merge_textures_empty. apply merge_textures_full, Fx.
Qed.

Lemma full_options_cast (o : GLTFOptimizerOptions) :
  full_options o -> exists p, as_ProcessedOptions o = Some p.
Proof.
  intros ([l El] & [i Ei] & [v Ev] & (g & Eg & Fg) & (x & Ex & Fx)).
  destruct Fg as ([c Ec] & [q Eq] & [s Es] & [p Ep]).
  destruct Fx as ([m Em] & [tq Etq] & [ms Ems] & [ep Eep] & [up Eup]).
  unfold as_ProcessedOptions, as_PGeometry, as_PTextures.
  rewrite El, Ei, Ev, Eg, Ex, Ec, Eq, Es, Ep, Em, Etq, Ems, Eep, Eup.
  eexists; reflexivity.
Qed.

Lemma baseDefaults_full : full_options (merge_options Options.empty baseDefaults).
Proof.
  repeat split; simpl; eauto.
  - eexists; split; [reflexivity|]. repeat split; simpl; eauto.
  - eexists; split; [reflexivity|]. repeat split; simpl; eauto.
Qed.

(** The merged object has every required field: the cast
    [merged as ProcessedOptions] is sound. *)
Lemma processOptions_fully_populated (options : option GLTFOptimizerOptions) :
  exists p, as_ProcessedOptions (processOptions options) = Some p.
Proof.
  unfold processOptions.
  set (o := match options with Some o => o | None => Options.empty end).
  set (preset := match Options.level o with
                 | Some l => if truthy_string l then getPreset l else Options.empty
                 | None => Options.empty end).
  assert (F : full_options (deepMerge [baseDefaults; preset; o])).
  { unfold deepMerge. cbn [fold_left].
    do 2 apply merge_options_full. apply baseDefaults_full. }
  destruct (Options.exclude o), (Options.exclude preset);
    apply full_options_cast, F.
Qed.

Lemma validate_reset (o : ProcessedOptions) : reset_to_defaults o (fst (validate o)).
Proof.
  unfold reset_to_defaults, validate.
  destruct (out_of_unit_range (PGeometry.quality (Processed.geometry o)));
  destruct (out_of_unit_range (PGeometry.speed (Processed.geometry o)));
  destruct (out_of_unit_range (PGeometry.precision (Processed.geometry o)));
  destruct (out_of_unit_range (PTextures.quality (Processed.textures o)));
  destruct (not_positive_integer (PTextures.maxSize (Processed.textures o)));
  simpl; repeat split; reflexivity.
Qed.

Lemma unit_range_cases (x d : number) :
  out_of_unit_range d = false ->
  out_of_unit_range (if out_of_unit_range x then d else x) = false.
Proof. intros D. destruct (out_of_unit_range x) eqn:E; assumption. Qed.

Lemma positive_integer_cases (x d : number) :
  not_positive_integer d = false ->
  not_positive_integer (if not_positive_integer x then d else x) = false.
Proof. intros D. destruct (not_positive_integer x) eqn:E; assumption. Qed.

(** A record whose numeric fields pass the tests is left as it is, and no
    warning is recorded. *)
Lemma validate_fixpoint (o : ProcessedOptions) :
  out_of_unit_range (PGeometry.quality (Processed.geometry o)) = false ->
  out_of_unit_range (PGeometry.speed (Processed.geometry o)) = false ->
  out_of_unit_range (PGeometry.precision (Processed.geometry o)) = false ->
  out_of_unit_range (PTextures.quality (Processed.textures o)) = false ->
  not_positive_integer (PTextures.maxSize (Processed.textures o)) = false ->
  validate o = (o, []).
Proof.
  intros A B C D E. unfold validate. rewrite A, B, C, D, E.
  destruct o as [l i e v [c q s p] [m tq ms ep up]]. reflexivity.
Qed.

Lemma validate_passes (o : ProcessedOptions) :
  let o' := fst (validate o) in
  out_of_unit_range (PGeometry.quality (Processed.geometry o')) = false
  /\ out_of_unit_range (PGeometry.speed (Processed.geometry o')) = false
  /\ out_of_unit_range (PGeometry.precision (Processed.geometry o')) = false
  /\ out_of_unit_range (PTextures.quality (Processed.textures o')) = false
  /\ not_positive_integer (PTextures.maxSize (Processed.textures o')) = false.
Proof.
  destruct (validate_reset o) as (A & B & C & D & E & _).
  cbv zeta. rewrite A, B, C, D, E.
  repeat split;
    (apply unit_range_cases; reflexivity) || (apply positive_integer_cases; reflexivity).
Qed.

(** [validateOptions] is idempotent on the contents of the object. *)
Lemma validate_idempotent (o : ProcessedOptions) :
  validate (fst (validate o)) = (fst (validate o), []).
Proof.
  destruct (validate_passes o) as (A & B & C & D & E).
  apply validate_fixpoint; assumption.
Qed.

Lemma validate_in_ranges (o : ProcessedOptions) : in_ranges (fst (validate o)).
Proof.
  destruct (validate_passes o) as (A & B & C & D & E).
  unfold in_ranges.
  repeat split; try (apply in_unit_range; assumption);
    apply positive_integer; assumption.
Qed.

(** C2: for every options argument (absent, empty, partial, with numeric
    fields that are NaN or out of range), [processOptions] returns an
    object with every required field present; [validateOptions] on that
    object does not throw, returns the reference it was given, leaves
    every numeric field in its range -- [geometry.quality],
    [geometry.speed], [geometry.precision] and [textures.quality] in
    [0, 1], [textures.maxSize] a positive integer --, resets exactly the
    fields that fail their test to 0.75 / 0.5 / 0.8 / 0.75 / 1024, and a
    second call changes nothing and returns the same reference again. *)
Theorem C2_resolve_then_validate
  (options : option GLTFOptimizerOptions) (verbose : option bool)
  (r : ref) (h : heap) :
  exists p res,
    as_ProcessedOptions (processOptions options) = Some p
    /\ validateOptions r verbose (<[r := p]> h) = Some res
    /\ returned res = r
    /\ (exists p',
          heap_after res !! r = Some p'
          /\ in_ranges p'
          /\ reset_to_defaults p p')
    /\ (forall r', r' <> r -> heap_after res !! r' = h !! r')
    /\ (exists res',
          validateOptions r verbose (heap_after res) = Some res'
          /\ returned res' = r
          /\ heap_after res' = heap_after res
          /\ printed res' = []).
Proof.
  destruct (processOptions_fully_populated options) as [p Ep].
  exists p.
  destruct (validate p) as [p' ws] eqn:V.
  assert (P' : p' = fst (validate p)) by (rewrite V; reflexivity).
  assert (V' : validate p' = (p', [])) by (subst p'; apply validate_idempotent).
  eexists. split; [exact Ep|]. split.
  { unfold validateOptions. rewrite lookup_insert_eq, V. reflexivity. }
  cbn [returned heap_after printed].
  split; [reflexivity|]. split.
  { exists p'. rewrite lookup_insert_eq. split; [reflexivity|].
    subst p'. split; [apply validate_in_ranges|apply validate_reset]. }
  split.
  { intros r' Hr. rewrite insert_insert_eq. rewrite lookup_insert_ne by congruence.
    reflexivity. }
  eexists. split.
  { unfold validateOptions. rewrite lookup_insert_eq, V'. reflexivity. }
  cbn [returned heap_after printed]. split; [reflexivity|]. split.
  - rewrite insert_insert_eq. reflexivity.
  - rewrite andb_false_r. reflexivity.
Qed.

End PresetManagerProperties.

(** ** Reasoning about computations *)

Section Computations.
Context {S : Type}.

Lemma run_bind {A B} (m : Eff.M S A) (k : A -> Eff.M S B) (s : S) :
  (m ≫= k) s
  = match m s with
    | (Ok a, s') => k a s'
    | (Throw e, s') => (Throw e, s')
    end.
Proof. reflexivity. Qed.

Lemma bind_Ok_inv {A B} (m : Eff.M S A) (k : A -> Eff.M S B) (s s' : S) (b : B) :
  (m ≫= k) s = (Ok b, s') ->
  exists a s1, m s = (Ok a, s1) /\ k a s1 = (Ok b, s').
Proof.
  rewrite run_bind. destruct (m s) as [[a|e] s1]; [eauto|discriminate].
Qed.

Lemma throws_bind_l {A B} (m : Eff.M S A) (k : A -> Eff.M S B) :
  throws m -> throws (m ≫= k).
Proof.
  intros T s. destruct (T s) as (e & s' & E). rewrite run_bind, E. eauto.
Qed.

Lemma throws_bind_r {A B} (m : Eff.M S A) (k : A -> Eff.M S B) :
  (forall a, throws (k a)) -> throws (m ≫= k).
Proof.
  intros T s. rewrite run_bind. destruct (m s) as [[a|e] s1]; [apply T|eauto].
Qed.

Lemma throws_lift {A} (e : error) : throws (Eff.lift (S := S) (A := A) (Throw e)).
Proof. intros s. unfold Eff.lift. eauto. Qed.

Lemma throws_throw {A} (e : error) : throws (Eff.throw (S := S) (A := A) e).
Proof. intros s. unfold Eff.throw. eauto. Qed.

Lemma returns_bind {A B} (m : Eff.M S A) (k : A -> Eff.M S B) :
  returns m -> (forall a, returns (k a)) -> returns (m ≫= k).
Proof.
  intros R K s. destruct (R s) as (a & s1 & E). rewrite run_bind, E. apply K.
Qed.

Lemma returns_ret {A} (a : A) : returns (mret a : Eff.M S A).
Proof. intros s. do 2 eexists. reflexivity. Qed.

Lemma returns_modify (f : S -> S) : returns (Eff.modify f).
Proof. intros s. do 2 eexists. reflexivity. Qed.

Lemma returns_when (c : bool) (m : Eff.M S unit) : returns m -> returns (Eff.when c m).
Proof. intros R. destruct c; [exact R|apply returns_ret]. Qed.

(** A [try] with a handler that returns always returns. *)
Lemma for_of_step {A V} (x : A) (r : list A) (body : A -> V -> Eff.M S V)
    (v v' : V) (s s' : S) :
  body x v s = (Ok v', s') ->
  Eff.for_of (x :: r) body v s = Eff.for_of r body v' s'.
Proof. intros E. cbn [Eff.for_of]. unfold Eff.bind. rewrite E. reflexivity. Qed.

Lemma returns_for_of {A V} (l : list A) (body : A -> V -> Eff.M S V) (v : V) :
  (forall x v', returns (body x v')) -> returns (Eff.for_of l body v).
Proof.
  intros Hb. revert v. induction l as [|x l IH]; intros v; cbn [Eff.for_of].
  - apply returns_ret.
  - apply returns_bind; [apply Hb|apply IH].
Qed.

Lemma returns_try_catch {A} (body : Eff.M S A) (handler : error -> Eff.M S A) :
  (forall e, returns (handler e)) -> returns (Eff.try_catch body handler).
Proof.
  intros Hh s. unfold Eff.try_catch. destruct (body s) as [[a|e] s1]; [eauto|apply Hh].
Qed.

Lemma try_catch_cases {A} (body : Eff.M S A) (handler : error -> Eff.M S A) (s : S) :
  (exists a s', body s = (Ok a, s') /\ Eff.try_catch body handler s = (Ok a, s'))
  \/ (exists e s', body s = (Throw e, s') /\ Eff.try_catch body handler s = handler e s').
Proof.
  unfold Eff.try_catch. destruct (body s) as [[a|e] s1]; [left|right]; eauto.
Qed.

End Computations.

Lemma returns_print (l : line) : returns (print l).
Proof. apply returns_modify. Qed.

(** ** GLTFProcessor.processBuffer: C1 *)

Section ProcessBuffer.
Import GLTFProcessor.
Context `{Library}.
Variable options : ProcessedOptions.

(** The [catch] block of [processBuffer] returns the input buffer. *)
Lemma processBuffer_handler (inputBuffer : Buffer) (fileName : string) (e : error) (w : World) :
  (_ ← print (console_error (Failed_to_process fileName e)); mret inputBuffer) w
  = (Ok inputBuffer,
     {| console := console w ++ [console_error (Failed_to_process fileName e)];
        files := files w |}).
Proof. reflexivity. Qed.

(** A line that is printed in verbose mode only. *)
Lemma verbose_line (c : bool) (l : line) (w : World) :
  exists w', Eff.when c (print l) w = (Ok tt, w') /\ files w' = files w.
Proof. destruct c; eexists; split; reflexivity. Qed.

Ltac verbose_line w' F :=
  match goal with
  | |- context [Eff.when ?c (print ?l) ?w0] =>
      destruct (verbose_line c l w0) as (w' & -> & F)
  end.

(** The loading step yields [loaded]. *)
Lemma loading_result (inputBuffer : Buffer) (fileName : string) (w : World) :
  (if endsWith (toLowerCase fileName) ".gltf" then
     let jsonString := NodeBuffer.toString_utf8 inputBuffer in
     j ← Eff.lift (JSON_parse jsonString);
     Eff.lift (readJSON j [])
   else if endsWith (toLowerCase fileName) ".glb" then
     Eff.lift (readBinary (NodeBuffer.bytes inputBuffer))
   else
     Eff.throw (Error (concat "Unsupported file format: " fileName))) w
  = (loaded inputBuffer fileName, w).
Proof.
  unfold loaded.
  destruct (endsWith (toLowerCase fileName) ".gltf").
  - cbv zeta. rewrite run_bind. unfold Eff.lift.
    destruct (JSON_parse (NodeBuffer.toString_utf8 inputBuffer)); reflexivity.
  - destruct (endsWith (toLowerCase fileName) ".glb"); reflexivity.
Qed.

Lemma logger_result (document : Document) (w : World) :
  (if verbose options then Eff.lift (setLogger document) else mret document) w
  = (with_logger options document, w).
Proof. unfold with_logger. destruct (verbose options); reflexivity. Qed.

(** The geometry step yields [geometry_optimized], and writes no file. *)
Lemma applyGeometryOptimizations_result (document : Document) (fileName : string)
    (w : World) :
  exists w',
    applyGeometryOptimizations options document fileName w
    = (geometry_optimized options document, w')
    /\ files w' = files w.
Proof.
  unfold applyGeometryOptimizations, geometry_optimized. cbv zeta.
  rewrite run_bind. verbose_line w0 F0.
  rewrite run_bind. unfold Eff.lift at 1.
  destruct (transform document [prune; dedup]) as [d1|e];
    [|exists w0; split; [reflexivity|exact F0]].
  cbn [and_then].
  destruct (PGeometry.compress (Processed.geometry options));
    rewrite run_bind;
    try (unfold Eff.lift at 1;
         destruct (transform d1 _) as [d2|e]; [|exists w0; split; [reflexivity|exact F0]]);
    cbn [mret M_ret Eff.ret];
    rewrite run_bind; verbose_line w1 F1; cbn [and_then]; unfold Eff.lift;
    exists w1; (split; [reflexivity|congruence]).
Qed.

(** The texture step yields [texture_optimized], and writes no file. *)
Lemma applyTextureOptimizations_result (document : Document) (fileName : string)
    (w : World) :
  exists w',
    applyTextureOptimizations options document fileName w
    = (texture_optimized options document, w')
    /\ files w' = files w.
Proof.
  unfold applyTextureOptimizations, texture_optimized. cbv zeta.
  rewrite run_bind. verbose_line w0 F0.
  rewrite run_bind. verbose_line w1 F1.
  rewrite run_bind.
  destruct (PTextures.mode (Processed.textures options));
    rewrite run_bind; verbose_line w2 F2; unfold Eff.lift at 1;
    (destruct (transform document _) as [d|e];
     [rewrite run_bind; verbose_line w3 F3; exists w3; split; [reflexivity|congruence]
     |exists w2; split; [reflexivity|congruence]]).
Qed.

(** C1: [processBuffer] never throws, for every buffer, file name, options
    and behaviour of the library.  When every stage succeeds -- loading the
    document, setting its logger (in verbose mode), the transforms of the
    geometry mode, those of the texture mode, writing the binary container
    -- it returns a buffer with a copy of the bytes written.  When any of
    these stages throws, it returns the input buffer itself, and the last
    line it prints is the error.  It writes no file. *)
Theorem C1_processBuffer_never_throws
  (inputBuffer : Buffer) (fileName : string) (w : World) :
  exists w',
    processBuffer options inputBuffer fileName w
    = (Ok (match optimized options inputBuffer fileName with
           | Ok data => Buffer_from data
           | Throw _ => inputBuffer
           end), w')
    /\ files w' = files w
    /\ (forall e, optimized options inputBuffer fileName = Throw e ->
          exists before,
            console w' = before ++ [console_error (Failed_to_process fileName e)]).
Proof.
  unfold processBuffer. rewrite run_bind. verbose_line w0 F0.
  unfold Eff.try_catch.
  match goal with
  | |- context [match ?body w0 with _ => _ end] =>
      assert (B : exists w1,
                 body w0
                 = (and_then (optimized options inputBuffer fileName)
                      (fun data => Ok (Buffer_from data)), w1)
                 /\ files w1 = files w0)
  end.
  { unfold optimized.
    rewrite run_bind, loading_result.
    destruct (loaded inputBuffer fileName) as [d0|e];
      [|exists w0; split; reflexivity].
    rewrite run_bind, logger_result. cbn [and_then].
    destruct (with_logger options d0) as [d1|e]; [|exists w0; split; reflexivity].
    rewrite run_bind.
    destruct (applyGeometryOptimizations_result d1 fileName w0) as (w1 & -> & F1).
    cbn [and_then].
    destruct (geometry_optimized options d1) as [d2|e];
      [|exists w1; split; [reflexivity|exact F1]].
    rewrite run_bind.
    destruct (applyTextureOptimizations_result d2 fileName w1) as (w2 & -> & F2).
    cbn [and_then].
    destruct (texture_optimized options d2) as [d3|e];
      [|exists w2; split; [reflexivity|congruence]].
    rewrite run_bind. unfold Eff.lift at 1. cbn [and_then].
    destruct (writeBinary d3) as [data|e]; [|exists w2; split; [reflexivity|congruence]].
    rewrite run_bind. verbose_line w3 F3. cbn [and_then].
    exists w3. split; [reflexivity|congruence]. }
  destruct B as (w1 & -> & F1).
  destruct (optimized options inputBuffer fileName) as [data|e]; cbn [and_then].
  - exists w1. split; [reflexivity|]. split; [congruence|]. intros e E. discriminate E.
  - rewrite processBuffer_handler. eexists. split; [reflexivity|]. cbn [files console].
    split; [congruence|]. intros e' [= <-]. exists (console w1). reflexivity.
Qed.

End ProcessBuffer.

(** ** A Hoare logic for computations that may throw *)

Section Hoare.
Context {S : Type}.

Lemma triple_ret {A} (P : S -> Prop) (E : S -> Prop) (a : A) :
  triple P (mret a) (fun a' s => a' = a /\ P s) E.
Proof. intros s Hs. simpl. auto. Qed.

Lemma triple_bind {A B} (P : S -> Prop) (m : Eff.M S A) (k : A -> Eff.M S B)
  (Q : A -> S -> Prop) (R : B -> S -> Prop) (E : S -> Prop) :
  triple P m Q E ->
  (forall a, triple (Q a) (k a) R E) ->
  triple P (m ≫= k) R E.
Proof.
  intros Hm Hk s Hs. rewrite run_bind. specialize (Hm s Hs).
  destruct (m s) as [[a|e] s1]; [apply (Hk a s1 Hm)|exact Hm].
Qed.

Lemma triple_conseq {A} (P P' : S -> Prop) (m : Eff.M S A)
  (Q Q' : A -> S -> Prop) (E E' : S -> Prop) :
  triple P' m Q' E' ->
  (forall s, P s -> P' s) ->
  (forall a s, Q' a s -> Q a s) ->
  (forall s, E' s -> E s) ->
  triple P m Q E.
Proof.
  intros Hm HP HQ HE s Hs. specialize (Hm s (HP s Hs)).
  destruct (m s) as [[a|e] s1]; auto.
Qed.

Lemma triple_lift {A} (P : S -> Prop) (r : Exc A) :
  triple P (Eff.lift r) (fun a s => r = Ok a /\ P s) P.
Proof. intros s Hs. unfold Eff.lift. destruct r; auto. Qed.

Lemma triple_throw {A} (P : S -> Prop) (Q : A -> S -> Prop) (e : error) :
  triple P (Eff.throw e) Q P.
Proof. intros s Hs. exact Hs. Qed.

Lemma triple_try_catch {A} (P : S -> Prop) (body : Eff.M S A)
  (handler : error -> Eff.M S A) (Q : A -> S -> Prop) (E E' : S -> Prop) :
  triple P body Q E' ->
  (forall e, triple E' (handler e) Q E) ->
  triple P (Eff.try_catch body handler) Q E.
Proof.
  intros Hb Hh s Hs. unfold Eff.try_catch. specialize (Hb s Hs).
  destruct (body s) as [[a|e] s1]; [exact Hb|apply (Hh e s1 Hb)].
Qed.

Lemma triple_when (P : S -> Prop) (c : bool) (m : Eff.M S unit) (E : S -> Prop) :
  triple P m (fun _ => P) E ->
  triple P (Eff.when c m) (fun _ => P) E.
Proof.
  intros Hm. destruct c; [exact Hm|]. intros s Hs. exact Hs.
Qed.

(** A loop keeps an invariant that its body keeps. *)
Lemma triple_for_of {A V} (I : S -> Prop) (l : list A) (body : A -> V -> Eff.M S V) (v : V) :
  (forall x v', triple I (body x v') (fun _ => I) I) ->
  triple I (Eff.for_of l body v) (fun _ => I) I.
Proof.
  intros Hb. revert v. induction l as [|x l IH]; intros v.
  - intros s Hs. exact Hs.
  - simpl. eapply triple_bind; [apply Hb|]. intros v'. apply IH.
Qed.

Lemma triple_modify (P Q : S -> Prop) (f : S -> S) (E : S -> Prop) :
  (forall s, P s -> Q (f s)) ->
  triple P (Eff.modify f) (fun _ => Q) E.
Proof. intros Hf s Hs. simpl. auto. Qed.

Lemma triple_get_state (P : S -> Prop) (E : S -> Prop) :
  triple P Eff.get_state (fun a s => a = s /\ P s) E.
Proof. intros s Hs. simpl. auto. Qed.

(** The same rules for an invariant. *)
Lemma triple_ret_inv {A} (I : S -> Prop) (a : A) :
  triple I (mret a) (fun _ => I) I.
Proof. intros s Hs. exact Hs. Qed.

Lemma triple_lift_inv {A} (I : S -> Prop) (r : Exc A) :
  triple I (Eff.lift r) (fun _ => I) I.
Proof. intros s Hs. unfold Eff.lift. destruct r; exact Hs. Qed.

Lemma triple_get_state_inv (I : S -> Prop) :
  triple I Eff.get_state (fun _ => I) I.
Proof. intros s Hs. exact Hs. Qed.

(** A computation that keeps [I] and returns does not throw from [I]. *)
Lemma triple_returning {A} (I : S -> Prop) (m : Eff.M S A) :
  triple I m (fun _ => I) I -> returns m -> triple I m (fun _ => I) (fun _ => False).
Proof.
  intros P Rm s Hs. specialize (P s Hs). destruct (Rm s) as (a & s' & E).
  rewrite E in *. exact P.
Qed.

End Hoare.

(** ** JavaScript objects as lists of entries *)

Lemma assoc_set_field {A} (k k' : string) (x : A) (l : list (string * A)) :
  assoc k (set_field k' x l) = if String.eqb k k' then Some x else assoc k l.
Proof.
  induction l as [|[k0 v0] l IH]; simpl.
  - reflexivity.
  - destruct (String.eqb k' k0) eqn:E0; simpl.
    + apply String.eqb_eq in E0. subst k0.
      destruct (String.eqb k k'); reflexivity.
    + destruct (String.eqb k k0) eqn:E1.
      * apply String.eqb_eq in E1. subst k0.
        rewrite String.eqb_sym, E0. reflexivity.
      * exact IH.
Qed.

(** ** GLTFProcessor.loadExternalResources: C6 *)

Section LoadExternalResources.
Import GLTFProcessor.
Context `{Library}.
Variable options : ProcessedOptions.
Variable baseDir : string.
Variable w : World.

Lemma load_inv_warn (m : message) :
  triple (load_inv options baseDir w)
    (Eff.when (verbose options) (GLTFProcessor.in_world (print (console_warn m))))
    (fun _ => (load_inv options baseDir w)) (load_inv options baseDir w).
Proof.
  intros [w0 res] (F & K & C). unfold Eff.when.
  destruct (verbose options) eqn:V; simpl.
  - repeat split; [exact F|exact K|intros; congruence].
  - repeat split; auto.
Qed.

Lemma load_inv_log (c : bool) (m : message) :
  triple (load_inv options baseDir w)
    (Eff.when (verbose options && c) (GLTFProcessor.in_world (print (console_log m))))
    (fun _ => (load_inv options baseDir w)) (load_inv options baseDir w).
Proof.
  intros [w0 res] (F & K & C). unfold Eff.when.
  destruct (verbose options) eqn:V; destruct c; simpl;
    repeat split; auto; try (intros; congruence).
Qed.

Lemma load_inv_read (path : string) :
  triple (load_inv options baseDir w) (GLTFProcessor.in_world (fs_readFile path))
    (fun data s => (load_inv options baseDir w) s /\ files w !! path = Some data) (load_inv options baseDir w).
Proof.
  intros [w0 res] (F & K & C).
  unfold GLTFProcessor.in_world, Eff.zoom, fs_readFile. simpl.
  destruct (files w0 !! path) as [data|] eqn:E; simpl.
  - split; [repeat split; assumption|]. rewrite <- F. exact E.
  - repeat split; assumption.
Qed.

Lemma load_inv_store (uri : string) (data : list Byte.byte) :
  triple (fun s => (load_inv options baseDir w) s /\ files w !! path_resolve baseDir uri = Some data)
    (store_resource uri data) (fun _ => (load_inv options baseDir w)) (load_inv options baseDir w).
Proof.
  apply triple_modify. intros [w0 res] [(F & K & C) E]. simpl.
  repeat split; try assumption.
  intros k. simpl in *. rewrite assoc_set_field.
  destruct (String.eqb k uri) eqn:Ek; [|apply K].
  apply String.eqb_eq in Ek. subst k. intros _. rewrite E. eauto.
Qed.

Lemma load_group_inv (gltfJson : json) (key : string) (failed : string -> message) :
  triple (load_inv options baseDir w) (load_group options gltfJson baseDir key failed)
    (fun _ => (load_inv options baseDir w)) (load_inv options baseDir w).
Proof.
  unfold load_group.
  eapply triple_bind; [apply triple_lift_inv|]. intros group.
  destruct (truthy group); [|apply triple_ret_inv].
  eapply triple_bind; [apply triple_lift_inv|].
  intros items. apply triple_for_of. intros item _.
  eapply triple_bind; [apply triple_lift_inv|].
  intros [uri|]; [|apply triple_ret_inv].
  eapply triple_try_catch.
  - eapply triple_bind; [apply load_inv_read|]. intros data.
    apply load_inv_store.
  - intros e. apply load_inv_warn.
Qed.

(** C6: for every JSON value, directory and file system,
    [loadExternalResources] returns a resource map and does not throw;
    it changes no file; a URI whose file cannot be read is not a key of
    the map it returns; and it prints nothing unless [verbose] is set.
    A referenced file that is missing therefore only makes the resource
    set smaller. *)
Theorem C6_missing_resource_is_skipped (gltfJson : json) :
  exists resources w',
    loadExternalResources options gltfJson baseDir w = (Ok resources, w')
    /\ files w' = files w
    /\ (forall uri, files w !! path_resolve baseDir uri = None ->
                    assoc uri resources = None)
    /\ (verbose options = false -> console w' = console w).
Proof.
  unfold loadExternalResources.
  match goal with
  | |- context [Eff.try_catch ?body ?handler (w, [])] =>
      assert (T : triple (load_inv options baseDir w) (Eff.try_catch body handler)
                    (fun _ => (load_inv options baseDir w)) (load_inv options baseDir w))
  end.
  { eapply triple_try_catch.
    - eapply triple_bind; [apply load_group_inv|]. intros ?.
      eapply triple_bind; [apply load_group_inv|]. intros ?.
      eapply triple_bind.
      { eapply triple_bind; [apply triple_get_state_inv|]. intros s.
        apply triple_ret_inv. }
      intros resources. apply load_inv_log.
    - intros e. apply load_inv_warn. }
  assert (I0 : (load_inv options baseDir w) (w, [])).
  { repeat split; simpl; auto. intros uri [x Hx]. discriminate Hx. }
  specialize (T (w, []) I0).
  match goal with
  | |- context [Eff.try_catch ?body ?handler (w, [])] =>
      generalize dependent (Eff.try_catch body handler (w, []))
  end.
  intros [r [w' resources]] T.
  exists resources, w'. split; [reflexivity|].
  assert (I1 : (load_inv options baseDir w) (w', resources)) by (destruct r; exact T).
  destruct I1 as (F & K & C). simpl in *.
  repeat split; try assumption.
  intros uri N. destruct (assoc uri resources) eqn:E; [|reflexivity].
  destruct (K uri) as [x Hx]; [eauto|]. congruence.
Qed.

End LoadExternalResources.

(** ** GLTFProcessor.applyGeometryOptimizations: C4 *)

Section GeometryOptimizations.
Import GLTFProcessor.

(** C4, the claim as it stands, fails: in the mode 'meshopt' no meshopt
    transform reaches the document (only [prune], [dedup] and [quantize]
    do), and in the mode 'both' only [draco] follows them. *)
Lemma C4_counterexample_no_meshopt_transform :
  (exists d, fst (@applyGeometryOptimizations recording_library (options_with meshopt_c) [] "a.glb" empty_world)
             = Ok d
             /\ ~ In (meshopt (level (CompressionMapper.toMeshoptParams (Some 0.75%float)))) d)
  /\ (exists d, fst (@applyGeometryOptimizations recording_library (options_with both_c) [] "a.glb" empty_world)
                = Ok d
                /\ forall l, ~ In (meshopt l) d).
Proof.
  split; eexists; (split; [vm_compute; reflexivity|]).
  - intros [E|[E|[E|[]]]]; discriminate E.
  - intros l [E|[E|[E|[E|[]]]]]; discriminate E.
Qed.

Context `{Library}.

Lemma when_print (c : bool) (l : line) (w : World) :
  exists w', Eff.when c (print l) w = (Ok tt, w').
Proof. destruct c; eexists; reflexivity. Qed.

(** C4, amended: in the mode 'meshopt' the document is transformed by
    [prune] and [dedup], then by [quantize] with the bit depths of
    [toQuantizationBits], and by nothing else: the level of
    [toMeshoptParams] is computed and only printed in verbose mode.  In
    the mode 'both' the same steps are followed by [draco] with the
    parameters of [toDracoParams], with no meshopt step before it. *)
Theorem C4_geometry_modes_as_implemented
  (options : ProcessedOptions) (document : Document) (fileName : string) (w : World) :
  let g := Processed.geometry options in
  let cleaned_and_quantized :=
    and_then (transform document [prune; dedup]) (fun d =>
      transform d [quantize (CompressionMapper.toQuantizationBits
                               (Some (PGeometry.precision g)))]) in
  let r := fst (applyGeometryOptimizations options document fileName w) in
  (PGeometry.compress g = meshopt_c -> r = cleaned_and_quantized)
  /\ (PGeometry.compress g = both_c ->
      r = and_then cleaned_and_quantized (fun d =>
            transform d [draco (CompressionMapper.toDracoParams
                                  (Some (PGeometry.quality g))
                                  (Some (PGeometry.speed g))
                                  (Some (PGeometry.precision g)))])).
Proof.
  cbv zeta. unfold applyGeometryOptimizations.
  split; intros ->; rewrite run_bind;
    match goal with
    | |- context [Eff.when ?c (print ?l) ?w0] =>
        destruct (when_print c l w0) as [w1 ->]
    end;
    rewrite run_bind; unfold Eff.lift at 1;
    destruct (transform document [prune; dedup]) as [d1|e]; try reflexivity;
    rewrite run_bind; unfold Eff.lift at 1; simpl and_then;
    destruct (transform d1 _) as [d2|e]; try reflexivity;
    rewrite run_bind;
    match goal with
    | |- context [Eff.when ?c (print ?l) ?w0] =>
        destruct (when_print c l w0) as [w2 ->]
    end.
  - reflexivity.
  - unfold Eff.lift. reflexivity.
Qed.

End GeometryOptimizations.

(** The amended statement at the recording library, for both modes. *)
Lemma C4_witness :
  fst (@GLTFProcessor.applyGeometryOptimizations recording_library (options_with meshopt_c) [] "a.glb" empty_world)
  = Ok [GLTFProcessor.prune; GLTFProcessor.dedup;
        GLTFProcessor.quantize (CompressionMapper.toQuantizationBits (Some 0.8%float))]
  /\ fst (@GLTFProcessor.applyGeometryOptimizations recording_library (options_with both_c) [] "a.glb" empty_world)
  = Ok [GLTFProcessor.prune; GLTFProcessor.dedup;
        GLTFProcessor.quantize (CompressionMapper.toQuantizationBits (Some 0.8%float));
        GLTFProcessor.draco (CompressionMapper.toDracoParams
                               (Some 0.75%float) (Some 0.5%float) (Some 0.8%float))].
Proof.
  split.
  - apply (proj1 (@C4_geometry_modes_as_implemented recording_library
                    (options_with meshopt_c) [] "a.glb" empty_world)).
    reflexivity.
  - apply (proj2 (@C4_geometry_modes_as_implemented recording_library
                    (options_with both_c) [] "a.glb" empty_world)).
    reflexivity.
Defined.

(** ** Invariants of computations *)

Section Preserves.
Context {S : Type}.

Lemma preserves_run {A} (I : S -> Prop) (m : Eff.M S A) (s : S) :
  preserves I m -> I s -> I (snd (m s)).
Proof.
  intros P Hs. specialize (P s Hs). destruct (m s) as [[a|e] s']; exact P.
Qed.

Lemma preserves_ret {A} (I : S -> Prop) (a : A) : preserves I (mret a).
Proof. apply triple_ret_inv. Qed.

Lemma preserves_lift {A} (I : S -> Prop) (r : Exc A) : preserves I (Eff.lift r).
Proof. apply triple_lift_inv. Qed.

Lemma preserves_throw {A} (I : S -> Prop) (e : error) :
  preserves I (Eff.throw (A := A) e).
Proof. apply triple_throw. Qed.

Lemma preserves_get_state (I : S -> Prop) : preserves I Eff.get_state.
Proof. apply triple_get_state_inv. Qed.

Lemma preserves_bind {A B} (I : S -> Prop) (m : Eff.M S A) (k : A -> Eff.M S B) :
  preserves I m -> (forall a, preserves I (k a)) -> preserves I (m ≫= k).
Proof. intros Hm Hk. eapply triple_bind; [exact Hm|exact Hk]. Qed.

Lemma preserves_when (I : S -> Prop) (c : bool) (m : Eff.M S unit) :
  preserves I m -> preserves I (Eff.when c m).
Proof. apply triple_when. Qed.

Lemma preserves_try_catch {A} (I : S -> Prop) (body : Eff.M S A)
  (handler : error -> Eff.M S A) :
  preserves I body -> (forall e, preserves I (handler e)) ->
  preserves I (Eff.try_catch body handler).
Proof. intros Hb Hh. eapply triple_try_catch; [exact Hb|exact Hh]. Qed.

Lemma preserves_for_of {A V} (I : S -> Prop) (l : list A)
  (body : A -> V -> Eff.M S V) (v : V) :
  (forall x v', preserves I (body x v')) -> preserves I (Eff.for_of l body v).
Proof. apply triple_for_of. Qed.

Lemma preserves_modify (I : S -> Prop) (f : S -> S) :
  (forall s, I s -> I (f s)) -> preserves I (Eff.modify f).
Proof. intros Hf. apply triple_modify, Hf. Qed.

End Preserves.

Lemma preserves_zoom {S T A} (I : T -> Prop) (proj : T -> S) (upd : S -> T -> T)
  (m : Eff.M S A) :
  (forall s t, I t -> I (upd s t)) -> preserves I (Eff.zoom proj upd m).
Proof.
  intros Hu t Ht. unfold Eff.zoom.
  destruct (m (proj t)) as [[a|e] s']; apply Hu, Ht.
Qed.

Create HintDb preserves.

(** Decompose a computation along its structure; the primitive steps are
    left to the hints of the database [preserves]. *)
Ltac preserve_step :=
  lazymatch goal with
  | |- preserves _ (mret _) => apply preserves_ret
  | |- preserves _ (Eff.lift _) => apply preserves_lift
  | |- preserves _ (Eff.throw _) => apply preserves_throw
  | |- preserves _ Eff.get_state => apply preserves_get_state
  | |- preserves _ (Eff.when _ _) => apply preserves_when
  | |- preserves _ (Eff.for_of _ _ _) => apply preserves_for_of; intros
  | |- preserves _ (Eff.try_catch _ _) => apply preserves_try_catch; [|intros]
  | |- preserves _ (_ ≫= _) => apply preserves_bind; [|intros]
  | |- preserves _ (match ?x with _ => _ end) => destruct x
  | |- preserves _ ((match ?x with _ => _ end) _) => destruct x
  | |- preserves _ ((fun _ => _) _) => cbv beta
  | |- _ => solve [auto with preserves]
  end.

Ltac preserve := repeat preserve_step.

(** ** The list of statistics of the plugin: C9 *)

Section StatsList.
Import GLTFProcessor Plugin.
Context `{Library} `{Host}.

(** A property of the list [optimizationStats] that appending keeps. *)
Variable P : list OptimizationStat -> Prop.
Hypothesis P_push : forall l stat, P l -> P (l ++ [stat]).

Lemma stats_in_world {A} (m : Eff.M World A) : preserves (stats_inv P) (Plugin.in_world m).
Proof. apply preserves_zoom. intros w b Hb. exact Hb. Qed.

Lemma stats_set_bundle (f : Bundle -> Bundle) : preserves (stats_inv P) (set_bundle f).
Proof. apply preserves_modify. intros b Hb. exact Hb. Qed.

Lemma stats_set_closure (f : State -> State) :
  (forall s, optimizationStats (f s) = optimizationStats s) ->
  preserves (stats_inv P) (set_closure f).
Proof.
  intros Hf. apply preserves_modify. intros b Hb.
  unfold stats_inv. simpl. rewrite Hf. exact Hb.
Qed.

Lemma stats_push (stat : OptimizationStat) : preserves (stats_inv P) (push_stat stat).
Proof. apply preserves_modify. intros b Hb. apply P_push, Hb. Qed.

Lemma stats_get_closure : preserves (stats_inv P) get_closure.
Proof. unfold get_closure. preserve. Qed.

Hint Resolve stats_in_world stats_set_bundle stats_push stats_get_closure : preserves.

Lemma stats_is_verbose : preserves (stats_inv P) is_verbose.
Proof. unfold is_verbose. preserve. Qed.

Lemma stats_is_serve : preserves (stats_inv P) is_serve.
Proof. unfold is_serve. preserve. Qed.

Lemma stats_public_dir : preserves (stats_inv P) public_dir.
Proof. unfold public_dir. preserve. Qed.

Lemma stats_add_dependency (p : string) : preserves (stats_inv P) (add_dependency p).
Proof. apply stats_set_closure. reflexivity. Qed.

Lemma stats_update_closure f1 f2 f3 f4 : preserves (stats_inv P) (update_closure f1 f2 f3 f4).
Proof. apply stats_set_closure. reflexivity. Qed.

Lemma stats_set_cache f : preserves (stats_inv P) (set_cache f).
Proof. apply stats_set_closure. reflexivity. Qed.

Lemma stats_schedule_cleanup rel : preserves (stats_inv P) (schedule_cleanup rel).
Proof. apply stats_set_closure. reflexivity. Qed.

Hint Resolve stats_is_verbose stats_is_serve stats_public_dir stats_add_dependency
  stats_update_closure stats_set_cache stats_schedule_cleanup : preserves.

Lemma preserves_for_each_dependency {S} (I : S -> Prop) (gltfJson : json) (key : string)
  (visit : string -> Eff.M S unit) :
  (forall uri, preserves I (visit uri)) ->
  preserves I (for_each_dependency gltfJson key visit).
Proof.
  intros Hv. unfold for_each_dependency. preserve.
Qed.

Hint Resolve preserves_for_each_dependency : preserves.

Lemma stats_trackDependencyFiles (gltfFileName : string) (gltfBuffer : Buffer) :
  preserves (stats_inv P) (trackDependencyFiles gltfFileName gltfBuffer).
Proof.
  unfold trackDependencyFiles. preserve.
Qed.

Hint Resolve stats_trackDependencyFiles : preserves.

Lemma stats_processAsset (asset : AssetInfo) : preserves (stats_inv P) (processAsset asset).
Proof.
  unfold processAsset. preserve.
Qed.

Lemma stats_emit_resources (resourceDir : string) (resources : Resources) :
  preserves (stats_inv P) (emit_resources resourceDir resources).
Proof.
  unfold emit_resources. preserve. unfold emit_resource. preserve.
Qed.

Hint Resolve stats_processAsset stats_emit_resources : preserves.

Lemma stats_processPublicSourceGLTFFile (filePath : string) :
  preserves (stats_inv P) (processPublicSourceGLTFFile filePath).
Proof.
  unfold processPublicSourceGLTFFile. preserve.
Qed.

Hint Resolve stats_processPublicSourceGLTFFile : preserves.

Lemma stats_generateBundle : preserves (stats_inv P) generateBundle.
Proof.
  unfold generateBundle. preserve.
  unfold processPublicSourceGLTFFiles. preserve.
Qed.

Lemma stats_buildStart : preserves (stats_inv P) buildStart.
Proof. unfold buildStart. preserve. Qed.

End StatsList.

Section StatsAcrossBuilds.
Import GLTFProcessor Plugin.
Context `{Library} `{Host}.

Lemma print_lines (ls : list line) (b : Build) :
  Eff.for_of ls (fun l _ => Plugin.in_world (print l)) tt b
  = (Ok tt,
     {| closure := closure b; bundle := bundle b;
        world := {| console := console (world b) ++ ls; files := files (world b) |} |}).
Proof.
  revert b. induction ls as [|l ls IH]; intros [c bu [co fi]]; simpl.
  - rewrite app_nil_r. reflexivity.
  - unfold Eff.bind. simpl. rewrite IH. simpl.
    rewrite <- app_assoc. reflexivity.
Qed.

Lemma emit_resource_returns (resourceDir uri : string) (data : list Byte.byte) :
  returns (emit_resource resourceDir uri data).
Proof.
  intros [s bu w]. unfold emit_resource.
  cbv [get_closure mbind M_bind Eff.bind Eff.get_state mret M_ret Eff.ret
       closure Plugin.bundle world].
  destruct (endsWith (toLowerCase uri) ".ktx2");
    [destruct (sharedKTXCache s !! posix_join resourceDir uri) as [c|];
     [destruct (Plugin.rank c <? _)%float|]|];
    destruct (Processed.verbose (processedOptions s));
    eexists _, _; reflexivity.
Qed.

Lemma emit_resources_returns (resourceDir : string) (resources : Resources) :
  returns (emit_resources resourceDir resources).
Proof.
  unfold emit_resources. apply returns_for_of. intros [uri data] [].
  apply emit_resource_returns.
Qed.

(** A public source file whose processing returns has appended one
    record, with the base name of the file; one whose processing throws
    has appended none. *)
Lemma processPublicSourceGLTFFile_stats (filePath : string)
    (l : list OptimizationStat) :
  triple (stats_inv (eq l)) (processPublicSourceGLTFFile filePath)
    (fun _ => stats_inv (fun l' => exists stat,
                           l' = l ++ [stat] /\ name stat = path_basename filePath))
    (stats_inv (eq l)).
Proof.
  set (I := stats_inv (eq l)).
  set (Q := stats_inv (fun l' => exists stat,
                         l' = l ++ [stat] /\ name stat = path_basename filePath)).
  assert (Iw : forall A (m : Eff.M World A), preserves I (Plugin.in_world m))
    by (intros A m; apply stats_in_world).
  pose proof (stats_get_closure (eq l)) as Ig.
  pose proof (stats_is_verbose (eq l)) as Iv.
  pose proof (stats_public_dir (eq l)) as Ip.
  assert (Keep : forall A (m : Eff.M Build A),
             preserves Q m -> returns m -> triple Q m (fun _ => Q) I).
  { intros A m P R. eapply triple_conseq; [apply (triple_returning Q m P R)|auto..].
    intros s []. }
  unfold processPublicSourceGLTFFile.
  eapply triple_bind with (Q := fun _ => I); [exact Iv|]. intros v.
  eapply triple_try_catch with (E' := I).
  2:{ intros e. eapply triple_bind with (Q := fun _ => I); [apply Iw|].
      intros ?. apply triple_throw. }
  eapply triple_bind with (Q := fun _ => I); [exact Ip|]. intros publicDir. cbv zeta.
  eapply triple_bind with (Q := fun _ => I); [apply Iw|]. intros inputBuffer.
  eapply triple_bind with (Q := fun _ => I); [apply Iw|]. intros originalDependencies.
  eapply triple_bind with (Q := fun _ => I).
  { change (preserves I
              (Eff.for_of originalDependencies
                 (fun depPath '(total, imageDeps) =>
                    Eff.try_catch
                      (depBuffer ← Plugin.in_world (fs_readFile depPath);
                       mret ((total + List.length depBuffer)%nat,
                             if is_image_path depPath
                             then imageDeps ++ [slashes (path_relative publicDir depPath)]
                             else imageDeps))
                      (fun _ => mret (total, imageDeps)))
                 (List.length inputBuffer, []))).
    preserve. }
  intros [originalTotalSize originalImageDeps].
  eapply triple_bind with (Q := fun _ => I); [apply triple_when, Iw|]. intros ?.
  eapply triple_bind with (Q := fun _ => I); [exact Ig|]. intros s.
  eapply triple_bind with (Q := fun _ => I); [apply Iw|]. intros result.
  destruct (match result with
            | WithResources b r => (b, r)
            | Plain b => (b, [])
            end) as [optimizedBuffer resources].
  eapply triple_bind with (Q := fun _ => I).
  { destruct (endsWith (toLowerCase (path_basename filePath)) ".gltf");
      [|apply triple_ret_inv].
    destruct (namespace_resources _ _ _ _) as [[doc remapped]|e]; [apply triple_ret_inv|].
    eapply triple_bind with (Q := fun _ => I); [apply triple_when, Iw|].
    intros ?. apply triple_ret_inv. }
  intros [optimizedBuffer' resources'].
  eapply triple_bind with (Q := fun _ => Q).
  { apply triple_modify. intros b Hb. unfold Q, I, stats_inv in *. cbn.
    eexists. split; [rewrite <- Hb; reflexivity|reflexivity]. }
  intros ?.
  eapply triple_bind with (Q := fun _ => Q).
  { apply Keep; [apply preserves_when, stats_in_world
                |apply returns_when; intros b; eexists _, _; reflexivity]. }
  intros ?.
  eapply triple_bind with (Q := fun _ => Q).
  { apply Keep; [apply stats_set_bundle|apply returns_modify]. }
  intros ?.
  eapply triple_bind with (Q := fun _ => Q).
  { apply Keep; [apply stats_emit_resources|apply emit_resources_returns]. }
  intros ?.
  destruct (ktx2_emitted resources).
  - apply Keep.
    + apply preserves_for_of. intros rel []. apply stats_schedule_cleanup.
    + apply returns_for_of. intros rel []. apply returns_modify.
  - apply Keep; [apply preserves_ret|apply returns_ret].
Qed.

(** C9, amended: the list of statistics is created empty with the plugin
    instance; [buildStart] leaves it as it is; [generateBundle] only
    appends to it, where [processAsset] (a bundled asset) appends nothing
    and [processPublicSourceGLTFFile] (a public source file) appends
    exactly one record, with the base name of the file, when it returns
    and nothing when it throws; and [closeBundle] prints the summary of the
    whole list and keeps it.  The summary therefore has a line for every
    public source file processed since the plugin instance was created,
    which are the files of the current build when the instance serves one
    build. *)
Theorem C9_stats_accumulate_across_builds :
  (forall options st, optimizeGLTF options = Some st -> optimizationStats st = [])
  /\ (forall b, optimizationStats (closure (snd (buildStart b)))
                = optimizationStats (closure b))
  /\ (forall b, exists new,
         optimizationStats (closure (snd (generateBundle b)))
         = optimizationStats (closure b) ++ new)
  /\ (forall asset b,
         optimizationStats (closure (snd (processAsset asset b)))
         = optimizationStats (closure b))
  /\ (forall filePath b b',
         processPublicSourceGLTFFile filePath b = (Ok tt, b') ->
         exists stat,
           optimizationStats (closure b') = optimizationStats (closure b) ++ [stat]
           /\ name stat = path_basename filePath)
  /\ (forall filePath b e b',
         processPublicSourceGLTFFile filePath b = (Throw e, b') ->
         optimizationStats (closure b') = optimizationStats (closure b))
  /\ (forall b c,
         config (closure b) = Some c ->
         String.eqb (command c) "serve" = false ->
         snd (closeBundle b)
         = {| closure := closure b; bundle := bundle b;
              world := {| console := console (world b)
                                     ++ summary (optimizationStats (closure b));
                          files := files (world b) |} |}).
Proof.
  split; [|split; [|split; [|split; [|split; [|split]]]]].
  - intros options st. unfold optimizeGLTF.
    destruct (PresetManager.as_ProcessedOptions _); [|discriminate].
    intros [= <-]. reflexivity.
  - intros b.
    apply (preserves_run _ _ b
             (stats_buildStart (fun l => l = optimizationStats (closure b)))).
    reflexivity.
  - intros b.
    apply (preserves_run _ _ b
             (stats_generateBundle
                (fun l => exists new, l = optimizationStats (closure b) ++ new)
                (fun l stat '(ex_intro _ new E) =>
                   ex_intro _ (new ++ [stat])
                     (eq_trans (f_equal (fun x => x ++ [stat]) E)
                               (eq_sym (app_assoc _ _ _)))))).
    exists []. rewrite app_nil_r. reflexivity.
  - intros asset b. symmetry.
    apply (preserves_run _ _ b
             (stats_processAsset (eq (optimizationStats (closure b))) asset)).
    reflexivity.
  - intros filePath b b' E.
    pose proof (processPublicSourceGLTFFile_stats filePath (optimizationStats (closure b))
                  b eq_refl) as T.
    rewrite E in T. exact T.
  - intros filePath b e b' E.
    pose proof (processPublicSourceGLTFFile_stats filePath (optimizationStats (closure b))
                  b eq_refl) as T.
    rewrite E in T. symmetry. exact T.
  - intros b c Ec Es. unfold closeBundle.
    assert (Is : is_serve b = (Ok false, b)).
    { unfold is_serve, get_closure. rewrite !run_bind. cbn. rewrite Ec. cbn.
      rewrite Es. reflexivity. }
    rewrite run_bind, Is. cbv iota beta.
    assert (Gc : get_closure b = (Ok (closure b), b)) by reflexivity.
    rewrite run_bind, Gc. cbv iota beta.
    rewrite print_lines. reflexivity.
Qed.

End StatsAcrossBuilds.

(** C9, the claim as it stands, fails: at the start of the second build
    the list still holds the record of the first build, and the summary
    that the second build prints reports the file of the first build,
    although the second build processed no file.  (The optimized size of
    the record is the size of the pool that holds the four bytes
    written.) *)
Lemma C9_counterexample_stats_survive_buildStart :
  exists b,
    second_build_start = Some b
    /\ Plugin.optimizationStats (Plugin.closure (snd (Plugin.buildStart b))) <> []
    /\ console (Plugin.world (snd (one_build b)))
       = [console_log Summary_header;
          console_log (Summary_asset "a.glb" 8 NodeBuffer.poolSize);
          console_log Summary_footer].
Proof.
  eexists. split; [vm_compute; reflexivity|]. split.
  - vm_compute. discriminate.
  - vm_compute. reflexivity.
Qed.

(** ** Dependency extraction: C8 *)

Section Dependencies.
Import GLTFProcessor Plugin.
Context `{Library} `{Host}.

(** The test of the dependency loops yields a URI only when the property
    [uri] is a non-empty string that does not start with "data:". *)
Lemma external_uri_spec (item : json) (uri : string) :
  external_uri item = Ok (Some uri) ->
  get item "uri" = Ok (Some (JString uri))
  /\ uri <> EmptyString
  /\ startsWith uri "data:" = false.
Proof.
  unfold external_uri. destruct (get item "uri") as [v|e]; [|discriminate].
  destruct (truthy v) eqn:T; [|discriminate].
  destruct v as [[ | | |s| | ]|]; try discriminate.
  destruct (startsWith s "data:") eqn:D; [discriminate|].
  intros [= <-]. repeat split; [|exact D].
  intros ->. discriminate T.
Qed.

Lemma external_uris_spec (items : list json) (uri : string) :
  In uri (external_uris items)
  <-> exists item, In item items /\ external_uri item = Ok (Some uri).
Proof.
  unfold external_uris. rewrite in_flat_map. split.
  - intros (item & I & U). exists item. split; [exact I|].
    destruct (external_uri item) as [[u|]|e]; [|destruct U|destruct U].
    destruct U as [->|[]]. reflexivity.
  - intros (item & I & E). exists item. split; [exact I|]. rewrite E. left. reflexivity.
Qed.

(** The dependency loops, for a visit that returns: [f] is the effect of
    one visit on the state. *)
Section Visits.
Context {S : Type}.
Variable visit : string -> Eff.M S unit.
Variable f : S -> string -> S.
Hypothesis visit_run : forall uri s, visit uri s = (Ok tt, f s uri).

Lemma dependency_loop_readable (items : list json) (s : S) :
  Forall (fun item => exists uri, external_uri item = Ok uri) items ->
  Eff.for_of items (fun item (_ : unit) =>
    uri ← Eff.lift (external_uri item);
    match uri with
    | Some uri => visit uri
    | None => mret tt
    end) tt s
  = (Ok tt, fold_left f (external_uris items) s).
Proof.
  intros R. revert s. induction R as [|item items [u Eu] R IH]; intros s; [reflexivity|].
  etransitivity.
  - apply for_of_step with (v' := tt) (s' := fold_left f (external_uris [item]) s).
    rewrite run_bind. unfold Eff.lift, external_uris. cbn [flat_map]. rewrite Eu.
    destruct u as [uri|]; [apply visit_run|reflexivity].
  - rewrite IH. unfold external_uris. cbn [flat_map]. rewrite Eu.
    destruct u; reflexivity.
Qed.

Lemma dependency_loop_sound (items : list json) (s : S) :
  exists uris,
    snd (Eff.for_of items (fun item (_ : unit) =>
           uri ← Eff.lift (external_uri item);
           match uri with
           | Some uri => visit uri
           | None => mret tt
           end) tt s)
    = fold_left f uris s
    /\ incl uris (external_uris items).
Proof.
  revert s. induction items as [|item items IH]; intros s.
  - exists []. split; [reflexivity|apply incl_refl].
  - destruct (external_uri item) as [[uri|]|e] eqn:Eu.
    + destruct (IH (f s uri)) as (uris & E & I). exists (uri :: uris). split.
      * rewrite (for_of_step item items _ tt tt s (f s uri)); [exact E|].
        rewrite run_bind. unfold Eff.lift. rewrite Eu. apply visit_run.
      * unfold external_uris. cbn [flat_map]. rewrite Eu.
        intros u [<-|U]; [left; reflexivity|right; apply I, U].
    + destruct (IH s) as (uris & E & I). exists uris. split.
      * rewrite (for_of_step item items _ tt tt s s); [exact E|].
        rewrite run_bind. unfold Eff.lift. rewrite Eu. reflexivity.
      * unfold external_uris. cbn [flat_map]. rewrite Eu. exact I.
    + exists []. split; [|intros u []].
      cbn [Eff.for_of]. unfold Eff.bind at 1. rewrite run_bind. unfold Eff.lift.
      rewrite Eu. reflexivity.
Qed.

Lemma for_each_dependency_readable (gltfJson : json) (key : string)
    (items : list json) (s : S) :
  readable_group gltfJson key items ->
  for_each_dependency gltfJson key visit s
  = (Ok tt, fold_left f (external_uris items) s).
Proof.
  intros [[G|[G ->]] R]; unfold for_each_dependency; rewrite run_bind;
    unfold Eff.lift at 1; rewrite G; cbn [truthy].
  - rewrite run_bind. unfold Eff.lift at 1. cbn [iterate].
    apply dependency_loop_readable, R.
  - reflexivity.
Qed.

Lemma for_each_dependency_sound (gltfJson : json) (key : string) (s : S) :
  exists uris,
    snd (for_each_dependency gltfJson key visit s) = fold_left f uris s
    /\ (forall uri, In uri uris ->
          exists items item,
            get gltfJson key = Ok (Some (JArray items))
            /\ In item items
            /\ external_uri item = Ok (Some uri)).
Proof.
  unfold for_each_dependency. rewrite run_bind. unfold Eff.lift at 1.
  destruct (get gltfJson key) as [group|e] eqn:G;
    [|exists []; split; [reflexivity|intros uri []]].
  destruct (truthy group) eqn:T; [|exists []; split; [reflexivity|intros uri []]].
  rewrite run_bind. unfold Eff.lift at 1.
  destruct group as [g|]; [|discriminate T].
  destruct g as [ | | |str|items| ]; cbn [iterate];
    try (exists []; split; [reflexivity|intros uri []]).
  - destruct (dependency_loop_sound
                (map (fun c => JString (String c EmptyString)) (chars str)) s)
      as (uris & E & I).
    exists uris. split; [exact E|]. intros uri U. exfalso.
    apply I, external_uris_spec in U. destruct U as (item & In_item & Eu).
    apply in_map_iff in In_item. destruct In_item as (c & <- & _). discriminate Eu.
  - destruct (dependency_loop_sound items s) as (uris & E & I).
    exists uris. split; [exact E|]. intros uri U.
    apply I, external_uris_spec in U. destruct U as (item & In_item & Eu).
    exists items, item. auto.
Qed.

End Visits.

Lemma external_uri_of_group (gltfJson : json) (key : string) (items : list json)
    (item : json) (uri : string) :
  key = "buffers"%string \/ key = "images"%string ->
  get gltfJson key = Ok (Some (JArray items)) ->
  In item items ->
  external_uri item = Ok (Some uri) ->
  external_uri_of gltfJson uri.
Proof.
  intros K G I E. destruct (external_uri_spec item uri E) as (U & N & D).
  exists key, items, item. auto 7.
Qed.

Lemma fold_push (r : string -> string) (uris : list string) (s : World * list string) :
  fold_left (fun s uri => (fst s, snd s ++ [r uri])) uris s
  = (fst s, snd s ++ map r uris).
Proof.
  revert s. induction uris as [|uri uris IH]; intros [w0 l]; cbn [fold_left map fst snd].
  - rewrite app_nil_r. reflexivity.
  - rewrite IH. cbn [fst snd]. rewrite <- app_assoc. reflexivity.
Qed.

(** What [findOriginalDependencies] returns: for a file that is read and
    holds the JSON value [gltfJson], the paths of external URIs of
    [gltfJson]; all of them, in order, when the two groups are readable. *)
Lemma findOriginalDependencies_external (gltfPath : string) (w : World) :
  exists deps w',
    findOriginalDependencies gltfPath w = (Ok deps, w')
    /\ (forall p, In p deps ->
          exists data gltfJson uri,
            files w !! gltfPath = Some data
            /\ container_json gltfPath (NodeBuffer.from data) = Ok (Some gltfJson)
            /\ external_uri_of gltfJson uri
            /\ p = path_resolve (path_dirname gltfPath) uri)
    /\ (forall data gltfJson buffers images,
          files w !! gltfPath = Some data ->
          container_json gltfPath (NodeBuffer.from data) = Ok (Some gltfJson) ->
          readable_group gltfJson "buffers" buffers ->
          readable_group gltfJson "images" images ->
          deps = map (path_resolve (path_dirname gltfPath))
                     (external_uris buffers ++ external_uris images)).
Proof.
  unfold findOriginalDependencies. rewrite run_bind.
  unfold Eff.zoom at 1, fs_readFile at 1. cbn [fst snd].
  destruct (files w !! gltfPath) as [data|] eqn:F.
  2:{ exists [], w. split; [reflexivity|]. split; [intros p []|]. intros; discriminate. }
  rewrite run_bind. unfold Eff.lift at 1.
  destruct (container_json gltfPath (NodeBuffer.from data)) as [[gltfJson|]|e] eqn:C.
  2,3: exists [], w; (split; [reflexivity|]); (split; [intros p []|]);
       intros data' j' buffers images [= <-] C'; rewrite C in C'; discriminate C'.
  set (r := path_resolve (path_dirname gltfPath)).
  set (push := fun uri : string =>
                 Eff.modify (fun s : World * list string => (fst s, snd s ++ [r uri]))).
  set (f := fun (s : World * list string) uri => (fst s, snd s ++ [r uri])).
  assert (V : forall uri s, push uri s = (Ok tt, f s uri)) by reflexivity.
  assert (Fp : forall uris s, fold_left f uris s = (fst s, snd s ++ map r uris))
    by (intros; apply fold_push).
  rewrite run_bind.
  destruct (for_each_dependency_sound push f V gltfJson "buffers" (w, []))
    as (ub & Eb & Ib).
  destruct (for_each_dependency gltfJson "buffers" push (w, [])) as [rb sb] eqn:Rb.
  cbn [snd] in Eb. subst sb. rewrite Fp in *. cbn [fst snd app] in *.
  destruct rb as [[]|e].
  2:{ exists [], w. split; [reflexivity|]. split; [intros p []|].
      intros data' j' buffers images [= <-] C' Gb _.
      rewrite C in C'. injection C' as <-.
      rewrite (for_each_dependency_readable push f V gltfJson "buffers" buffers (w, []) Gb)
        in Rb. discriminate Rb. }
  destruct (for_each_dependency_sound push f V gltfJson "images" (w, map r ub))
    as (ui & Ei & Ii).
  destruct (for_each_dependency gltfJson "images" push (w, map r ub)) as [ri si] eqn:Ri.
  cbn [snd] in Ei. subst si. rewrite Fp in *. cbn [fst snd] in *.
  destruct ri as [[]|e].
  2:{ exists [], w. split; [reflexivity|]. split; [intros p []|].
      intros data' j' buffers images [= <-] C' Gb Gi.
      rewrite C in C'. injection C' as <-.
      rewrite (for_each_dependency_readable push f V gltfJson "images" images
                 (w, map r ub) Gi) in Ri. discriminate Ri. }
  exists (map r ub ++ map r ui), w. split; [reflexivity|]. split.
  - intros p I. exists data, gltfJson. apply in_app_or in I.
    destruct I as [I|I]; apply in_map_iff in I; destruct I as (uri & <- & U);
      exists uri; (split; [reflexivity|]); (split; [exact C|]);
      (split; [|reflexivity]).
    + destruct (Ib uri U) as (items & item & G & In_item & E).
      apply (external_uri_of_group gltfJson "buffers" items item uri);
        [left; reflexivity|assumption..].
    + destruct (Ii uri U) as (items & item & G & In_item & E).
      apply (external_uri_of_group gltfJson "images" items item uri);
        [right; reflexivity|assumption..].
  - intros data' j' buffers images [= <-] C' Gb Gi.
    rewrite C in C'. injection C' as <-.
    rewrite (for_each_dependency_readable push f V gltfJson "buffers" buffers (w, []) Gb),
      Fp in Rb.
    cbn [fst snd app] in Rb. injection Rb as Rb.
    rewrite (for_each_dependency_readable push f V gltfJson "images" images
               (w, map r ub) Gi), Fp in Ri.
    cbn [fst snd] in Ri. injection Ri as Ri.
    rewrite map_app. apply app_inv_head in Ri. rewrite Rb, Ri. reflexivity.
Qed.

Lemma fold_add_dependency (join : string -> string) (uris : list string) (b : Build)
    (p : string) :
  p ∈ dependencyFiles
        (closure (fold_left (fun b uri => snd (add_dependency (join uri) b)) uris b))
  <-> p ∈ dependencyFiles (closure b) \/ In p (map join uris).
Proof.
  revert b. induction uris as [|uri uris IH]; intros b; cbn [fold_left map In].
  - tauto.
  - rewrite IH. cbn. rewrite elem_of_union, elem_of_singleton.
    split; [intros [[->|D]|I]|intros [D|[<-|I]]]; auto.
Qed.

(** The last statements of the [try] block of [trackDependencyFiles], and
    its [catch] block, leave the closure as it is. *)
Lemma track_report (b : Build) :
  closure
    (snd ((v ← is_verbose;
           s ← get_closure;
           Eff.when (v && negb (Nat.eqb (size (dependencyFiles s)) 0))
             (Plugin.in_world
                (print (console_log (Tracked_dependencies (size (dependencyFiles s)))))))
            b))
  = closure b
  /\ fst ((v ← is_verbose;
           s ← get_closure;
           Eff.when (v && negb (Nat.eqb (size (dependencyFiles s)) 0))
             (Plugin.in_world
                (print (console_log (Tracked_dependencies (size (dependencyFiles s)))))))
            b)
     = Ok tt.
Proof.
  cbv beta iota delta [is_verbose get_closure mbind M_bind Eff.bind Eff.get_state mret
                       M_ret Eff.ret].
  destruct (Processed.verbose (processedOptions (closure b))
            && negb (Nat.eqb (size (dependencyFiles (closure b))) 0));
    split; reflexivity.
Qed.

Lemma track_warning (gltfFileName : string) (e : error) (b : Build) :
  closure
    (snd ((v ← is_verbose;
           Eff.when v
             (Plugin.in_world (print (console_warn (Could_not_track gltfFileName e)))))
            b))
  = closure b.
Proof.
  cbv beta iota delta [is_verbose get_closure mbind M_bind Eff.bind Eff.get_state mret
                       M_ret Eff.ret].
  destruct (Processed.verbose (processedOptions (closure b))); reflexivity.
Qed.

(** The closure after [trackDependencyFiles]: the one after adding the
    paths of some external URIs of the JSON value of the buffer; of all
    of them when the two groups are readable. *)
Lemma trackDependencyFiles_closure (gltfFileName : string) (gltfBuffer : Buffer)
    (b : Build) :
  let f := fun (b : Build) uri =>
             snd (add_dependency (posix_join (path_dirname gltfFileName) uri) b) in
  exists uris,
    closure (snd (trackDependencyFiles gltfFileName gltfBuffer b))
    = closure (fold_left f uris b)
    /\ (forall uri, In uri uris ->
          exists gltfJson,
            container_json gltfFileName gltfBuffer = Ok (Some gltfJson)
            /\ external_uri_of gltfJson uri)
    /\ (forall gltfJson buffers images,
          container_json gltfFileName gltfBuffer = Ok (Some gltfJson) ->
          readable_group gltfJson "buffers" buffers ->
          readable_group gltfJson "images" images ->
          fold_left f uris b
          = fold_left f (external_uris buffers ++ external_uris images) b).
Proof.
  intros f. set (join := posix_join (path_dirname gltfFileName)) in *.
  assert (V : forall uri s, add_dependency (join uri) s = (Ok tt, f s uri)) by reflexivity.
  unfold trackDependencyFiles, Eff.try_catch. rewrite run_bind. unfold Eff.lift at 1.
  destruct (container_json gltfFileName gltfBuffer) as [[gltfJson|]|e] eqn:C.
  2:{ exists []. split; [reflexivity|]. split; [intros uri []|]. intros; discriminate. }
  2:{ exists []. rewrite track_warning. split; [reflexivity|]. split; [intros uri []|].
      intros; discriminate. }
  fold join.
  assert (Listed : forall key uris,
             key = "buffers"%string \/ key = "images"%string ->
             (forall uri, In uri uris ->
                exists items item,
                  get gltfJson key = Ok (Some (JArray items))
                  /\ In item items /\ external_uri item = Ok (Some uri)) ->
             forall uri, In uri uris ->
               exists j, Ok (Some gltfJson) = Ok (Some j) /\ external_uri_of j uri).
  { intros key uris K I uri U.
    destruct (I uri U) as (items & item & G & In_item & E).
    exists gltfJson. split; [reflexivity|].
    apply (external_uri_of_group gltfJson key items item uri); assumption. }
  rewrite run_bind.
  destruct (for_each_dependency_sound (fun uri => add_dependency (join uri)) f V
              gltfJson "buffers" b) as (ub & Eb & Ib).
  destruct (for_each_dependency gltfJson "buffers"
              (fun uri => add_dependency (join uri)) b) as [rb sb] eqn:Rb.
  cbn [snd] in Eb. subst sb.
  destruct rb as [[]|e].
  2:{ exists ub. rewrite track_warning. split; [reflexivity|].
      split; [apply (Listed "buffers"%string ub); auto|].
      intros j buffers images [= <-] Gb _.
      rewrite (for_each_dependency_readable (fun uri => add_dependency (join uri)) f V
                 gltfJson "buffers" buffers b Gb) in Rb.
      discriminate Rb. }
  rewrite run_bind.
  destruct (for_each_dependency_sound (fun uri => add_dependency (join uri)) f V
              gltfJson "images" (fold_left f ub b)) as (ui & Ei & Ii).
  destruct (for_each_dependency gltfJson "images"
              (fun uri => add_dependency (join uri)) (fold_left f ub b))
    as [ri si] eqn:Ri.
  cbn [snd] in Ei. subst si.
  assert (Sound : forall uri, In uri (ub ++ ui) ->
             exists j, Ok (Some gltfJson) = Ok (Some j) /\ external_uri_of j uri).
  { intros uri U. apply in_app_or in U. destruct U as [U|U].
    - apply (Listed "buffers"%string ub); auto.
    - apply (Listed "images"%string ui); auto. }
  exists (ub ++ ui). rewrite fold_left_app.
  destruct ri as [[]|e].
  2:{ rewrite track_warning. split; [reflexivity|]. split; [exact Sound|].
      intros j buffers images [= <-] _ Gi.
      rewrite (for_each_dependency_readable (fun uri => add_dependency (join uri)) f V
                 gltfJson "images" images _ Gi) in Ri.
      discriminate Ri. }
  destruct (track_report (fold_left f ui (fold_left f ub b))) as [Tc Tr].
  match goal with
  | |- context [match ?m with _ => _ end] =>
      destruct m as [rt st] eqn:Rt
  end.
  cbn [fst snd] in Tc, Tr. subst rt. cbn [snd]. split; [exact Tc|]. split; [exact Sound|].
  intros j buffers images [= <-] Gb Gi.
  rewrite (for_each_dependency_readable (fun uri => add_dependency (join uri)) f V
             gltfJson "buffers" buffers b Gb) in Rb.
  injection Rb as Rb.
  rewrite (for_each_dependency_readable (fun uri => add_dependency (join uri)) f V
             gltfJson "images" images _ Gi) in Ri.
  injection Ri as Ri.
  rewrite fold_left_app, <- Ri, <- Rb. reflexivity.
Qed.

(** What [trackDependencyFiles] adds to [dependencyFiles]: for a buffer
    that holds the JSON value [gltfJson], paths of external URIs of
    [gltfJson]; all of them when the two groups are readable. *)
Lemma trackDependencyFiles_external (gltfFileName : string) (gltfBuffer : Buffer)
    (b : Build) :
  (forall p,
     p ∈ dependencyFiles (closure (snd (trackDependencyFiles gltfFileName gltfBuffer b))) ->
     p ∈ dependencyFiles (closure b)
     \/ exists gltfJson uri,
          container_json gltfFileName gltfBuffer = Ok (Some gltfJson)
          /\ external_uri_of gltfJson uri
          /\ p = posix_join (path_dirname gltfFileName) uri)
  /\ (forall gltfJson buffers images,
        container_json gltfFileName gltfBuffer = Ok (Some gltfJson) ->
        readable_group gltfJson "buffers" buffers ->
        readable_group gltfJson "images" images ->
        forall p,
          p ∈ dependencyFiles
                (closure (snd (trackDependencyFiles gltfFileName gltfBuffer b)))
          <-> p ∈ dependencyFiles (closure b)
              \/ In p (map (posix_join (path_dirname gltfFileName))
                          (external_uris buffers ++ external_uris images))).
Proof.
  destruct (trackDependencyFiles_closure gltfFileName gltfBuffer b)
    as (uris & -> & Sound & Complete).
  split.
  - intros p D. apply fold_add_dependency in D. destruct D as [D|D]; [left; exact D|].
    right. apply in_map_iff in D. destruct D as (uri & <- & U).
    destruct (Sound uri U) as (j & C & E). exists j, uri. auto.
  - intros j buffers images C Gb Gi p. rewrite (Complete j buffers images C Gb Gi).
    apply fold_add_dependency.
Qed.

Lemma endsWith_glb_not_gltf (name : string) :
  endsWith name ".glb" = true -> endsWith name ".gltf" = false.
Proof.
  unfold endsWith. simpl. destruct (of_chars (rev (chars name))) as [|c r]; simpl.
  - reflexivity.
  - destruct c as [[] [] [] [] [] [] [] []]; simpl; intros E;
      reflexivity || discriminate E.
Qed.

Lemma text_firstn (data : list Byte.byte) (off len : nat) :
  NodeBuffer.toString_utf8
    {| NodeBuffer.buffer := data; NodeBuffer.byteOffset := off; NodeBuffer.length := len |}
  = text (firstn len (skipn off data)).
Proof.
  unfold text, NodeBuffer.toString_utf8, NodeBuffer.bytes, NodeBuffer.from. simpl.
  rewrite firstn_all. reflexivity.
Qed.

(** The JSON text of a binary container that owns its storage: with a
    12-byte header, the little-endian word [b0 b1 b2 b3] at offset 12 and
    four more bytes before offset 20, what is parsed are the first
    [le32 b0 b1 b2 b3] bytes from offset 20 on. *)
Lemma container_json_glb (name : string) (header chunkType rest : list Byte.byte)
  (b0 b1 b2 b3 : Byte.byte) :
  endsWith name ".glb" = true ->
  List.length header = 12%nat ->
  List.length chunkType = 4%nat ->
  container_json name (NodeBuffer.from (header ++ [b0; b1; b2; b3] ++ chunkType ++ rest))
  = and_then (JSON_parse (text (firstn (N.to_nat (le32 b0 b1 b2 b3)) rest)))
             (fun j => Ok (Some j)).
Proof.
  intros G Lh Lt. unfold container_json.
  rewrite (endsWith_glb_not_gltf name G), G.
  set (data := header ++ [b0; b1; b2; b3] ++ chunkType ++ rest).
  assert (S12 : skipn 12 data = b0 :: b1 :: b2 :: b3 :: chunkType ++ rest).
  { subst data.
    destruct header as [|h0 [|h1 [|h2 [|h3 [|h4 [|h5 [|h6 [|h7 [|h8 [|h9 [|h10 [|h11 [|]]]]]]]]]]]]];
      try discriminate Lh.
    reflexivity. }
  assert (S20 : skipn 20 data = rest).
  { change 20%nat with (8 + 12)%nat. rewrite <- skipn_skipn, S12.
    destruct chunkType as [|t0 [|t1 [|t2 [|t3 [|]]]]]; try discriminate Lt.
    reflexivity. }
  assert (Ld : List.length data = (20 + List.length rest)%nat).
  { subst data. rewrite !length_app, Lh, Lt. simpl. lia. }
  unfold NodeBuffer.from at 1. cbn [NodeBuffer.buffer].
  unfold NodeBuffer.getUint32_le. rewrite S12.
  fold (le32 b0 b1 b2 b3). set (n := N.to_nat (le32 b0 b1 b2 b3)).
  unfold NodeBuffer.subarray, NodeBuffer.from.
  cbn [NodeBuffer.buffer NodeBuffer.byteOffset NodeBuffer.length].
  rewrite text_firstn, Ld.
  replace (Nat.min 20 (Nat.min (20 + n) (20 + List.length rest))) with 20%nat by lia.
  replace (Nat.min (20 + n) (20 + List.length rest) - 20)%nat
    with (Nat.min n (List.length rest)) by lia.
  change (0 + 20)%nat with 20%nat. rewrite S20.
  assert (Fn : firstn (Nat.min n (List.length rest)) rest = firstn n rest).
  { destruct (Nat.le_ge_cases n (List.length rest)) as [L|L].
    - rewrite Nat.min_l by exact L. reflexivity.
    - rewrite Nat.min_r by exact L. rewrite firstn_all, firstn_all2 by exact L.
      reflexivity. }
  rewrite Fn.
  destruct (JSON_parse (text (firstn n rest))); reflexivity.
Qed.

(** C8.  What holds of the claim: in a buffer that owns its storage, the
    length of the first chunk of a binary container is the little-endian
    32-bit word at byte offset 12 and that many of the bytes from offset
    20 on are parsed as JSON; and, for both forms of container, every
    path that [findOriginalDependencies] returns and every path that
    [trackDependencyFiles] adds comes from a URI of an element of
    [buffers] or [images] that does not start with "data:", and every
    such URI gives a path when the two groups are readable.

    What fails: the word is read at offset 12 of the storage of the
    buffer, not of the buffer, so for a container in a buffer that is a
    view further into its storage another word is read (here the JSON
    text is then empty, parsing throws, and nothing is tracked); and the
    form of the container is decided by the file name as it is written,
    so a file named "M.GLB", which [processBuffer] reads as a binary
    container, is no container for the extraction and nothing is
    tracked. *)
Theorem C8_dependency_extraction :
  (forall name header chunkType rest b0 b1 b2 b3,
      endsWith name ".glb" = true ->
      List.length header = 12%nat ->
      List.length chunkType = 4%nat ->
      container_json name
        (NodeBuffer.from (header ++ [b0; b1; b2; b3] ++ chunkType ++ rest))
      = and_then (JSON_parse (text (firstn (N.to_nat (le32 b0 b1 b2 b3)) rest)))
                 (fun j => Ok (Some j)))
  /\ (forall gltfPath w,
        exists deps w',
          findOriginalDependencies gltfPath w = (Ok deps, w')
          /\ (forall p, In p deps ->
                exists data gltfJson uri,
                  files w !! gltfPath = Some data
                  /\ container_json gltfPath (NodeBuffer.from data) = Ok (Some gltfJson)
                  /\ external_uri_of gltfJson uri
                  /\ p = path_resolve (path_dirname gltfPath) uri)
          /\ (forall data gltfJson buffers images,
                files w !! gltfPath = Some data ->
                container_json gltfPath (NodeBuffer.from data) = Ok (Some gltfJson) ->
                readable_group gltfJson "buffers" buffers ->
                readable_group gltfJson "images" images ->
                deps = map (path_resolve (path_dirname gltfPath))
                           (external_uris buffers ++ external_uris images)))
  /\ (forall gltfFileName gltfBuffer b,
        (forall p,
           p ∈ dependencyFiles
                 (closure (snd (trackDependencyFiles gltfFileName gltfBuffer b))) ->
           p ∈ dependencyFiles (closure b)
           \/ exists gltfJson uri,
                container_json gltfFileName gltfBuffer = Ok (Some gltfJson)
                /\ external_uri_of gltfJson uri
                /\ p = posix_join (path_dirname gltfFileName) uri)
        /\ (forall gltfJson buffers images,
              container_json gltfFileName gltfBuffer = Ok (Some gltfJson) ->
              readable_group gltfJson "buffers" buffers ->
              readable_group gltfJson "images" images ->
              forall p,
                p ∈ dependencyFiles
                      (closure (snd (trackDependencyFiles gltfFileName gltfBuffer b)))
                <-> p ∈ dependencyFiles (closure b)
                    \/ In p (map (posix_join (path_dirname gltfFileName))
                                (external_uris buffers ++ external_uris images))))
  /\ (NodeBuffer.bytes sample_glb_view = sample_glb
      /\ @container_json (fixed_json_library sample_json) "m.glb"
           (NodeBuffer.from sample_glb)
         = Ok (Some sample_json)
      /\ elements
           (dependencyFiles
              (closure (snd (@trackDependencyFiles (fixed_json_library sample_json)
                               simple_host "m.glb" (NodeBuffer.from sample_glb)
                               fresh_build))))
         = ["a.bin"; "t.png"]%string
      /\ @container_json (fixed_json_library sample_json) "m.glb" sample_glb_view
         = Throw SyntaxError
      /\ dependencyFiles
           (closure (snd (@trackDependencyFiles (fixed_json_library sample_json)
                            simple_host "m.glb" sample_glb_view fresh_build)))
         = ∅)
  /\ (@loaded (fixed_json_library sample_json) (NodeBuffer.from sample_glb) "M.GLB"
      = @readBinary (fixed_json_library sample_json) sample_glb
      /\ @container_json (fixed_json_library sample_json) "M.GLB"
           (NodeBuffer.from sample_glb)
         = Ok None
      /\ dependencyFiles
           (closure (snd (@trackDependencyFiles (fixed_json_library sample_json)
                            simple_host "M.GLB" (NodeBuffer.from sample_glb)
                            fresh_build)))
         = ∅).
Proof.
  split; [|split; [|split; [|split]]].
  - apply container_json_glb.
  - apply findOriginalDependencies_external.
  - apply trackDependencyFiles_external.
  - repeat split; vm_compute; reflexivity.
  - repeat split; vm_compute; reflexivity.
Qed.

End Dependencies.

(** The dependencies of the sample container in both forms: the inline
    buffer is left out. *)
Example findOriginalDependencies_sample :
  fst (@Plugin.findOriginalDependencies (fixed_json_library sample_json) "gltf/m.glb"
         {| console := []; files := {[ "gltf/m.glb"%string := sample_glb ]} |})
  = Ok ["gltf/a.bin"; "gltf/t.png"]%string
  /\ fst (@Plugin.findOriginalDependencies (fixed_json_library sample_json) "gltf/m.gltf"
            {| console := []; files := {[ "gltf/m.gltf"%string := [Byte.x4a] ]} |})
     = Ok ["gltf/a.bin"; "gltf/t.png"]%string.
Proof. split; vm_compute; reflexivity. Qed.

(** ** Namespacing of the resources of a JSON container: C5 *)

Section Namespacing.
Import GLTFProcessor Plugin.

(** The part of C5 that holds: for the asset foo.gltf with a buffer at
    data.bin the resource map has the key foo_bin/data.bin and the buffer
    URI in the JSON is that key. *)
Lemma namespace_foo_data_bin :
  exists doc remapped,
    @namespace_resources (fixed_json_library mixed_textures_json) "foo.gltf" true
      (NodeBuffer.from [Byte.x4a]) mixed_textures_resources
    = Ok (doc, remapped)
    /\ uris_of "buffers" doc = ["foo_bin/data.bin"%string]
    /\ assoc "foo_bin/data.bin" remapped = Some [Byte.x00].
Proof. do 2 eexists. repeat split; vm_compute; reflexivity. Qed.

(** More generally, a buffer URI whose file name ends in ".bin" is
    rewritten in the JSON to the key its resource is stored under. *)
Lemma buffer_bin_key (binPrefix uri : string) (ktx2Emitted : bool) :
  endsWith (toLowerCase (strip_dot_slash uri)) ".bin" = true ->
  remap_key binPrefix ktx2Emitted uri = concat binPrefix (strip_dot_slash uri).
Proof. intros E. unfold remap_key. rewrite E. reflexivity. Qed.

(** C5 fails on the code.  When a KTX2 texture was emitted, every image
    URI of the JSON is rewritten to a ".ktx2" name, also that of an image
    that was not encoded, while the resource of that image is stored under
    the prefix of the asset with its old extension: the JSON names
    transmission.ktx2, which is no key of the resource map.  And a buffer
    whose name does not end in ".bin" is prefixed in the JSON but not in
    the resource map. *)
Theorem C5_rewritten_uri_without_resource :
  (exists doc remapped,
      @namespace_resources (fixed_json_library mixed_textures_json) "foo.gltf"
        (ktx2_emitted mixed_textures_resources)
        (NodeBuffer.from [Byte.x4a]) mixed_textures_resources
      = Ok (doc, remapped)
      /\ uris_of "images" doc = ["base.ktx2"; "transmission.ktx2"]%string
      /\ map fst remapped
         = ["foo_bin/data.bin"; "base.ktx2"; "foo_bin/transmission.png"]%string
      /\ assoc "transmission.ktx2" remapped = None)
  /\ (exists doc remapped,
         @namespace_resources (fixed_json_library odd_buffer_json) "foo.gltf"
           (ktx2_emitted odd_buffer_resources)
           (NodeBuffer.from [Byte.x4a]) odd_buffer_resources
         = Ok (doc, remapped)
         /\ uris_of "buffers" doc = ["foo_bin/data.buf"]%string
         /\ map fst remapped = ["data.buf"]%string
         /\ assoc "foo_bin/data.buf" remapped = None).
Proof. split; do 2 eexists; repeat split; vm_compute; reflexivity. Qed.

End Namespacing.

(** ** The shared cache of KTX2 textures: C3 (emission) *)

Lemma ltb_irrefl (x : number) : (x <? x)%float = false.
Proof.
  rewrite ltb_spec. unfold SFltb.
  pose proof (SFcompare_antisym (Prim2SF x) (Prim2SF x)) as A.
  destruct (SFcompare (Prim2SF x) (Prim2SF x)) as [[]|]; try reflexivity.
  discriminate A.
Qed.

Lemma ltb_asym (x y : number) : (x <? y)%float = true -> (y <? x)%float = false.
Proof.
  rewrite !ltb_spec. unfold SFltb.
  rewrite (SFcompare_antisym (Prim2SF x) (Prim2SF y)).
  destruct (SFcompare (Prim2SF x) (Prim2SF y)) as [[]|]; simpl; congruence.
Qed.

Section TextureCache.
Import GLTFProcessor Plugin.
Context `{Library} `{Host}.

(** The closure and the bundle after one emission of a KTX2 resource. *)
Lemma emit_resource_ktx2 (resourceDir uri : string) (data : list Byte.byte) (b : Build) :
  endsWith (toLowerCase uri) ".ktx2" = true ->
  let s := closure b in
  let resourcePath := posix_join resourceDir uri in
  let rank := computeTextureRank (processedOptions s) uri in
  let b' := snd (emit_resource resourceDir uri data b) in
  processedOptions (closure b') = processedOptions s
  /\ sharedKTXCache (closure b')
     = (if replaces (sharedKTXCache s) resourcePath rank
        then <[resourcePath := {| rank := rank; cached := NodeBuffer.from data |}]>
               (sharedKTXCache s)
        else sharedKTXCache s)
  /\ bundle b'
     = (if replaces (sharedKTXCache s) resourcePath rank
        then set_field resourcePath (emitted_entry resourcePath uri data) (bundle b)
        else bundle b).
Proof.
  intros K. cbv zeta. unfold emit_resource, replaces. rewrite K.
  destruct b as [s bu w]. cbn [closure Plugin.bundle].
  cbv [get_closure mbind M_bind Eff.bind Eff.get_state mret M_ret Eff.ret
       closure Plugin.bundle world].
  destruct (sharedKTXCache s !! posix_join resourceDir uri) as [c|];
    [destruct (Plugin.rank c <? _)%float|];
    destruct (Processed.verbose (processedOptions s));
    cbv [set_cache set_closure set_bundle Eff.modify Eff.when Plugin.in_world
         Eff.zoom print closure Plugin.bundle world snd
         processedOptions sharedKTXCache emitted_entry mret M_ret Eff.ret];
    auto.
Qed.

(** A second emission of the same resource name to the same directory
    changes neither the cache nor the bundle: the rank is a function of the
    name and of the options, so it is not higher the second time. *)
Lemma second_emission_keeps_first (resourceDir uri : string)
  (first second : list Byte.byte) (b : Build) :
  endsWith (toLowerCase uri) ".ktx2" = true ->
  let b1 := snd (emit_resource resourceDir uri first b) in
  let b2 := snd (emit_resource resourceDir uri second b1) in
  sharedKTXCache (closure b2) = sharedKTXCache (closure b1)
  /\ bundle b2 = bundle b1.
Proof.
  intros K. cbv zeta.
  destruct (emit_resource_ktx2 resourceDir uri first b K) as (O1 & C1 & _).
  destruct (emit_resource_ktx2 resourceDir uri second
              (snd (emit_resource resourceDir uri first b)) K) as (_ & C2 & B2).
  cbv zeta in *. rewrite O1 in C2, B2.
  set (rank := computeTextureRank (processedOptions (closure b)) uri) in *.
  set (path := posix_join resourceDir uri) in *.
  assert (R : replaces (sharedKTXCache (closure (snd (emit_resource resourceDir uri first b))))
                path rank = false).
  { rewrite C1. unfold replaces.
    destruct (sharedKTXCache (closure b) !! path) as [c|] eqn:E.
    - destruct (Plugin.rank c <? rank)%float eqn:L.
      + rewrite lookup_insert_eq. apply ltb_irrefl.
      + rewrite E. exact L.
    - rewrite lookup_insert_eq. apply ltb_irrefl. }
  rewrite R in C2, B2. auto.
Qed.

(** Two emissions to the same output path whose ranks differ: whatever the
    order, the cache and the bundle end with the bytes of the higher rank
    (the path is not in the cache before). *)
Lemma higher_rank_wins (dir1 uri1 dir2 uri2 : string) (low high : list Byte.byte)
  (b : Build) :
  endsWith (toLowerCase uri1) ".ktx2" = true ->
  endsWith (toLowerCase uri2) ".ktx2" = true ->
  posix_join dir1 uri1 = posix_join dir2 uri2 ->
  sharedKTXCache (closure b) !! posix_join dir2 uri2 = None ->
  (computeTextureRank (processedOptions (closure b)) uri1
   <? computeTextureRank (processedOptions (closure b)) uri2)%float = true ->
  let low_high := snd (emit_resource dir2 uri2 high (snd (emit_resource dir1 uri1 low b))) in
  let high_low := snd (emit_resource dir1 uri1 low (snd (emit_resource dir2 uri2 high b))) in
  let winner := {| rank := computeTextureRank (processedOptions (closure b)) uri2;
                   cached := NodeBuffer.from high |} in
  sharedKTXCache (closure low_high) !! posix_join dir2 uri2 = Some winner
  /\ sharedKTXCache (closure high_low) !! posix_join dir2 uri2 = Some winner
  /\ assoc (posix_join dir2 uri2) (bundle low_high)
     = Some (emitted_entry (posix_join dir2 uri2) uri2 high)
  /\ assoc (posix_join dir2 uri2) (bundle high_low)
     = Some (emitted_entry (posix_join dir2 uri2) uri2 high).
Proof.
  intros K1 K2 J N L. cbv zeta.
  destruct (emit_resource_ktx2 dir1 uri1 low b K1) as (O1 & C1 & B1).
  destruct (emit_resource_ktx2 dir2 uri2 high (snd (emit_resource dir1 uri1 low b)) K2)
    as (_ & C12 & B12).
  destruct (emit_resource_ktx2 dir2 uri2 high b K2) as (O2 & C2 & B2).
  destruct (emit_resource_ktx2 dir1 uri1 low (snd (emit_resource dir2 uri2 high b)) K1)
    as (_ & C21 & B21).
  cbv zeta in *. rewrite O1 in C12, B12. rewrite O2 in C21, B21.
  rewrite J in *.
  set (r1 := computeTextureRank (processedOptions (closure b)) uri1) in *.
  set (r2 := computeTextureRank (processedOptions (closure b)) uri2) in *.
  set (path := posix_join dir2 uri2) in *.
  unfold replaces in C1, B1, C2, B2. rewrite N in C1, B1, C2, B2.
  unfold replaces in C12, B12, C21, B21.
  rewrite C1 in C12, B12. rewrite C2 in C21, B21.
  rewrite lookup_insert_eq in C12, B12, C21, B21.
  cbn [Plugin.rank] in C12, B12, C21, B21.
  rewrite L in C12, B12. rewrite (ltb_asym r1 r2 L) in C21, B21.
  rewrite C12, C21, B12, B21, B2.
  rewrite !lookup_insert_eq, !assoc_set_field, String.eqb_refl. auto.
Qed.

End TextureCache.

(* ===================================================================== *)
(** * Part IV.  Binary64 arithmetic of the compression mapper: C7 and C3  *)
(* ===================================================================== *)

(** ** Rounding to binary64, on integers *)

(** Hide the powers of two from the arithmetic decision procedure. *)
Ltac hide_pow :=
  repeat match goal with
         | |- context [Z.pow 2 ?e] =>
             let x := fresh "pw" in set (x := Z.pow 2 e) in *; clearbody x
         | H : context [Z.pow 2 ?e] |- _ =>
             let x := fresh "pw" in set (x := Z.pow 2 e) in *; clearbody x
         end.

Section Rounding.
Local Open Scope Z_scope.

(** The number of binary digits of a positive number. *)
Lemma digits2_pos_bounds (p : positive) :
  2 ^ (Zpos (digits2_pos p) - 1) <= Zpos p < 2 ^ Zpos (digits2_pos p).
Proof.
  induction p as [p IH|p IH|]; simpl digits2_pos.
  - rewrite Pos2Z.inj_succ.
    replace (Z.succ (Zpos (digits2_pos p)) - 1) with (1 + (Zpos (digits2_pos p) - 1)) by lia.
    rewrite Z.pow_succ_r, Z.pow_add_r by lia. change (2 ^ 1) with 2.
    change (Zpos p~1) with (2 * Zpos p + 1). hide_pow. lia.
  - rewrite Pos2Z.inj_succ.
    replace (Z.succ (Zpos (digits2_pos p)) - 1) with (1 + (Zpos (digits2_pos p) - 1)) by lia.
    rewrite Z.pow_succ_r, Z.pow_add_r by lia. change (2 ^ 1) with 2.
    change (Zpos p~0) with (2 * Zpos p). hide_pow. lia.
  - simpl. lia.
Qed.

(** The digits of a number are determined by the powers of two around it. *)
Lemma digits_unique (x d : Z) :
  0 < d -> 2 ^ (d - 1) <= x < 2 ^ d -> Zdigits2 x = d.
Proof.
  intros Hd [L U]. destruct x as [|p|p]; try (pose proof (Z.pow_pos_nonneg 2 (d - 1)); lia).
  simpl. pose proof (digits2_pos_bounds p) as [L' U'].
  set (d' := Zpos (digits2_pos p)) in *.
  destruct (Z.lt_trichotomy d d') as [C|[C|C]]; [|exact (eq_sym C)|].
  - assert (2 ^ d <= 2 ^ (d' - 1)) by (apply Z.pow_le_mono_r; lia). lia.
  - assert (2 ^ d' <= 2 ^ (d - 1)) by (apply Z.pow_le_mono_r; lia). lia.
Qed.

Lemma digits_bounds (x : Z) :
  0 < x -> 0 < Zdigits2 x /\ 2 ^ (Zdigits2 x - 1) <= x < 2 ^ Zdigits2 x.
Proof.
  destruct x as [|p|p]; try lia. intros _. simpl. split; [lia|apply digits2_pos_bounds].
Qed.

Lemma digits_nonneg (x : Z) : 0 <= Zdigits2 x.
Proof. destruct x; simpl; lia. Qed.

Lemma digits_mono (x y : Z) : 0 <= x <= y -> Zdigits2 x <= Zdigits2 y.
Proof.
  intros [Hx Hxy]. destruct (Z.eq_dec x 0) as [->|Nx]; [apply digits_nonneg|].
  destruct (digits_bounds x) as (Dx & Lx & Ux); [lia|].
  destruct (digits_bounds y) as (Dy & Ly & Uy); [lia|].
  destruct (Z.le_gt_cases (Zdigits2 x) (Zdigits2 y)) as [C|C]; [exact C|].
  assert (2 ^ Zdigits2 y <= 2 ^ (Zdigits2 x - 1)) by (apply Z.pow_le_mono_r; lia). lia.
Qed.

Lemma digits_shift (x k : Z) : 0 < x -> 0 <= k -> Zdigits2 (x * 2 ^ k) = Zdigits2 x + k.
Proof.
  intros Hx Hk. destruct (digits_bounds x Hx) as (D & L & U).
  pose proof (Z.pow_pos_nonneg 2 k) as Pk.
  apply digits_unique; [lia|].
  replace (Zdigits2 x + k - 1) with ((Zdigits2 x - 1) + k) by lia.
  rewrite !Z.pow_add_r by lia. nia.
Qed.

Lemma rne_bounds (x n : Z) : 0 < n -> x / 2 ^ n <= rne x n <= x / 2 ^ n + 1.
Proof.
  intros Hn. unfold rne. destruct (Z.leb_spec n 0); [lia|].
  destruct (2 * (x mod 2 ^ n) ?= 2 ^ n); [destruct (Z.even _)| |]; lia.
Qed.

Lemma rne_exact (x n : Z) : 0 <= n -> x mod 2 ^ n = 0 -> rne x n = x / 2 ^ n.
Proof.
  intros Hn E. unfold rne. destruct (Z.leb_spec n 0).
  - replace n with 0 by lia. rewrite Z.pow_0_r, Z.div_1_r. reflexivity.
  - rewrite E. pose proof (Z.pow_pos_nonneg 2 n).
    destruct (Z.compare_spec (2 * 0) (2 ^ n)); lia.
Qed.

Lemma rne_mono (x y n : Z) : x <= y -> rne x n <= rne y n.
Proof.
  intros Hxy. unfold rne. destruct (Z.leb_spec n 0); [exact Hxy|].
  assert (P : 0 < 2 ^ n) by (apply Z.pow_pos_nonneg; lia).
  pose proof (Z.div_le_mono x y (2 ^ n) P Hxy) as Q.
  pose proof (Z.div_mod x (2 ^ n)) as Dx. pose proof (Z.div_mod y (2 ^ n)) as Dy.
  pose proof (Z.mod_pos_bound x (2 ^ n) P) as Bx.
  pose proof (Z.mod_pos_bound y (2 ^ n) P) as By.
  destruct (Z.eq_dec (x / 2 ^ n) (y / 2 ^ n)) as [E|N].
  - rewrite E in *. assert (x mod 2 ^ n <= y mod 2 ^ n) by lia.
    destruct (Z.compare_spec (2 * (x mod 2 ^ n)) (2 ^ n));
      destruct (Z.compare_spec (2 * (y mod 2 ^ n)) (2 ^ n));
      destruct (Z.even (y / 2 ^ n)); lia.
  - destruct (2 * (x mod 2 ^ n) ?= 2 ^ n); [destruct (Z.even (x / 2 ^ n))| |];
      destruct (2 * (y mod 2 ^ n) ?= 2 ^ n); try destruct (Z.even (y / 2 ^ n)); lia.
Qed.

(** Rounding does not depend on trailing zeros of the representation. *)
Lemma rne_scale (x n k : Z) : 0 <= n -> 0 <= k -> rne (x * 2 ^ k) (n + k) = rne x n.
Proof.
  intros Hn Hk. unfold rne.
  assert (Pk : 0 < 2 ^ k) by (apply Z.pow_pos_nonneg; lia).
  destruct (Z.leb_spec n 0) as [N0|N0].
  - assert (n = 0) by lia. subst n. rewrite Z.add_0_l.
    destruct (Z.leb_spec k 0) as [K0|K0].
    + replace k with 0 by lia. rewrite Z.pow_0_r. lia.
    + rewrite Z.mod_mul by lia. rewrite Z.div_mul by lia.
      destruct (Z.compare_spec (2 * 0) (2 ^ k)); lia.
  - destruct (Z.leb_spec (n + k) 0); [lia|].
    assert (Pn : 0 < 2 ^ n) by (apply Z.pow_pos_nonneg; lia).
    rewrite Z.pow_add_r by lia.
    rewrite Z.div_mul_cancel_r by lia.
    rewrite Z.mul_mod_distr_r by lia.
    replace (2 * (x mod 2 ^ n * 2 ^ k)) with ((2 * (x mod 2 ^ n)) * 2 ^ k) by lia.
    rewrite <- (Zmult_compare_compat_r (2 * (x mod 2 ^ n)) (2 ^ n) (2 ^ k)) by lia.
    reflexivity.
Qed.

Lemma rne_pow2 (a l : Z) : 0 <= l <= a -> rne (2 ^ a) l = 2 ^ (a - l).
Proof.
  intros [Hl Hla].
  assert (E : 2 ^ a = 2 ^ (a - l) * 2 ^ l) by (rewrite <- Z.pow_add_r by lia; f_equal; lia).
  assert (P : 0 < 2 ^ l) by (apply Z.pow_pos_nonneg; lia).
  rewrite rne_exact; [|lia|].
  - rewrite E at 1. apply Z.div_mul. lia.
  - rewrite E. apply Z.mod_mul. lia.
Qed.

Lemma round64_upper (x : Z) : 0 < x -> round64 x <= 2 ^ Zdigits2 x.
Proof.
  intros Hx. unfold round64. destruct (digits_bounds x Hx) as (D & L & U).
  set (d := Zdigits2 x) in *. set (l := Z.max (d - 53) 0).
  assert (Hl : 0 <= l <= d) by lia.
  pose proof (rne_mono x (2 ^ d) l ltac:(lia)) as M.
  rewrite (rne_pow2 d l Hl) in M.
  assert (E : 2 ^ d = 2 ^ (d - l) * 2 ^ l) by (rewrite <- Z.pow_add_r by lia; f_equal; lia).
  assert (P : 0 < 2 ^ l) by (apply Z.pow_pos_nonneg; lia).
  rewrite E. apply Z.mul_le_mono_nonneg_r; lia.
Qed.

Lemma round64_lower (x : Z) : 0 < x -> 2 ^ (Zdigits2 x - 1) <= round64 x.
Proof.
  intros Hx. unfold round64. destruct (digits_bounds x Hx) as (D & L & U).
  set (d := Zdigits2 x) in *. set (l := Z.max (d - 53) 0).
  assert (Hl : 0 <= l <= d - 1) by lia.
  pose proof (rne_mono (2 ^ (d - 1)) x l L) as M.
  rewrite (rne_pow2 (d - 1) l Hl) in M.
  assert (E : 2 ^ (d - 1) = 2 ^ (d - 1 - l) * 2 ^ l)
    by (rewrite <- Z.pow_add_r by lia; f_equal; lia).
  assert (P : 0 < 2 ^ l) by (apply Z.pow_pos_nonneg; lia).
  rewrite E. apply Z.mul_le_mono_nonneg_r; lia.
Qed.

Lemma round64_0 : round64 0 = 0.
Proof. reflexivity. Qed.

Lemma round64_pos (x : Z) : 0 < x -> 0 < round64 x.
Proof.
  intros Hx. pose proof (round64_lower x Hx).
  destruct (digits_bounds x Hx) as (D & _).
  assert (0 < 2 ^ (Zdigits2 x - 1)) by (apply Z.pow_pos_nonneg; lia). lia.
Qed.

(** Rounding is monotone. *)
Lemma round64_mono (x y : Z) : 0 <= x <= y -> round64 x <= round64 y.
Proof.
  intros [Hx Hxy].
  destruct (Z.eq_dec x 0) as [->|Nx].
  { rewrite round64_0. destruct (Z.eq_dec y 0) as [->|Ny]; [reflexivity|].
    pose proof (round64_pos y). lia. }
  pose proof (digits_mono x y ltac:(lia)) as Dm.
  destruct (Z.eq_dec (Z.max (Zdigits2 x - 53) 0) (Z.max (Zdigits2 y - 53) 0)) as [E|N].
  - unfold round64. rewrite E.
    set (l := Z.max (Zdigits2 y - 53) 0).
    assert (P : 0 < 2 ^ l) by (apply Z.pow_pos_nonneg; lia).
    apply Z.mul_le_mono_nonneg_r; [lia|]. apply rne_mono, Hxy.
  - pose proof (round64_upper x ltac:(lia)) as Ux.
    pose proof (round64_lower y ltac:(lia)) as Ly.
    assert (Zdigits2 x <= Zdigits2 y - 1) by lia.
    assert (2 ^ Zdigits2 x <= 2 ^ (Zdigits2 y - 1)).
    { apply Z.pow_le_mono_r; [lia|assumption]. }
    lia.
Qed.

(** Values with at most 53 significant digits are not changed. *)
Lemma round64_exact (c j : Z) :
  0 <= c < 2 ^ 53 -> 0 <= j -> round64 (c * 2 ^ j) = c * 2 ^ j.
Proof.
  intros [Hc Uc] Hj. destruct (Z.eq_dec c 0) as [->|Nc]; [reflexivity|].
  unfold round64. rewrite digits_shift by lia.
  assert (Dc : Zdigits2 c <= 53).
  { destruct (digits_bounds c ltac:(lia)) as (D & L & U).
    destruct (Z.le_gt_cases (Zdigits2 c) 53) as [C|C]; [exact C|].
    assert (2 ^ 53 <= 2 ^ (Zdigits2 c - 1)) by (apply Z.pow_le_mono_r; lia). lia. }
  set (l := Z.max (Zdigits2 c + j - 53) 0).
  assert (Hl : 0 <= l <= j) by lia.
  assert (E : 2 ^ j = 2 ^ (j - l) * 2 ^ l) by (rewrite <- Z.pow_add_r by lia; f_equal; lia).
  assert (P : 0 < 2 ^ l) by (apply Z.pow_pos_nonneg; lia).
  rewrite rne_exact; [|lia|].
  - rewrite E at 1. rewrite Z.mul_assoc, Z.div_mul by lia. rewrite E. lia.
  - rewrite E, Z.mul_assoc. apply Z.mod_mul. lia.
Qed.

End Rounding.

(** ** The rounding of [SpecFloat], computed *)

Section SpecFloatRounding.
Local Open Scope Z_scope.

Lemma iter_pos_nat {A} (f : A -> A) (p : positive) (x : A) :
  SpecFloat.iter_pos f p x = Nat.iter (Pos.to_nat p) f x.
Proof.
  revert x. induction p as [p IH|p IH|]; intros x; simpl SpecFloat.iter_pos.
  - rewrite !IH, Pos2Nat.inj_xI. simpl Nat.iter.
    replace (Pos.to_nat p + (Pos.to_nat p + 0))%nat with (Pos.to_nat p + Pos.to_nat p)%nat by lia.
    rewrite Nat.iter_add, !Nat.iter_swap. reflexivity.
  - rewrite !IH, Pos2Nat.inj_xO. simpl Nat.mul.
    replace (Pos.to_nat p + (Pos.to_nat p + 0))%nat with (Pos.to_nat p + Pos.to_nat p)%nat by lia.
    rewrite Nat.iter_add. reflexivity.
  - reflexivity.
Qed.

Lemma shr_1_nonneg (m : Z) (r s : bool) :
  0 <= m ->
  shr_1 {| shr_m := m; shr_r := r; shr_s := s |}
  = {| shr_m := m / 2; shr_r := Z.odd m; shr_s := r || s |}.
Proof.
  intros Hm. rewrite <- Z.div2_div.
  destruct m as [|[p|p|]|p]; try reflexivity. lia.
Qed.

Lemma odd_or_rest (m k : Z) :
  0 <= m -> 0 < k ->
  Z.odd (m / 2 ^ (k - 1)) || negb (m mod 2 ^ (k - 1) =? 0) = negb (m mod 2 ^ k =? 0).
Proof.
  intros Hm Hk.
  assert (P : 0 < 2 ^ (k - 1)) by (apply Z.pow_pos_nonneg; lia).
  replace (2 ^ k) with (2 ^ (k - 1) * 2)
    by (rewrite Z.mul_comm, <- Z.pow_succ_r by lia; f_equal; lia).
  rewrite Z.rem_mul_r by lia.
  pose proof (Z.mod_pos_bound m (2 ^ (k - 1)) P) as B.
  pose proof (Z.mod_pos_bound (m / 2 ^ (k - 1)) 2 ltac:(lia)) as B2.
  rewrite (Zodd_mod (m / 2 ^ (k - 1))).
  set (a := (m / 2 ^ (k - 1)) mod 2) in *. set (b := m mod 2 ^ (k - 1)) in *.
  destruct (Z.eqb_spec a 1) as [A|A]; destruct (Z.eqb_spec b 0) as [B0|B0];
    destruct (Z.eqb_spec (b + 2 ^ (k - 1) * a) 0) as [C|C]; simpl; try reflexivity;
    exfalso; nia.
Qed.

Lemma shr_1_state (m k : Z) :
  0 <= m -> 0 <= k -> shr_1 (shr_state m k) = shr_state m (k + 1).
Proof.
  intros Hm Hk. unfold shr_state.
  assert (P : 0 < 2 ^ k) by (apply Z.pow_pos_nonneg; lia).
  rewrite shr_1_nonneg by (apply Z.div_pos; lia).
  replace (k + 1 - 1) with k by lia.
  destruct (Z.eqb_spec (k + 1) 0) as [C|_]; [lia|].
  f_equal.
  - rewrite Z.pow_add_r by lia. change (2 ^ 1) with 2.
    rewrite Z.div_div by lia. reflexivity.
  - destruct (Z.eqb_spec k 0) as [->|Nk].
    + simpl. rewrite Z.mod_1_r. reflexivity.
    + apply odd_or_rest; lia.
Qed.

Lemma iter_shr_1 (m : Z) (k : nat) :
  0 <= m -> Nat.iter k shr_1 (shr_state m 0) = shr_state m (Z.of_nat k).
Proof.
  intros Hm. induction k as [|k IH].
  - reflexivity.
  - simpl Nat.iter. rewrite IH, shr_1_state by lia. f_equal. lia.
Qed.

Lemma shr_exact (m e n : Z) :
  0 <= m ->
  shr (shr_state m 0) e n
  = if 0 <? n then (shr_state m n, e + n) else (shr_state m 0, e).
Proof.
  intros Hm. destruct n as [|p|p]; try reflexivity.
  unfold shr. rewrite iter_pos_nat, iter_shr_1 by exact Hm.
  rewrite positive_nat_Z. reflexivity.
Qed.

Lemma shr_state_0 (m : Z) : shr_state m 0 = shr_record_of_loc m loc_Exact.
Proof. unfold shr_state. simpl. rewrite Z.div_1_r. reflexivity. Qed.

(** Rounding the shifted mantissa by its round and sticky bits is [rne]. *)
Lemma round_shr_state (m n : Z) :
  0 <= m -> 0 <= n ->
  round_nearest_even (shr_m (shr_state m n)) (loc_of_shr_record (shr_state m n))
  = rne m n.
Proof.
  intros Hm Hn. unfold rne, shr_state.
  destruct (Z.eqb_spec n 0) as [->|Nn].
  { simpl. apply Z.div_1_r. }
  destruct (Z.leb_spec n 0) as [C|_]; [lia|].
  cbn [shr_m loc_of_shr_record].
  assert (P : 0 < 2 ^ (n - 1)) by (apply Z.pow_pos_nonneg; lia).
  assert (E2 : 2 ^ n = 2 ^ (n - 1) * 2)
    by (rewrite Z.mul_comm, <- Z.pow_succ_r by lia; f_equal; lia).
  assert (Q : m / 2 ^ n = (m / 2 ^ (n - 1)) / 2)
    by (rewrite E2, Z.div_div by lia; reflexivity).
  assert (R : m mod 2 ^ n = m mod 2 ^ (n - 1) + 2 ^ (n - 1) * ((m / 2 ^ (n - 1)) mod 2))
    by (rewrite E2; apply Z.rem_mul_r; lia).
  pose proof (Z.mod_pos_bound m (2 ^ (n - 1)) P) as B.
  pose proof (Z.mod_pos_bound (m / 2 ^ (n - 1)) 2 ltac:(lia)) as B2.
  rewrite (Zodd_mod (m / 2 ^ (n - 1))), R.
  set (q := m / 2 ^ n) in *.
  set (a := (m / 2 ^ (n - 1)) mod 2) in *. set (b := m mod 2 ^ (n - 1)) in *.
  rewrite E2. set (h := 2 ^ (n - 1)) in *.
  destruct (Z.eqb_spec a 1) as [A|A]; destruct (Z.eqb_spec b 0) as [B0|B0];
    cbn [negb round_nearest_even];
    destruct (Z.compare_spec (2 * (b + h * a)) (h * 2)); try reflexivity;
    exfalso; nia.
Qed.

End SpecFloatRounding.

Section BinaryRound.
Local Open Scope Z_scope.

Lemma fexp_eq (x : Z) : fexp prec emax x = Z.max (x - 53) (-1074).
Proof. reflexivity. Qed.

Lemma shr_fexp_exact (m e : Z) :
  0 <= m ->
  shr_fexp prec emax m e loc_Exact
  = let n := Z.max (Zdigits2 m + e - 53) (-1074) - e in
    if 0 <? n then (shr_state m n, e + n) else (shr_state m 0, e).
Proof.
  intros Hm. unfold shr_fexp. rewrite <- shr_state_0, fexp_eq.
  apply shr_exact, Hm.
Qed.

(** The second shift of [binary_round_aux] only acts when rounding carried
    into a 54th digit. *)
Lemma renormalize (q fe : Z) :
  -1074 <= fe -> 0 < q ->
  (fe = -1074 /\ q < 2 ^ 53) \/ (2 ^ 52 <= q <= 2 ^ 53) ->
  exists m e,
    shr_m (fst (shr_fexp prec emax q fe loc_Exact)) = m
    /\ snd (shr_fexp prec emax q fe loc_Exact) = e
    /\ 0 < m < 2 ^ 53 /\ -1074 <= e /\ (-1074 < e -> 2 ^ 52 <= m)
    /\ m * 2 ^ (e + 1074) = q * 2 ^ (fe + 1074).
Proof.
  intros Hfe Hq Cases. rewrite shr_fexp_exact by lia. cbv zeta.
  destruct (digits_bounds q Hq) as [Dp [Dl Du]].
  destruct Cases as [[-> Hlt] | [Hlo Hhi]].
  - assert (D : Zdigits2 q <= 53).
    { destruct (Z_le_gt_dec (Zdigits2 q) 53) as [|G]; [assumption|].
      pose proof (Z.pow_le_mono_r 2 53 (Zdigits2 q - 1) ltac:(lia) ltac:(lia)). lia. }
    destruct (Z.ltb_spec 0 (Z.max (Zdigits2 q + -1074 - 53) (-1074) - -1074)) as [C|_]; [lia|].
    exists q, (-1074). cbn [fst snd shr_state shr_m].
    rewrite Z.div_1_r. repeat split; try lia.
  - destruct (Z.eq_dec q (2 ^ 53)) as [->|Nq].
    + change (Zdigits2 (2 ^ 53)) with 54.
      destruct (Z.ltb_spec 0 (Z.max (54 + fe - 53) (-1074) - fe)) as [_|C]; [|lia].
      replace (Z.max (54 + fe - 53) (-1074) - fe) with 1 by lia.
      exists (2 ^ 52), (fe + 1). cbn [fst snd shr_state shr_m].
      repeat split; try reflexivity; try lia.
      replace (fe + 1 + 1074) with (Z.succ (fe + 1074)) by lia.
      rewrite Z.pow_succ_r by lia. change (2 ^ 53) with (2 ^ 52 * 2). ring.
    + rewrite (digits_unique q 53) by lia.
      destruct (Z.ltb_spec 0 (Z.max (53 + fe - 53) (-1074) - fe)) as [C|_]; [lia|].
      exists q, fe. cbn [fst snd shr_state shr_m].
      rewrite Z.div_1_r. repeat split; try lia.
Qed.

(** [binary_round_aux] on an exact positive mantissa [M] with exponent [E]
    rounds the value [N], counted in units of [2^-1074], to 53 digits. *)
Lemma binary_round_aux_value (M E N : Z) :
  0 < M -> 0 < N ->
  (0 <= E + 1074 /\ N = M * 2 ^ (E + 1074))
  \/ (E + 1074 < 0 /\ M = N * 2 ^ (- (E + 1074))) ->
  E <= fexp prec emax (Zdigits2 M + E) ->
  round64 N < 2 ^ 2098 ->
  exists my ey,
    binary_round_aux prec emax false M E loc_Exact = S754_finite false my ey
    /\ -1074 <= ey <= 971 /\ Zpos my < 2 ^ 53
    /\ (-1074 < ey -> 2 ^ 52 <= Zpos my)
    /\ Zpos my * 2 ^ (ey + 1074) = round64 N.
Proof.
  intros HM HN Link Hfe Hov. rewrite fexp_eq in Hfe.
  set (d := Zdigits2 M) in *.
  set (fe := Z.max (d + E - 53) (-1074)) in *.
  set (n := fe - E).
  assert (Hn : 0 <= n) by (unfold n; lia).
  assert (DN : Zdigits2 N = d + E + 1074).
  { destruct Link as [[K ->] | [K EM]].
    - rewrite digits_shift by lia. fold d. lia.
    - unfold d. rewrite EM, digits_shift by lia. lia. }
  assert (L : Z.max (Zdigits2 N - 53) 0 = fe + 1074) by (rewrite DN; unfold fe; lia).
  assert (R : rne N (fe + 1074) = rne M n).
  { destruct Link as [[K ->] | [K EM]].
    - replace (fe + 1074) with (n + (E + 1074)) by (unfold n; lia).
      apply rne_scale; lia.
    - rewrite EM. replace n with ((fe + 1074) + - (E + 1074)) by (unfold n; lia).
      symmetry. apply rne_scale; unfold fe; lia. }
  assert (V : round64 N = rne M n * 2 ^ (fe + 1074)).
  { unfold round64. cbv zeta. rewrite L, R. reflexivity. }
  assert (F1 : shr_fexp prec emax M E loc_Exact = (shr_state M n, fe)).
  { rewrite shr_fexp_exact by lia. cbv zeta. fold d. fold fe. fold n.
    destruct (Z.ltb_spec 0 n) as [P|P].
    - f_equal. unfold n. lia.
    - replace n with 0 by lia. f_equal. unfold n in P. lia. }
  unfold binary_round_aux. rewrite F1, round_shr_state by lia.
  set (q := rne M n) in *.
  pose proof (round64_pos N HN) as Vp.
  pose proof (round64_lower N HN) as Vl. pose proof (round64_upper N HN) as Vu.
  assert (P2 : 0 < 2 ^ (fe + 1074)) by (apply Z.pow_pos_nonneg; unfold fe; lia).
  assert (Hq : 0 < q) by nia.
  assert (Cases : (fe = -1074 /\ q < 2 ^ 53) \/ (2 ^ 52 <= q <= 2 ^ 53)).
  { destruct (Z_le_gt_dec (d + E - 53) (-1074)) as [S|B].
    - left. assert (fe = -1074) as F by (unfold fe; lia). split; [exact F|].
      rewrite V, F, DN in Vu. change (2 ^ (-1074 + 1074)) with 1 in Vu.
      pose proof (Z.pow_le_mono_r 2 (d + E + 1074) 53 ltac:(lia) ltac:(lia)).
      assert (q <> 2 ^ 53).
      { intros Q. rewrite <- R, F in Q.
        change (-1074 + 1074) with 0 in Q. unfold rne in Q. simpl in Q.
        destruct (digits_bounds N HN) as [_ [_ U]]. rewrite DN in U. lia. }
      lia.
    - right. assert (fe = d + E - 53) as F by (unfold fe; lia).
      rewrite V, DN in Vl, Vu.
      replace (d + E + 1074 - 1) with (52 + (fe + 1074)) in Vl by lia.
      replace (d + E + 1074) with (53 + (fe + 1074)) in Vu by lia.
      rewrite (Z.pow_add_r 2 52 (fe + 1074)) in Vl by lia.
      rewrite (Z.pow_add_r 2 53 (fe + 1074)) in Vu by lia. split; nia. }
  destruct (renormalize q fe ltac:(unfold fe; lia) Hq Cases)
    as (m & e & Em & Ee & Bm & Be & Bc & Val).
  destruct (shr_fexp prec emax q fe loc_Exact) as [st e'] eqn:F2.
  cbn [fst snd] in Em, Ee. subst e'. rewrite Em.
  destruct m as [|my|my]; try lia.
  assert (Top : e <= 971).
  { destruct (Z_le_gt_dec e 971) as [|G]; [assumption|exfalso].
    rewrite V, <- Val in Hov.
    assert (T : 2 ^ 52 * 2 ^ (e + 1074) <= Z.pos my * 2 ^ (e + 1074))
      by (apply Z.mul_le_mono_nonneg_r; [apply Z.pow_nonneg|]; lia).
    rewrite <- Z.pow_add_r in T by lia.
    pose proof (Z.pow_le_mono_r 2 2098 (52 + (e + 1074)) ltac:(lia) ltac:(lia)). lia. }
  exists my, e. change (emax - prec) with 971.
  destruct (Z.leb_spec e 971) as [_|C]; [|lia].
  repeat split; lia.
Qed.

End BinaryRound.

(** ** The order of binary64 numbers, on integers *)

Section Order.
Local Open Scope Z_scope.

Lemma bounded_inv (m : positive) (e : Z) :
  bounded prec emax m e = true ->
  -1074 <= e <= 971 /\ Zpos m < 2 ^ 53 /\ (-1074 < e -> 2 ^ 52 <= Zpos m).
Proof.
  unfold bounded, canonical_mantissa. rewrite fexp_eq.
  intros B. apply andb_true_iff in B. destruct B as [C T].
  apply Z.eqb_eq in C. apply Z.leb_le in T. change (emax - prec) with 971 in T.
  pose proof (digits2_pos_bounds m) as [Dl Du].
  set (d := Zpos (digits2_pos m)) in *.
  assert (D : d <= 53) by lia.
  pose proof (Z.pow_le_mono_r 2 d 53 ltac:(lia) D).
  repeat split; try lia.
  intros G. replace d with 53 in Dl by lia. exact Dl.
Qed.

Lemma finite_value_bounds (m : positive) (e : Z) :
  bounded prec emax m e = true -> 0 < Zpos m * 2 ^ (e + 1074) < 2 ^ 2098.
Proof.
  intros B. destruct (bounded_inv m e B) as (Be & Bm & _).
  assert (P : 0 < 2 ^ (e + 1074)) by (apply Z.pow_pos_nonneg; lia).
  pose proof (Z.pow_le_mono_r 2 (e + 1074) 2045 ltac:(lia) ltac:(lia)) as Q.
  change (2 ^ 2098) with (2 ^ 53 * 2 ^ 2045).
  split; [lia|].
  apply Z.lt_le_trans with (2 ^ 53 * 2 ^ (e + 1074)).
  - apply Z.mul_lt_mono_pos_r; assumption.
  - apply Z.mul_le_mono_nonneg_l; [lia | assumption].
Qed.

Lemma lower_exponent_lower_value (m1 m2 : positive) (e1 e2 : Z) :
  bounded prec emax m1 e1 = true -> bounded prec emax m2 e2 = true ->
  e1 < e2 -> Zpos m1 * 2 ^ (e1 + 1074) < Zpos m2 * 2 ^ (e2 + 1074).
Proof.
  intros B1 B2 L.
  destruct (bounded_inv m1 e1 B1) as (Be1 & Bm1 & _).
  destruct (bounded_inv m2 e2 B2) as (Be2 & _ & Bc2).
  specialize (Bc2 ltac:(lia)).
  assert (P : 0 < 2 ^ (e1 + 1074)) by (apply Z.pow_pos_nonneg; lia).
  pose proof (Z.pow_le_mono_r 2 (Z.succ (e1 + 1074)) (e2 + 1074) ltac:(lia) ltac:(lia)) as Q.
  rewrite Z.pow_succ_r in Q by lia.
  change (2 ^ 53) with (2 * 2 ^ 52) in Bm1.
  set (a := 2 ^ (e1 + 1074)) in *. set (b := 2 ^ (e2 + 1074)) in *.
  set (h := 2 ^ 52) in *. assert (0 < h) by reflexivity.
  clearbody a b h. nia.
Qed.

Lemma magnitude_compare (m1 m2 : positive) (e1 e2 : Z) :
  bounded prec emax m1 e1 = true -> bounded prec emax m2 e2 = true ->
  match e1 ?= e2 with
  | Eq => Pos.compare_cont Eq m1 m2
  | Lt => Lt
  | Gt => Gt
  end = (Zpos m1 * 2 ^ (e1 + 1074) ?= Zpos m2 * 2 ^ (e2 + 1074)).
Proof.
  intros B1 B2. destruct (Z.compare_spec e1 e2) as [->|L|G].
  - destruct (bounded_inv m2 e2 B2) as (Be2 & _).
    change (Pos.compare_cont Eq m1 m2) with (Zpos m1 ?= Zpos m2).
    apply Zmult_compare_compat_r. apply Z.lt_gt, Z.pow_pos_nonneg; lia.
  - symmetry. apply Z.compare_lt_iff. apply lower_exponent_lower_value; assumption.
  - symmetry. apply Z.compare_gt_iff. apply lower_exponent_lower_value; assumption.
Qed.

(** On valid numbers other than NaN, [SFcompare] compares the values. *)
Ltac compare_by_lia :=
  lazymatch goal with
  | |- Z.compare _ _ = Lt => apply (proj2 (Z.compare_lt_iff _ _)); lia
  | |- Z.compare _ _ = Gt => apply (proj2 (Z.compare_gt_iff _ _)); lia
  end.

Lemma SFcompare_ord (x y : spec_float) :
  valid_binary x = true -> valid_binary y = true ->
  x <> S754_nan -> y <> S754_nan ->
  SFcompare x y = Some (ord x ?= ord y).
Proof.
  intros Vx Vy Nx Ny.
  assert (Far : 2 ^ 2098 < 2 ^ 2100) by reflexivity.
  destruct x as [sx|sx| |sx mx ex], y as [sy|sy| |sy my ey];
    try congruence; cbn [valid_binary SpecFloat.valid_binary] in Vx, Vy.
  - reflexivity.
  - destruct sy; reflexivity.
  - pose proof (finite_value_bounds my ey Vy). unfold SFcompare, ord.
    destruct sy; cbn [cond_Zopp]; f_equal; symmetry; compare_by_lia.
  - destruct sx; reflexivity.
  - destruct sx, sy; reflexivity.
  - pose proof (finite_value_bounds my ey Vy). unfold SFcompare, ord.
    destruct sx, sy; cbn [cond_Zopp]; f_equal; symmetry; compare_by_lia.
  - pose proof (finite_value_bounds mx ex Vx). unfold SFcompare, ord.
    destruct sx; cbn [cond_Zopp]; f_equal; symmetry; compare_by_lia.
  - pose proof (finite_value_bounds mx ex Vx). unfold SFcompare, ord.
    destruct sx, sy; cbn [cond_Zopp]; f_equal; symmetry; compare_by_lia.
  - pose proof (finite_value_bounds mx ex Vx).
    pose proof (finite_value_bounds my ey Vy).
    pose proof (magnitude_compare mx my ex ey Vx Vy) as M.
    unfold SFcompare, ord. f_equal.
    destruct sx, sy; cbn [cond_Zopp].
    + rewrite Z.compare_opp.
      assert (X : (Zpos my * 2 ^ (ey + 1074) ?= Zpos mx * 2 ^ (ex + 1074))
                  = CompOpp (Zpos mx * 2 ^ (ex + 1074) ?= Zpos my * 2 ^ (ey + 1074)))
        by first [apply Z.compare_antisym | symmetry; apply Z.compare_antisym].
      rewrite X, <- M. destruct (ex ?= ey); reflexivity.
    + symmetry. compare_by_lia.
    + symmetry. compare_by_lia.
    + exact M.
Qed.

Lemma ltb_ord (x y : number) :
  isNaN x = false -> isNaN y = false -> (x <? y)%float = (ordf x <? ordf y).
Proof.
  intros Nx Ny. rewrite ltb_spec. unfold SFltb, ordf.
  rewrite (SFcompare_ord _ _ (Prim2SF_valid x) (Prim2SF_valid y)
             (isNaN_false x Nx) (isNaN_false y Ny)).
  unfold Z.ltb. destruct (ord (Prim2SF x) ?= ord (Prim2SF y)); reflexivity.
Qed.

Lemma leb_ord (x y : number) :
  isNaN x = false -> isNaN y = false -> (x <=? y)%float = (ordf x <=? ordf y).
Proof.
  intros Nx Ny. rewrite leb_spec. unfold SFleb, ordf.
  rewrite (SFcompare_ord _ _ (Prim2SF_valid x) (Prim2SF_valid y)
             (isNaN_false x Nx) (isNaN_false y Ny)).
  unfold Z.leb. destruct (ord (Prim2SF x) ?= ord (Prim2SF y)); reflexivity.
Qed.

End Order.

Section Operations.
Local Open Scope Z_scope.

Lemma shift_value (m d : positive) :
  Zpos (Pos.iter xO m d) = Zpos m * 2 ^ Zpos d.
Proof.
  change (Pos.iter xO m d) with (shift_pos d m).
  rewrite shift_pos_correct, Z.pow_pos_fold. ring.
Qed.

(** [binary_round] on a positive mantissa whose exponent is not below
    [-1074] rounds the value to 53 digits. *)
Lemma binary_round_value (M : positive) (E : Z) :
  -1074 <= E ->
  round64 (Zpos M * 2 ^ (E + 1074)) < 2 ^ 2098 ->
  exists my ey,
    binary_round prec emax false M E = S754_finite false my ey
    /\ -1074 <= ey <= 971 /\ Zpos my < 2 ^ 53
    /\ (-1074 < ey -> 2 ^ 52 <= Zpos my)
    /\ Zpos my * 2 ^ (ey + 1074) = round64 (Zpos M * 2 ^ (E + 1074)).
Proof.
  intros HE Hov. unfold binary_round. rewrite fexp_eq.
  change (Zpos (digits2_pos M)) with (Zdigits2 (Zpos M)).
  set (d := Zdigits2 (Zpos M)).
  set (fe := Z.max (d + E - 53) (-1074)).
  assert (P : 0 < 2 ^ (E + 1074)) by (apply Z.pow_pos_nonneg; lia).
  unfold shl_align. destruct (fe - E) as [|p|p] eqn:D.
  - apply binary_round_aux_value; try lia.
    rewrite fexp_eq. fold d. fold fe. lia.
  - apply binary_round_aux_value; try lia.
    rewrite fexp_eq. fold d. fold fe. lia.
  - apply binary_round_aux_value; try lia.
    + left. split; [unfold fe; lia|].
      rewrite shift_value. replace (Zpos p) with (E - fe) by lia.
      rewrite <- Z.mul_assoc, <- Z.pow_add_r by (unfold fe; lia).
      f_equal. f_equal. lia.
    + rewrite fexp_eq, shift_value, digits_shift by lia. fold d.
      replace (d + Zpos p + fe - 53) with (d + E - 53) by lia. fold fe. lia.
Qed.

Lemma nonneg_finite_not_nan (y : number) : nonneg_finite y -> isNaN y = false.
Proof.
  unfold nonneg_finite. intros F. destruct (isNaN y) eqn:E; [|reflexivity].
  apply isNaN_true in E. subst y. contradiction F.
Qed.

Lemma nonneg_finite_ord (y : number) : nonneg_finite y -> 0 <= ordf y.
Proof.
  unfold nonneg_finite, ordf. pose proof (Prim2SF_valid y) as V.
  destruct (Prim2SF y) as [[|]|[|]| |[|] m e]; try contradiction; intros _.
  - reflexivity.
  - pose proof (finite_value_bounds m e V). simpl. lia.
Qed.

Lemma positive_is_finite (x : number) :
  isNaN x = false -> 0 < ordf x < 2 ^ 2100 -> nonneg_finite x.
Proof.
  intros Nx. unfold nonneg_finite, ordf. pose proof (Prim2SF_valid x) as V.
  pose proof (isNaN_false x Nx) as NN.
  destruct (Prim2SF x) as [[|]|[|]| |[|] m e]; cbn [ord cond_Zopp]; try lia; congruence.
Qed.

(** [clamp01] by cases. *)
Lemma clamp01_cases (x : number) :
  isNaN x = false ->
  CompressionMapper.clamp01 x
  = if (x <? 1)%float then if (0 <? x)%float then x else 0%float else 1%float.
Proof.
  intros Nx. unfold CompressionMapper.clamp01, Math_min. rewrite Nx.
  change (isNaN 1%float) with false. cbn [orb].
  destruct (1 <? x)%float eqn:G.
  - rewrite (ltb_asym _ _ G). reflexivity.
  - destruct (x <? 1)%float eqn:L.
    + unfold Math_max. rewrite Nx. change (isNaN 0%float) with false. cbn [orb].
      change (is_neg_zero 0%float) with false.
      destruct (0 <? x)%float; [reflexivity|]. destruct (x <? 0)%float; reflexivity.
    + assert (Z : is_neg_zero x = false).
      { unfold is_neg_zero. rewrite ltb_spec in L.
        destruct (Prim2SF x) as [[|]|[|]| |[|] m e]; try reflexivity. discriminate L. }
      rewrite Z. reflexivity.
Qed.

Lemma ordf_1 : ordf 1%float = 2 ^ 1074.
Proof. reflexivity. Qed.

Lemma ordf_0 : ordf 0%float = 0.
Proof. reflexivity. Qed.

(** [clamp01] of a number that is not NaN is [+0] or positive and finite,
    and its value is that of the number, cut off at 0 and at 1. *)
Lemma clamp01_value (x : number) :
  isNaN x = false ->
  nonneg_finite (CompressionMapper.clamp01 x)
  /\ ordf (CompressionMapper.clamp01 x) = Z.max 0 (Z.min (2 ^ 1074) (ordf x)).
Proof.
  intros Nx. rewrite (clamp01_cases x Nx).
  rewrite (ltb_ord x 1%float Nx eq_refl), (ltb_ord 0%float x eq_refl Nx), ordf_1, ordf_0.
  assert (Far : 2 ^ 1074 < 2 ^ 2100) by reflexivity.
  assert (Pos : 0 < 2 ^ 1074) by reflexivity.
  destruct (Z.ltb_spec (ordf x) (2 ^ 1074)) as [L|G].
  - destruct (Z.ltb_spec 0 (ordf x)) as [P|N].
    + split; [apply positive_is_finite; [exact Nx | lia] | lia].
    + split; [exact I | rewrite ordf_0; lia].
  - split; [exact I | rewrite ordf_1; lia].
Qed.

End Operations.

Section Scaling.
Local Open Scope Z_scope.

(** Multiplying a number in [0, 1] by a constant [k] whose value is the
    integer [C]: the product is the rounding of the exact product. *)
Lemma mul_const (c k : number) (C : Z) (mc : positive) (ec : Z) :
  Prim2SF k = S754_finite false mc ec ->
  2 ^ 52 <= Zpos mc -> ec <= 0 -> Zpos mc = C * 2 ^ (- ec) -> 0 < C < 2 ^ 53 ->
  nonneg_finite c -> ordf c <= 2 ^ 1074 ->
  nonneg_finite (c * k)%float /\ ordf (c * k)%float = round64 (C * ordf c).
Proof.
  intros Ek Hmc Hec Emc HC Fc Bc.
  unfold nonneg_finite, ordf in *. rewrite mul_spec, Ek.
  pose proof (Prim2SF_valid c) as V.
  destruct (Prim2SF c) as [[|]|[|]| |[|] m e]; try contradiction.
  - cbn. rewrite Z.mul_0_r, round64_0. split; [exact I | reflexivity].
  - cbn [valid_binary SpecFloat.valid_binary] in V.
    destruct (bounded_inv m e V) as (Be & Bm & _).
    pose proof (finite_value_bounds m e V) as Bv.
    cbn [ord cond_Zopp] in Bc |- *.
    unfold SF64mul, SFmul. cbn [xorb]. rewrite Pos2Z.inj_mul.
    set (N := C * (Zpos m * 2 ^ (e + 1074))).
    assert (HN : 0 < N) by (unfold N; nia).
    assert (Ov : round64 N < 2 ^ 2098).
    { apply Z.le_lt_trans with (round64 (C * 2 ^ 1074)).
      - apply round64_mono. unfold N. nia.
      - rewrite round64_exact by lia.
        change (2 ^ 2098) with (2 ^ 53 * 2 ^ 2045).
        assert (2 ^ 1074 < 2 ^ 2045) by reflexivity.
        assert (0 < 2 ^ 1074) by reflexivity. nia. }
    destruct (binary_round_aux_value (Zpos m * Zpos mc) (e + ec) N) as
      (my & ey & -> & _ & _ & _ & Val); try lia.
    + rewrite Emc. unfold N.
      destruct (Z_le_gt_dec 0 (e + ec + 1074)) as [P|P]; [left | right].
      * split; [exact P|].
        replace (e + 1074) with (- ec + (e + ec + 1074)) by lia.
        rewrite Z.pow_add_r by lia. ring.
      * split; [lia|].
        replace (- ec) with ((e + 1074) + - (e + ec + 1074)) by lia.
        rewrite Z.pow_add_r by lia. ring.
    + rewrite fexp_eq.
      assert (53 <= Zdigits2 (Zpos m * Zpos mc)).
      { change 53 with (Zdigits2 (2 ^ 52)). apply digits_mono. nia. }
      lia.
    + split; [exact I|]. cbn [ord cond_Zopp]. exact Val.
Qed.

Lemma scaled_bounds (C v : Z) :
  0 < C < 2 ^ 53 -> 0 <= v <= 2 ^ 1074 -> 0 <= round64 (C * v) <= C * 2 ^ 1074.
Proof.
  intros HC Hv. split.
  - rewrite <- round64_0. apply round64_mono. nia.
  - rewrite <- (round64_exact C 1074) by lia. apply round64_mono. nia.
Qed.

(** [Math.round] of a small number that is not negative. *)
Lemma Math_round_value (y : number) (C : Z) :
  nonneg_finite y -> ordf y <= C * 2 ^ 1074 -> 0 <= C < 2 ^ 52 ->
  Math_round y = of_Z ((2 * ordf y + 2 ^ 1074) / 2 ^ 1075).
Proof.
  intros Fy By HC. unfold nonneg_finite, ordf, Math_round, of_Z in *.
  pose proof (Prim2SF_valid y) as V.
  destruct (Prim2SF y) as [[|]|[|]| |[|] m e]; try contradiction.
  - reflexivity.
  - cbn [valid_binary SpecFloat.valid_binary] in V.
    destruct (bounded_inv m e V) as (Be & Bm & Bc).
    cbn [ord cond_Zopp] in By |- *. unfold SFround. cbn [cond_Zopp].
    destruct (Z.leb_spec 0 e) as [P|P].
    + exfalso. specialize (Bc ltac:(lia)).
      pose proof (Z.pow_le_mono_r 2 1074 (e + 1074) ltac:(lia) ltac:(lia)).
      assert (0 < 2 ^ 1074) by reflexivity. nia.
    + assert (Q : (2 * Zpos m + 2 ^ (- e)) / 2 ^ (1 - e)
                  = (2 * (Zpos m * 2 ^ (e + 1074)) + 2 ^ 1074) / 2 ^ 1075).
      { assert (P2 : 0 < 2 ^ (e + 1074)) by (apply Z.pow_pos_nonneg; lia).
        rewrite <- (Z.div_mul_cancel_r (2 * Zpos m + 2 ^ (- e)) (2 ^ (1 - e))
                      (2 ^ (e + 1074))) by (try apply Z.pow_nonzero; lia).
        rewrite <- Z.pow_add_r by lia.
        rewrite Z.mul_add_distr_r, <- (Z.pow_add_r 2 (- e)) by lia.
        replace (1 - e + (e + 1074)) with 1075 by lia.
        replace (- e + (e + 1074)) with 1074 by lia.
        f_equal. ring. }
      rewrite Q.
      destruct (Z.eqb_spec ((2 * (Zpos m * 2 ^ (e + 1074)) + 2 ^ 1074) / 2 ^ 1075) 0)
        as [->|_]; reflexivity.
Qed.

Lemma steps_bounds (C v : Z) :
  0 < C < 2 ^ 52 -> 0 <= v <= 2 ^ 1074 -> 0 <= steps C v <= C.
Proof.
  intros HC Hv. unfold steps.
  pose proof (scaled_bounds C v ltac:(lia) Hv) as [L U].
  assert (P : 0 < 2 ^ 1075) by reflexivity.
  assert (E : 2 ^ 1075 = 2 * 2 ^ 1074) by reflexivity.
  split.
  - apply Z.div_pos; lia.
  - apply Z.lt_succ_r. apply Z.div_lt_upper_bound; [exact P|]. lia.
Qed.

Lemma steps_mono (C v w : Z) :
  0 < C -> 0 <= v <= w -> steps C v <= steps C w.
Proof.
  intros HC Hv. unfold steps. apply Z.div_le_mono; [reflexivity|].
  pose proof (round64_mono (C * v) (C * w) ltac:(nia)). lia.
Qed.

(** [Math.round(clamp01(x) * k)] for a constant [k] of integer value [C]. *)
Lemma round_scaled_clamp (x k : number) (C : Z) (mc : positive) (ec : Z) :
  Prim2SF k = S754_finite false mc ec ->
  2 ^ 52 <= Zpos mc -> ec <= 0 -> Zpos mc = C * 2 ^ (- ec) -> 0 < C < 2 ^ 52 ->
  isNaN x = false ->
  Math_round (CompressionMapper.clamp01 x * k)%float
  = of_Z (steps C (Z.max 0 (Z.min (2 ^ 1074) (ordf x)))).
Proof.
  intros Ek Hmc Hec Emc HC Nx.
  destruct (clamp01_value x Nx) as [Fc Vc].
  assert (Pos : 0 < 2 ^ 1074) by reflexivity.
  destruct (mul_const _ k C mc ec Ek Hmc Hec Emc ltac:(lia) Fc ltac:(lia)) as [Fp Vp].
  pose proof (scaled_bounds C (ordf (CompressionMapper.clamp01 x)) ltac:(lia) ltac:(lia)) as B.
  rewrite (Math_round_value _ C Fp ltac:(lia) ltac:(lia)), Vp, Vc. reflexivity.
Qed.

End Scaling.

Section Complement.
Local Open Scope Z_scope.

Lemma align_one (e : Z) :
  e <= -52 -> Zpos (fst (shl_align 4503599627370496 (-52) e)) = 2 ^ (- e).
Proof.
  intros He. unfold shl_align. destruct (e - -52) as [|p|p] eqn:D; cbn [fst].
  - replace e with (-52) by lia. reflexivity.
  - lia.
  - rewrite shift_value. change (Zpos 4503599627370496) with (2 ^ 52).
    rewrite <- Z.pow_add_r by lia. f_equal. lia.
Qed.

(** [1 - c] for a number [c] in [0, 1]. *)
Lemma one_minus (c : number) :
  nonneg_finite c -> ordf c <= 2 ^ 1074 ->
  nonneg_finite (1 - c)%float /\ ordf (1 - c)%float = round64 (2 ^ 1074 - ordf c).
Proof.
  intros Fc Bc. unfold nonneg_finite, ordf in *. rewrite sub_spec.
  change (Prim2SF 1%float) with (S754_finite false 4503599627370496 (-52)).
  pose proof (Prim2SF_valid c) as V.
  assert (One : round64 (2 ^ 1074) = 2 ^ 1074) by (apply (round64_exact 1 1074); lia).
  assert (Pos : 0 < 2 ^ 1074) by reflexivity.
  destruct (Prim2SF c) as [[|]|[|]| |[|] m e]; try contradiction.
  - cbn [SF64sub SFsub ord cond_Zopp]. rewrite Z.sub_0_r, One. split; [exact I | reflexivity].
  - cbn [valid_binary SpecFloat.valid_binary] in V.
    destruct (bounded_inv m e V) as (Be & Bm & Bcan).
    cbn [ord cond_Zopp] in Bc |- *.
    assert (He : e <= -52).
    { destruct (Z_le_gt_dec e (-52)) as [|G]; [assumption|exfalso].
      specialize (Bcan ltac:(lia)).
      pose proof (Z.pow_le_mono_r 2 1023 (e + 1074) ltac:(lia) ltac:(lia)).
      assert (2 ^ 1074 < 2 ^ 52 * 2 ^ 1023) by reflexivity. nia. }
    assert (P : 0 < 2 ^ (e + 1074)) by (apply Z.pow_pos_nonneg; lia).
    assert (S : 2 ^ (- e) * 2 ^ (e + 1074) = 2 ^ 1074)
      by (rewrite <- Z.pow_add_r by lia; f_equal; lia).
    unfold SF64sub, SFsub. cbv zeta.
    replace (IntDef.Z.min (-52) e) with e by (symmetry; apply Z.min_r; lia).
    cbn [cond_Zopp]. rewrite (align_one e He).
    replace (fst (shl_align m e e)) with m
      by (unfold shl_align; rewrite Z.sub_diag; reflexivity).
    destruct (2 ^ (- e) - Zpos m) as [|D|D] eqn:Df.
    + cbn [binary_normalize ord]. split; [exact I|].
      replace (Zpos m) with (2 ^ (- e)) by lia. rewrite S, Z.sub_diag, round64_0.
      reflexivity.
    + cbn [binary_normalize].
      assert (Val : Zpos D * 2 ^ (e + 1074) = 2 ^ 1074 - Zpos m * 2 ^ (e + 1074)) by nia.
      destruct (binary_round_value D e) as (my & ey & -> & _ & _ & _ & R); try lia.
      * rewrite Val. apply Z.le_lt_trans with (round64 (2 ^ 1074)).
        -- apply round64_mono. nia.
        -- rewrite One. reflexivity.
      * split; [exact I|]. cbn [ord cond_Zopp]. rewrite R, Val. reflexivity.
    + exfalso. nia.
Qed.

Lemma complement_bounds (v : Z) :
  0 <= v <= 2 ^ 1074 -> 0 <= round64 (2 ^ 1074 - v) <= 2 ^ 1074.
Proof.
  intros Hv. split.
  - rewrite <- round64_0. apply round64_mono. lia.
  - rewrite <- (round64_exact 1 1074) at 2 by lia.
    apply round64_mono. lia.
Qed.

End Complement.

(** ** Finite checks *)

Lemma all_below_spec (n : nat) (p : Z -> bool) :
  all_below n p = true -> forall k : Z, (0 <= k < Z.of_nat n)%Z -> p k = true.
Proof.
  induction n as [|n IH]; intros A k Hk.
  - lia.
  - cbn [all_below] in A. apply andb_true_iff in A. destruct A as [Here Rest].
    destruct (Z.eq_dec k (Z.of_nat n)) as [->|Nk]; [exact Here|].
    apply IH; [exact Rest | lia].
Qed.

Lemma ltb_true_not_nan (a b : number) :
  (a <? b)%float = true -> isNaN a = false /\ isNaN b = false.
Proof.
  intros L. split.
  - destruct (isNaN a) eqn:E; [|reflexivity]. apply isNaN_true in E. subst a.
    rewrite ltb_spec in L. discriminate L.
  - destruct (isNaN b) eqn:E; [|reflexivity]. apply isNaN_true in E. subst b.
    rewrite ltb_spec in L. change (Prim2SF nan) with S754_nan in L.
    destruct (Prim2SF a); discriminate L.
Qed.

Lemma leb_true_not_nan (a b : number) :
  (a <=? b)%float = true -> isNaN a = false /\ isNaN b = false.
Proof.
  intros L. split.
  - destruct (isNaN a) eqn:E; [|reflexivity]. apply isNaN_true in E. subst a.
    rewrite leb_spec in L. discriminate L.
  - destruct (isNaN b) eqn:E; [|reflexivity]. apply isNaN_true in E. subst b.
    rewrite leb_spec in L. change (Prim2SF nan) with S754_nan in L.
    destruct (Prim2SF a); discriminate L.
Qed.

Lemma ltb_leb_trans (a b c : number) :
  (a <? b)%float = true -> (b <=? c)%float = true -> (a <? c)%float = true.
Proof.
  intros L M.
  destruct (ltb_true_not_nan a b L) as [Na Nb].
  destruct (leb_true_not_nan b c M) as [_ Nc].
  rewrite ltb_ord in L |- * by assumption. rewrite leb_ord in M by assumption.
  apply Z.ltb_lt in L. apply Z.leb_le in M. apply Z.ltb_lt. lia.
Qed.

(** Every ETC1S quality is below 10000, and every rank computed for UASTC
    is at least 10000. *)
Lemma etc1s_rank_check :
  all_below 256 (fun k => (of_Z k <? 10000)%float) = true.
Proof. vm_compute. reflexivity. Qed.

Lemma uastc_rank_check :
  all_below 5 (fun l => all_below 256 (fun k =>
    (10000 <=? 10000 + (4 - of_Z l) * 100 + of_Z k / 255)%float)) = true.
Proof. vm_compute. reflexivity. Qed.

(** ** CompressionMapper.toQuantizationBits: C7 *)

Section QuantizationBits.
Import CompressionMapper.
Local Open Scope float_scope.

Lemma unit_value_bounds (x : number) : (0 <= unit_value x <= 2 ^ 1074)%Z.
Proof.
  unfold unit_value. assert (0 < 2 ^ 1074)%Z by reflexivity. lia.
Qed.

Lemma unit_value_mono (x y : number) :
  isNaN x = false -> isNaN y = false -> (x <=? y)%float = true ->
  (unit_value x <= unit_value y)%Z.
Proof.
  intros Nx Ny L. rewrite (leb_ord x y Nx Ny) in L. apply Z.leb_le in L.
  unfold unit_value. lia.
Qed.

Lemma round_times_6 (x : number) :
  isNaN x = false -> Math_round (clamp01 x * 6) = of_Z (steps 6%Z (unit_value x)).
Proof.
  intros Nx.
  apply (round_scaled_clamp x 6 6%Z 6755399441055744 (-50)%Z);
    [reflexivity | apply Z.leb_le; reflexivity | apply Z.leb_le; reflexivity
    | reflexivity | split; reflexivity | exact Nx].
Qed.

Lemma round_times_2 (x : number) :
  isNaN x = false -> Math_round (clamp01 x * 2) = of_Z (steps 2%Z (unit_value x)).
Proof.
  intros Nx.
  apply (round_scaled_clamp x 2 2%Z 4503599627370496 (-51)%Z);
    [reflexivity | apply Z.leb_le; reflexivity | apply Z.leb_le; reflexivity
    | reflexivity | split; reflexivity | exact Nx].
Qed.

Lemma position_check :
  all_below 7 (fun k => between 10 16 (10 + of_Z k)
                        && Number_isInteger (10 + of_Z k)) = true.
Proof. vm_compute. reflexivity. Qed.

Lemma normal_check :
  all_below 3 (fun k => between 8 10 (8 + of_Z k)
                        && Number_isInteger (8 + of_Z k)) = true.
Proof. vm_compute. reflexivity. Qed.

Lemma texcoord_check :
  all_below 3 (fun k => between 10 12 (10 + of_Z k)
                        && Number_isInteger (10 + of_Z k)) = true.
Proof. vm_compute. reflexivity. Qed.

End QuantizationBits.

Section QuantizationBitsClaims.
Import CompressionMapper.
Local Open Scope float_scope.

Lemma position_mono_check :
  all_below 7 (fun k => all_below 7 (fun k' =>
    (k' <? k)%Z || (10 + of_Z k <=? 10 + of_Z k'))) = true.
Proof. vm_compute. reflexivity. Qed.

Lemma normal_mono_check :
  all_below 3 (fun k => all_below 3 (fun k' =>
    (k' <? k)%Z || (8 + of_Z k <=? 8 + of_Z k'))) = true.
Proof. vm_compute. reflexivity. Qed.

Lemma texcoord_mono_check :
  all_below 3 (fun k => all_below 3 (fun k' =>
    (k' <? k)%Z || (10 + of_Z k <=? 10 + of_Z k'))) = true.
Proof. vm_compute. reflexivity. Qed.

(** A table checked for all pairs gives the comparison for ordered pairs. *)
Lemma mono_from_check (n : nat) (f : Z -> number) (k k' : Z) :
  all_below n (fun k => all_below n (fun k' => (k' <? k)%Z || (f k <=? f k'))) = true ->
  (0 <= k <= k')%Z -> (k' < Z.of_nat n)%Z -> (f k <=? f k') = true.
Proof.
  intros T Hk Hk'.
  pose proof (all_below_spec n _ T k ltac:(lia)) as Row. cbv beta in Row.
  pose proof (all_below_spec n _ Row k' ltac:(lia)) as Cell. cbv beta in Cell.
  destruct (Z.ltb_spec k' k) as [C|_]; [lia|]. exact Cell.
Qed.

(** The three bit depths that vary, from the precision that is not NaN. *)
Lemma bits_of_precision (p : number) :
  isNaN p = false ->
  quantizePosition (toQuantizationBits (Some p)) = 10 + of_Z (steps 6 (unit_value p))
  /\ quantizeNormal (toQuantizationBits (Some p)) = 8 + of_Z (steps 2 (unit_value p))
  /\ quantizeTexcoord (toQuantizationBits (Some p)) = 10 + of_Z (steps 2 (unit_value p)).
Proof.
  intros Np. unfold toQuantizationBits, param.
  cbn [quantizePosition quantizeNormal quantizeTexcoord].
  rewrite (round_times_6 p Np), (round_times_2 p Np). repeat split.
Qed.

(** C7, a precision for which the claim fails: NaN passes through the
    clamping, and the position bit depth is NaN, outside 10 to 16. *)
Example C7_counterexample_NaN_precision :
  isNaN (quantizePosition (toQuantizationBits (Some nan))) = true
  /\ between 10 16 (quantizePosition (toQuantizationBits (Some nan))) = false.
Proof. split; reflexivity. Qed.

(** C7 (amended to precisions that are not NaN): [toQuantizationBits] is a
    total function; for precisions [p <= q] the position, normal and
    texcoord bit depths at [p] are integers within 10 to 16, 8 to 10 and 10
    to 12, none of them is greater at [p] than at [q], color and weight are
    8, and the missing argument stands for 0.8. *)
Theorem C7_quantization_bits (p q : number) :
  isNaN p = false -> isNaN q = false -> (p <=? q) = true ->
  let lo := toQuantizationBits (Some p) in
  let hi := toQuantizationBits (Some q) in
  (between 10 16 (quantizePosition lo) && Number_isInteger (quantizePosition lo) = true
   /\ between 8 10 (quantizeNormal lo) && Number_isInteger (quantizeNormal lo) = true
   /\ between 10 12 (quantizeTexcoord lo) && Number_isInteger (quantizeTexcoord lo) = true)
  /\ (quantizeColor lo = 8 /\ quantizeWeight lo = 8)
  /\ ((quantizePosition lo <=? quantizePosition hi) = true
      /\ (quantizeNormal lo <=? quantizeNormal hi) = true
      /\ (quantizeTexcoord lo <=? quantizeTexcoord hi) = true)
  /\ toQuantizationBits None = toQuantizationBits (Some 0.8).
Proof.
  intros Np Nq Le lo hi.
  destruct (bits_of_precision p Np) as (Pp & Pn & Pt).
  destruct (bits_of_precision q Nq) as (Qp & Qn & Qt).
  fold lo in Pp, Pn, Pt. fold hi in Qp, Qn, Qt.
  rewrite Pp, Pn, Pt, Qp, Qn, Qt.
  pose proof (unit_value_bounds p) as Bp. pose proof (unit_value_bounds q) as Bq.
  pose proof (unit_value_mono p q Np Nq Le) as M.
  assert (S6 : (0 < 6 < 2 ^ 52)%Z) by (split; reflexivity).
  assert (S2 : (0 < 2 < 2 ^ 52)%Z) by (split; reflexivity).
  pose proof (steps_bounds 6 (unit_value p) S6 Bp) as B6p.
  pose proof (steps_bounds 6 (unit_value q) S6 Bq) as B6q.
  pose proof (steps_bounds 2 (unit_value p) S2 Bp) as B2p.
  pose proof (steps_bounds 2 (unit_value q) S2 Bq) as B2q.
  pose proof (steps_mono 6 (unit_value p) (unit_value q) ltac:(lia) ltac:(lia)) as M6.
  pose proof (steps_mono 2 (unit_value p) (unit_value q) ltac:(lia) ltac:(lia)) as M2.
  repeat split.
  - apply (all_below_spec 7 _ position_check). simpl Z.of_nat. lia.
  - apply (all_below_spec 3 _ normal_check). simpl Z.of_nat. lia.
  - apply (all_below_spec 3 _ texcoord_check). simpl Z.of_nat. lia.
  - apply (mono_from_check 7 (fun k => 10 + of_Z k) _ _ position_mono_check);
      simpl Z.of_nat; lia.
  - apply (mono_from_check 3 (fun k => 8 + of_Z k) _ _ normal_mono_check);
      simpl Z.of_nat; lia.
  - apply (mono_from_check 3 (fun k => 10 + of_Z k) _ _ texcoord_mono_check);
      simpl Z.of_nat; lia.
Qed.

End QuantizationBitsClaims.

(** C7 at the precisions 0.5 and 1. *)
Lemma C7_witness :
  (quantizePosition (CompressionMapper.toQuantizationBits (Some 0.5%float))
   <=? quantizePosition (CompressionMapper.toQuantizationBits (Some 1%float)))%float = true.
Proof.
  exact (proj1 (proj1 (proj2 (proj2 (C7_quantization_bits 0.5%float 1%float
                                       eq_refl eq_refl eq_refl))))).
Defined.

(** ** The shared KTX2 cache over two assets: C3 *)

Lemma C3_counterexample_first_processed_wins :
  exists b,
    two_models_start = Some b
    /\ emitted_bytes "gltf/wood.ktx2"
         (snd (build_in_order ["gltf/a.gltf"; "gltf/b.gltf"]%string b))
       = Some (NodeBuffer.bytes_of_string "high")
    /\ emitted_bytes "gltf/wood.ktx2"
         (snd (build_in_order ["gltf/b.gltf"; "gltf/a.gltf"]%string b))
       = Some (NodeBuffer.bytes_of_string "low").
Proof.
  eexists. split; [vm_compute; reflexivity|]. split; vm_compute; reflexivity.
Qed.

Section TextureRank.
Import CompressionMapper Plugin.
Local Open Scope float_scope.

(** The ETC1S quality of [computeTextureRank] is an integer from 0 to 255. *)
Lemma etc1s_quality_value (q : number) :
  isNaN q = false ->
  tc_quality (toETC1SParams (Some q) None) = of_Z (steps 255 (unit_value q)).
Proof.
  intros Nq. unfold toETC1SParams, param. cbn [tc_quality].
  apply (round_scaled_clamp q 255 255%Z 8972014882652160 (-45)%Z);
    [reflexivity | apply Z.leb_le; reflexivity | apply Z.leb_le; reflexivity
    | reflexivity | split; reflexivity | exact Nq].
Qed.

(** The UASTC level of [computeTextureRank] is an integer from 0 to 4. *)
Lemma uastc_level_value (q : number) :
  isNaN q = false ->
  exists l : Z, (0 <= l <= 4)%Z /\ tc_quality (toUASTCParams (Some q) None) = of_Z l.
Proof.
  intros Nq. unfold toUASTCParams, param. cbn [tc_quality].
  destruct (clamp01_value q Nq) as [Fc Vc].
  assert (Pos : (0 < 2 ^ 1074)%Z) by reflexivity.
  destruct (one_minus (clamp01 q) Fc ltac:(lia)) as [F1 V1].
  pose proof (complement_bounds (ordf (clamp01 q)) ltac:(lia)) as B1.
  rewrite <- V1 in B1.
  destruct (mul_const (1 - clamp01 q) 4 4%Z 4503599627370496 (-50)%Z) as [F4 V4];
    [reflexivity | apply Z.leb_le; reflexivity | apply Z.leb_le; reflexivity
    | reflexivity | split; reflexivity | exact F1 | lia |].
  assert (S4 : (0 < 4 < 2 ^ 52)%Z) by (split; reflexivity).
  pose proof (scaled_bounds 4 (ordf (1 - clamp01 q)) ltac:(split; reflexivity) B1) as B4.
  rewrite (Math_round_value _ 4%Z F4 ltac:(lia) ltac:(lia)), V4.
  exists (steps 4 (ordf (1 - clamp01 q))). split; [|reflexivity].
  apply steps_bounds; assumption.
Qed.

(** Every rank computed for UASTC exceeds every rank computed for ETC1S. *)
Lemma rank_of_order (q q' : number) :
  isNaN q = false -> isNaN q' = false ->
  (rank_of etc1s q' <? rank_of uastc q) = true.
Proof.
  intros Nq Nq'. unfold rank_of.
  rewrite (etc1s_quality_value q Nq), (etc1s_quality_value q' Nq').
  destruct (uastc_level_value q Nq) as (l & Bl & ->).
  assert (S : (0 < 255 < 2 ^ 52)%Z) by (split; reflexivity).
  pose proof (steps_bounds 255 _ S (unit_value_bounds q)) as Bk.
  pose proof (steps_bounds 255 _ S (unit_value_bounds q')) as Bk'.
  apply ltb_leb_trans with 10000.
  - apply (all_below_spec 256 _ etc1s_rank_check). simpl Z.of_nat. lia.
  - pose proof (all_below_spec 5 _ uastc_rank_check l ltac:(simpl Z.of_nat; lia)) as Row.
    cbv beta in Row.
    apply (all_below_spec 256 _ Row). simpl Z.of_nat. lia.
Qed.

End TextureRank.

Section TextureCacheClaim.
Import GLTFProcessor Plugin.
Context `{Host}.
Local Open Scope float_scope.

(** C3 (amended: the rank is computed from the name of the texture and the
    texture options of the plugin, not from the encoding).  In every state
    of a build: (1) the emission of a KTX2 resource replaces the cache entry
    and the bundle entry of its output path exactly when the path is not
    cached or the rank is strictly higher than the cached rank, and leaves
    both as they are otherwise; (2) every rank computed for UASTC exceeds
    every rank computed for ETC1S; (3) of two emissions to one output path
    that is not cached yet whose ranks differ, the bytes of the higher rank
    are the ones emitted, in either order; (4) a second emission under the
    same name has the same rank and changes nothing: the bytes of the first
    emission stay. *)
Theorem C3_cache_keeps_strictly_higher_rank (b : Build) :
  let options := processedOptions (closure b) in
  (forall (resourceDir uri : string) (data : list Byte.byte),
     endsWith (toLowerCase uri) ".ktx2" = true ->
     let path := posix_join resourceDir uri in
     let new_rank := computeTextureRank options uri in
     let b' := snd (emit_resource resourceDir uri data b) in
     sharedKTXCache (closure b')
     = (if replaces (sharedKTXCache (closure b)) path new_rank
        then <[path := {| rank := new_rank; cached := NodeBuffer.from data |}]>
               (sharedKTXCache (closure b))
        else sharedKTXCache (closure b))
     /\ bundle b'
        = (if replaces (sharedKTXCache (closure b)) path new_rank
           then set_field path (emitted_entry path uri data) (bundle b)
           else bundle b))
  /\ (forall q q' : number,
        isNaN q = false -> isNaN q' = false ->
        (rank_of etc1s q' <? rank_of uastc q) = true)
  /\ (forall (dir1 uri1 dir2 uri2 : string) (low high : list Byte.byte),
        endsWith (toLowerCase uri1) ".ktx2" = true ->
        endsWith (toLowerCase uri2) ".ktx2" = true ->
        posix_join dir1 uri1 = posix_join dir2 uri2 ->
        sharedKTXCache (closure b) !! posix_join dir2 uri2 = None ->
        (computeTextureRank options uri1 <? computeTextureRank options uri2) = true ->
        let path := posix_join dir2 uri2 in
        let low_high :=
          snd (emit_resource dir2 uri2 high (snd (emit_resource dir1 uri1 low b))) in
        let high_low :=
          snd (emit_resource dir1 uri1 low (snd (emit_resource dir2 uri2 high b))) in
        assoc path (bundle low_high) = Some (emitted_entry path uri2 high)
        /\ assoc path (bundle high_low) = Some (emitted_entry path uri2 high))
  /\ (forall (resourceDir uri : string) (first second : list Byte.byte),
        endsWith (toLowerCase uri) ".ktx2" = true ->
        let b1 := snd (emit_resource resourceDir uri first b) in
        let b2 := snd (emit_resource resourceDir uri second b1) in
        sharedKTXCache (closure b2) = sharedKTXCache (closure b1)
        /\ bundle b2 = bundle b1).
Proof.
  cbv zeta. repeat apply conj.
  - intros resourceDir uri data K.
    destruct (emit_resource_ktx2 resourceDir uri data b K) as (_ & C & B).
    split; assumption.
  - intros q q'. apply rank_of_order.
  - intros dir1 uri1 dir2 uri2 low high K1 K2 J N L.
    destruct (higher_rank_wins dir1 uri1 dir2 uri2 low high b K1 K2 J N L)
      as (_ & _ & B1 & B2).
    split; assumption.
  - intros resourceDir uri first second K.
    apply (second_emission_keeps_first resourceDir uri first second b K).
Qed.

End TextureCacheClaim.

(** C3 on a fresh build: the texture "normal/wood.ktx2" of the directory
    "assets" and the texture "wood.ktx2" of the directory "assets/normal"
    have the same output path; the first name is ranked as UASTC, the
    second as ETC1S, and the bytes of the first are emitted in both orders. *)
Lemma C3_witness :
  let low := [Byte.x01] in
  let high := [Byte.x02] in
  let low_high :=
    snd (@Plugin.emit_resource simple_host "assets" "normal/wood.ktx2" high
           (snd (@Plugin.emit_resource simple_host "assets/normal" "wood.ktx2" low
                   fresh_build))) in
  let high_low :=
    snd (@Plugin.emit_resource simple_host "assets/normal" "wood.ktx2" low
           (snd (@Plugin.emit_resource simple_host "assets" "normal/wood.ktx2" high
                   fresh_build))) in
  assoc "assets/normal/wood.ktx2" (Plugin.bundle low_high)
  = Some (@emitted_entry "assets/normal/wood.ktx2" "normal/wood.ktx2" high)
  /\ assoc "assets/normal/wood.ktx2" (Plugin.bundle high_low)
     = Some (@emitted_entry "assets/normal/wood.ktx2" "normal/wood.ktx2" high).
Proof.
  exact (proj1 (proj2 (proj2 (@C3_cache_keeps_strictly_higher_rank simple_host fresh_build)))
           "assets/normal"%string "wood.ktx2"%string "assets"%string "normal/wood.ktx2"%string
           [Byte.x01] [Byte.x02] eq_refl eq_refl eq_refl eq_refl eq_refl).
Defined.

(* ===================================================================== *)
(** * Part V.  Further properties of the code                             *)
(* ===================================================================== *)

(** ** Integers as binary64 numbers *)

Section IntegerNumbers.
Local Open Scope Z_scope.

(** Bounds on mantissa and exponent that make a finite number valid. *)
Lemma bounded_of_bounds (m : positive) (e : Z) :
  -1074 <= e <= 971 -> Zpos m < 2 ^ 53 -> (-1074 < e -> 2 ^ 52 <= Zpos m) ->
  bounded prec emax m e = true.
Proof.
  intros Be Bm Bc. unfold bounded, canonical_mantissa. rewrite fexp_eq.
  apply andb_true_iff. split; [|apply Z.leb_le; exact (proj2 Be)].
  apply Z.eqb_eq.
  change (Zpos (digits2_pos m)) with (Zdigits2 (Zpos m)).
  destruct (Z_le_gt_dec e (-1074)) as [L|G].
  - assert (D : Zdigits2 (Zpos m) <= 53).
    { destruct (Z_le_gt_dec (Zdigits2 (Zpos m)) 53) as [|G]; [assumption|exfalso].
      destruct (digits_bounds (Zpos m) ltac:(lia)) as [_ [Lo _]].
      pose proof (Z.pow_le_mono_r 2 53 (Zdigits2 (Zpos m) - 1) ltac:(lia) ltac:(lia)). lia. }
    lia.
  - rewrite (digits_unique (Zpos m) 53) by (try split; try apply Bc; lia). lia.
Qed.

(** An integer below [2^53] is a binary64 number, with its own value. *)
Lemma of_Z_value (k : Z) :
  0 <= k < 2 ^ 53 ->
  nonneg_finite (of_Z k) /\ ordf (of_Z k) = k * 2 ^ 1074.
Proof.
  intros Hk. unfold of_Z, nonneg_finite, ordf.
  destruct k as [|p|p]; try lia.
  - split; [exact I | reflexivity].
  - cbn [binary_normalize].
    assert (R : round64 (Zpos p * 2 ^ (0 + 1074)) = Zpos p * 2 ^ 1074)
      by (apply round64_exact; lia).
    destruct (binary_round_value p 0) as (my & ey & E & Be & Bm & Bc & V); try lia.
    rewrite E, Prim2SF_SF2Prim by (apply bounded_of_bounds; assumption).
    split; [exact I|]. cbn [ord cond_Zopp]. rewrite V, R. reflexivity.
Qed.

Lemma of_Z_not_nan (k : Z) : 0 <= k < 2 ^ 53 -> isNaN (of_Z k) = false.
Proof. intros Hk. apply nonneg_finite_not_nan, of_Z_value, Hk. Qed.

(** Comparing two such integers as numbers compares them. *)
Lemma of_Z_leb (k k' : Z) :
  0 <= k < 2 ^ 53 -> 0 <= k' < 2 ^ 53 -> (of_Z k <=? of_Z k')%float = (k <=? k').
Proof.
  intros Hk Hk'. rewrite leb_ord by (apply of_Z_not_nan; assumption).
  rewrite (proj2 (of_Z_value k Hk)), (proj2 (of_Z_value k' Hk')).
  assert (P : 0 < 2 ^ 1074) by reflexivity.
  destruct (Z.leb_spec k k'), (Z.leb_spec (k * 2 ^ 1074) (k' * 2 ^ 1074));
    try reflexivity; nia.
Qed.

Lemma of_Z_integer (k : Z) : 0 <= k < 2 ^ 53 -> Number_isInteger (of_Z k) = true.
Proof.
  intros Hk. destruct (of_Z_value k Hk) as [F V].
  unfold nonneg_finite, ordf, Number_isInteger in *.
  pose proof (Prim2SF_valid (of_Z k)) as Val.
  destruct (Prim2SF (of_Z k)) as [[|]|[|]| |[|] m e]; try contradiction; try reflexivity.
  cbn [valid_binary SpecFloat.valid_binary] in Val.
  destruct (bounded_inv m e Val) as (Be & _).
  cbn [ord cond_Zopp] in V.
  destruct (Z.leb_spec 0 e) as [P|N]; [reflexivity|]. cbn [orb].
  apply Z.eqb_eq.
  assert (E : Zpos m = k * 2 ^ (- e)).
  { assert (S : 2 ^ 1074 = 2 ^ (e + 1074) * 2 ^ (- e))
      by (rewrite <- Z.pow_add_r by lia; f_equal; lia).
    rewrite S in V.
    assert (0 < 2 ^ (e + 1074)) by (apply Z.pow_pos_nonneg; lia).
    nia. }
  rewrite E. apply Z.mod_mul. apply Z.pow_nonzero; lia.
Qed.

End IntegerNumbers.

(** ** CompressionMapper: texture and Draco parameters *)

Section MapperParameters.
Import CompressionMapper.
Local Open Scope float_scope.

Lemma steps_at_0 (C : Z) : steps C 0 = 0%Z.
Proof. unfold steps. rewrite Z.mul_0_r, round64_0. reflexivity. Qed.

Lemma steps_at_1 (C : Z) : (0 < C < 2 ^ 52)%Z -> steps C (2 ^ 1074) = C.
Proof.
  intros HC. unfold steps. rewrite round64_exact by lia.
  assert (E : (2 ^ 1075 = 2 * 2 ^ 1074)%Z) by reflexivity.
  assert (P : (0 < 2 ^ 1074)%Z) by reflexivity.
  rewrite E. set (u := (2 ^ 1074)%Z) in *.
  replace (2 * (C * u) + u)%Z with (u + C * (2 * u))%Z by ring.
  rewrite Z.div_add by lia. rewrite Z.div_small by lia. lia.
Qed.

Lemma unit_value_low (q : number) :
  isNaN q = false -> (q <=? 0) = true -> unit_value q = 0%Z.
Proof.
  intros Nq L. rewrite (leb_ord q 0 Nq eq_refl), ordf_0 in L. apply Z.leb_le in L.
  unfold unit_value. assert (0 < 2 ^ 1074)%Z by reflexivity. lia.
Qed.

Lemma unit_value_high (q : number) :
  isNaN q = false -> (1 <=? q) = true -> unit_value q = (2 ^ 1074)%Z.
Proof.
  intros Nq L. rewrite (leb_ord 1 q eq_refl Nq), ordf_1 in L. apply Z.leb_le in L.
  unfold unit_value. assert (0 < 2 ^ 1074)%Z by reflexivity. lia.
Qed.

Lemma round_times_10 (x : number) :
  isNaN x = false -> Math_round (clamp01 x * 10) = of_Z (steps 10 (unit_value x)).
Proof.
  intros Nx.
  apply (round_scaled_clamp x 10 10%Z 5629499534213120 (-49)%Z);
    [reflexivity | apply Z.leb_le; reflexivity | apply Z.leb_le; reflexivity
    | reflexivity | split; reflexivity | exact Nx].
Qed.

(** The UASTC level, from the quality that is not NaN. *)
Lemma uastc_level_explicit (q : number) :
  isNaN q = false ->
  tc_quality (toUASTCParams (Some q) None)
  = of_Z (steps 4 (round64 (2 ^ 1074 - unit_value q))).
Proof.
  intros Nq. unfold toUASTCParams, param. cbn [tc_quality].
  destruct (clamp01_value q Nq) as [Fc Vc].
  assert (Pos : (0 < 2 ^ 1074)%Z) by reflexivity.
  destruct (one_minus (clamp01 q) Fc ltac:(lia)) as [F1 V1].
  pose proof (complement_bounds (ordf (clamp01 q)) ltac:(lia)) as B1.
  rewrite <- V1 in B1.
  destruct (mul_const (1 - clamp01 q) 4 4%Z 4503599627370496 (-50)%Z) as [F4 V4];
    [reflexivity | apply Z.leb_le; reflexivity | apply Z.leb_le; reflexivity
    | reflexivity | split; reflexivity | exact F1 | lia |].
  pose proof (scaled_bounds 4 (ordf (1 - clamp01 q)) ltac:(split; reflexivity) B1) as B4.
  rewrite (Math_round_value _ 4%Z F4 ltac:(lia) ltac:(lia)), V4, V1, Vc.
  unfold steps, unit_value. reflexivity.
Qed.

(** X1: for qualities [q <= q'] that are not NaN, the ETC1S quality of
    [toETC1SParams] is an integer from 0 to 255 that does not decrease
    from [q] to [q']; it is 0 for every [q <= 0] and 255 for every
    [q >= 1]; the mode is 'etc1s' and the pattern is passed through. *)
Theorem X1_etc1s_quality_scale (q q' : number) (pattern : option string) :
  isNaN q = false -> isNaN q' = false -> (q <=? q') = true ->
  let lo := toETC1SParams (Some q) pattern in
  let hi := toETC1SParams (Some q') pattern in
  between 0 255 (tc_quality lo) && Number_isInteger (tc_quality lo) = true
  /\ (tc_quality lo <=? tc_quality hi) = true
  /\ ((q <=? 0) = true -> tc_quality lo = 0)
  /\ ((1 <=? q) = true -> tc_quality lo = 255)
  /\ tc_mode lo = etc1s /\ tc_pattern lo = pattern.
Proof.
  intros Nq Nq' Le lo hi.
  assert (S : (0 < 255 < 2 ^ 52)%Z) by (split; reflexivity).
  assert (El : tc_quality lo = of_Z (steps 255 (unit_value q)))
    by apply (etc1s_quality_value q Nq).
  assert (Eh : tc_quality hi = of_Z (steps 255 (unit_value q')))
    by apply (etc1s_quality_value q' Nq').
  pose proof (steps_bounds 255 _ S (unit_value_bounds q)) as Bl.
  pose proof (steps_bounds 255 _ S (unit_value_bounds q')) as Bh.
  pose proof (unit_value_bounds q) as Uq.
  pose proof (unit_value_mono q q' Nq Nq' Le) as M.
  pose proof (steps_mono 255 _ _ ltac:(lia) (conj (proj1 Uq) M)) as SM.
  rewrite El, Eh. repeat split.
  - unfold between. change 0 with (of_Z 0). change 255 with (of_Z 255).
    rewrite !of_Z_leb, of_Z_integer by lia.
    apply andb_true_iff; split; [apply andb_true_iff; split|reflexivity];
      apply Z.leb_le; lia.
  - rewrite of_Z_leb by lia. apply Z.leb_le. exact SM.
  - intros L. rewrite (unit_value_low q Nq L), steps_at_0. reflexivity.
  - intros L. rewrite (unit_value_high q Nq L), (steps_at_1 255 S). reflexivity.
Qed.

(** X2: for qualities [q <= q'] that are not NaN, the UASTC level of
    [toUASTCParams] is an integer from 0 to 4 on an inverted scale: it
    does not increase from [q] to [q'], it is 4 for every [q <= 0] and 0
    for every [q >= 1]; the mode is 'uastc' and the pattern is passed
    through. *)
Theorem X2_uastc_level_inverted (q q' : number) (pattern : option string) :
  isNaN q = false -> isNaN q' = false -> (q <=? q') = true ->
  let lo := toUASTCParams (Some q) pattern in
  let hi := toUASTCParams (Some q') pattern in
  between 0 4 (tc_quality lo) && Number_isInteger (tc_quality lo) = true
  /\ (tc_quality hi <=? tc_quality lo) = true
  /\ ((q <=? 0) = true -> tc_quality lo = 4)
  /\ ((1 <=? q) = true -> tc_quality lo = 0)
  /\ tc_mode lo = uastc /\ tc_pattern lo = pattern.
Proof.
  intros Nq Nq' Le lo hi.
  assert (S : (0 < 4 < 2 ^ 52)%Z) by (split; reflexivity).
  assert (El : tc_quality lo = of_Z (steps 4 (round64 (2 ^ 1074 - unit_value q))))
    by apply (uastc_level_explicit q Nq).
  assert (Eh : tc_quality hi = of_Z (steps 4 (round64 (2 ^ 1074 - unit_value q'))))
    by apply (uastc_level_explicit q' Nq').
  pose proof (unit_value_bounds q) as Uq. pose proof (unit_value_bounds q') as Uq'.
  pose proof (unit_value_mono q q' Nq Nq' Le) as M.
  pose proof (complement_bounds _ Uq) as Cq. pose proof (complement_bounds _ Uq') as Cq'.
  pose proof (steps_bounds 4 _ S Cq) as Bl. pose proof (steps_bounds 4 _ S Cq') as Bh.
  assert (CM : (round64 (2 ^ 1074 - unit_value q') <= round64 (2 ^ 1074 - unit_value q))%Z)
    by (apply round64_mono; lia).
  pose proof (steps_mono 4 _ _ ltac:(lia) (conj (proj1 Cq') CM)) as SM.
  rewrite El, Eh. repeat split.
  - unfold between. change 0 with (of_Z 0). change 4 with (of_Z 4).
    rewrite !of_Z_leb, of_Z_integer by lia.
    apply andb_true_iff; split; [apply andb_true_iff; split|reflexivity];
      apply Z.leb_le; lia.
  - rewrite of_Z_leb by lia. apply Z.leb_le. exact SM.
  - intros L. rewrite (unit_value_low q Nq L), Z.sub_0_r.
    replace (2 ^ 1074)%Z with (1 * 2 ^ 1074)%Z at 1 by apply Z.mul_1_l.
    rewrite (round64_exact 1 1074) by lia. rewrite Z.mul_1_l, (steps_at_1 4 S).
    reflexivity.
  - intros L. rewrite (unit_value_high q Nq L), Z.sub_diag, round64_0, steps_at_0.
    reflexivity.
Qed.

End MapperParameters.

(** X1 at the qualities 0.25 and 0.75. *)
Lemma X1_witness :
  (tc_quality (CompressionMapper.toETC1SParams (Some 0.25%float) None)
   <=? tc_quality (CompressionMapper.toETC1SParams (Some 0.75%float) None))%float = true.
Proof.
  exact (proj1 (proj2 (X1_etc1s_quality_scale 0.25%float 0.75%float None
                         eq_refl eq_refl eq_refl))).
Defined.

(** X2 at the qualities 0.25 and 0.75. *)
Lemma X2_witness :
  (tc_quality (CompressionMapper.toUASTCParams (Some 0.75%float) None)
   <=? tc_quality (CompressionMapper.toUASTCParams (Some 0.25%float) None))%float = true.
Proof.
  exact (proj1 (proj2 (X2_uastc_level_inverted 0.25%float 0.75%float None
                         eq_refl eq_refl eq_refl))).
Defined.

Section MapperThresholds.
Import CompressionMapper.
Local Open Scope float_scope.

(** A threshold inside [0, 1) sees the clamped number as it sees the
    number itself. *)
Lemma threshold_clamp (t x : number) :
  (0 <=? t) = true -> (t <? 1) = true -> (t <? clamp01 x) = (t <? x).
Proof.
  intros L U.
  destruct (leb_true_not_nan _ _ L) as [_ Nt].
  destruct (isNaN x) eqn:Nx.
  - apply isNaN_true in Nx. subst x. reflexivity.
  - destruct (clamp01_value x Nx) as [Fc Vc].
    rewrite (ltb_ord t (clamp01 x) Nt (nonneg_finite_not_nan _ Fc)), (ltb_ord t x Nt Nx), Vc.
    rewrite (leb_ord 0 t eq_refl Nt), ordf_0 in L. apply Z.leb_le in L.
    rewrite (ltb_ord t 1 Nt eq_refl), ordf_1 in U. apply Z.ltb_lt in U.
    destruct (Z.ltb_spec (ordf t) (ordf x)), (Z.ltb_spec (ordf t) (Z.max 0 (Z.min (2 ^ 1074) (ordf x))));
      try reflexivity; lia.
Qed.

(** X3: [toDracoParams] for a quality and a speed that are not NaN: the
    encode and decode speeds are integers from 0 to 10, the first does not
    decrease with the speed and the second with the quality; the method is
    'edgebreaker' exactly when the quality itself exceeds 0.5; and the
    quantization bits are those [toQuantizationBits] gives for the same
    precision, whatever the precision. *)
Theorem X3_draco_params (q s q' s' : number) (p : option number) :
  isNaN q = false -> isNaN s = false -> isNaN q' = false -> isNaN s' = false ->
  (q <=? q') = true -> (s <=? s') = true ->
  let d := toDracoParams (Some q) (Some s) p in
  let d' := toDracoParams (Some q') (Some s') p in
  let bits := toQuantizationBits p in
  between 0 10 (encodeSpeed d) && Number_isInteger (encodeSpeed d) = true
  /\ between 0 10 (decodeSpeed d) && Number_isInteger (decodeSpeed d) = true
  /\ (encodeSpeed d <=? encodeSpeed d') = true
  /\ (decodeSpeed d <=? decodeSpeed d') = true
  /\ method d = (if 0.5 <? q then edgebreaker else sequential)
  /\ POSITION (quantizationBits d) = quantizePosition bits
  /\ NORMAL (quantizationBits d) = quantizeNormal bits
  /\ TEXCOORD_0 (quantizationBits d) = quantizeTexcoord bits.
Proof.
  intros Nq Ns Nq' Ns' Lq Ls d d' bits.
  assert (S : (0 < 10 < 2 ^ 52)%Z) by (split; reflexivity).
  assert (Ee : encodeSpeed d = of_Z (steps 10 (unit_value s))) by apply (round_times_10 s Ns).
  assert (Ed : decodeSpeed d = of_Z (steps 10 (unit_value q))) by apply (round_times_10 q Nq).
  assert (Ee' : encodeSpeed d' = of_Z (steps 10 (unit_value s')))
    by apply (round_times_10 s' Ns').
  assert (Ed' : decodeSpeed d' = of_Z (steps 10 (unit_value q')))
    by apply (round_times_10 q' Nq').
  pose proof (steps_bounds 10 _ S (unit_value_bounds q)) as Bq.
  pose proof (steps_bounds 10 _ S (unit_value_bounds s)) as Bs.
  pose proof (steps_bounds 10 _ S (unit_value_bounds q')) as Bq'.
  pose proof (steps_bounds 10 _ S (unit_value_bounds s')) as Bs'.
  pose proof (steps_mono 10 _ _ ltac:(lia)
                (conj (proj1 (unit_value_bounds q)) (unit_value_mono q q' Nq Nq' Lq))) as Mq.
  pose proof (steps_mono 10 _ _ ltac:(lia)
                (conj (proj1 (unit_value_bounds s)) (unit_value_mono s s' Ns Ns' Ls))) as Ms.
  rewrite Ee, Ed, Ee', Ed'.
  assert (R : forall k, (0 <= k <= 10)%Z ->
                between 0 10 (of_Z k) && Number_isInteger (of_Z k) = true).
  { intros k Hk. unfold between. change 0 with (of_Z 0). change 10 with (of_Z 10).
    rewrite !of_Z_leb, of_Z_integer by lia.
    apply andb_true_iff; split; [apply andb_true_iff; split|reflexivity];
      apply Z.leb_le; lia. }
  split; [apply R; lia|]. split; [apply R; lia|].
  split; [rewrite of_Z_leb by lia; apply Z.leb_le; exact Ms|].
  split; [rewrite of_Z_leb by lia; apply Z.leb_le; exact Mq|].
  split; [|repeat split].
  unfold d, toDracoParams, param. cbn [method].
  rewrite (threshold_clamp 0.5 q eq_refl eq_refl). reflexivity.
Qed.

End MapperThresholds.

(** X3 at the qualities 0.5 and 0.75 and the speed 0.5. *)
Lemma X3_witness :
  method (CompressionMapper.toDracoParams (Some 0.5%float) (Some 0.5%float) None) = sequential
  /\ method (CompressionMapper.toDracoParams (Some 0.75%float) (Some 0.5%float) None)
     = edgebreaker.
Proof.
  split.
  - exact (proj1 (proj2 (proj2 (proj2 (proj2
             (X3_draco_params 0.5%float 0.5%float 0.75%float 0.5%float None
                eq_refl eq_refl eq_refl eq_refl eq_refl eq_refl)))))).
  - exact (proj1 (proj2 (proj2 (proj2 (proj2
             (X3_draco_params 0.75%float 0.5%float 0.75%float 0.5%float None
                eq_refl eq_refl eq_refl eq_refl eq_refl eq_refl)))))).
Defined.

(** ** CompressionMapper: the detection of the compression mode *)

Section Detection.

Lemma returns_at_match_exists {P} (test : P -> string -> bool) (patterns : list P)
  (name : string) :
  returns_at_match test patterns name = existsb (fun p => test p name) patterns.
Proof.
  induction patterns as [|p r IH]; [reflexivity|].
  cbn [returns_at_match existsb]. rewrite IH. destruct (test p name); reflexivity.
Qed.

(** X4: in both detection functions the UASTC patterns alone decide, for
    patterns that keep no state (neither the flag [g] nor [y]: with one of
    them the answer of a pattern depends on the calls made before, and
    nothing is stated).  Given ETC1S and UASTC patterns that are all
    [stateless], the manual detection returns 'uastc' exactly when some UASTC
    pattern matches the name, and the ETC1S patterns it is given never change
    its answer; with no UASTC pattern (or none given) it returns 'etc1s'.
    The automatic detection, whose patterns are literals without flag [g] or
    [y], returns 'uastc' exactly when the name contains one of four slot
    names or, letters compared without case, one of eight words, and 'etc1s'
    otherwise. *)
Theorem X4_uastc_patterns_decide (test : RegExp -> string -> bool) (name : string)
  (etc1sPatterns etc1sPatterns' uastcPatterns : option (list RegExp))
  (etc1s_stateless : all_stateless etc1sPatterns = true)
  (etc1s_stateless' : all_stateless etc1sPatterns' = true)
  (uastc_stateless : all_stateless uastcPatterns = true) :
  detectManualTextureCompressionMode test name etc1sPatterns uastcPatterns
  = detectManualTextureCompressionMode test name etc1sPatterns' uastcPatterns
  /\ (detectManualTextureCompressionMode test name etc1sPatterns uastcPatterns = uastc
      <-> exists l p, uastcPatterns = Some l /\ In p l /\ test p name = true)
  /\ detectManualTextureCompressionMode test name etc1sPatterns None = etc1s
  /\ detectManualTextureCompressionMode test name etc1sPatterns (Some []) = etc1s
  /\ detectTextureCompressionMode name
     = (if test_any_word
             ["normalTexture"; "metallicRoughnessTexture"; "emissiveTexture";
              "occlusionTexture"] name
           || test_any_word
                ["detail"; "bump"; "height"; "hero"; "main"; "primary"; "normal";
                 "specular"] (toLowerCase name)
        then uastc else etc1s).
Proof.
  split; [|split; [|split; [|split]]].
  - unfold detectManualTextureCompressionMode.
    destruct (returns_at_match test _ name); [reflexivity|].
    destruct (returns_at_match test _ name), (returns_at_match test _ name); reflexivity.
  - unfold detectManualTextureCompressionMode. rewrite returns_at_match_exists. split.
    + destruct uastcPatterns as [l|].
      * destruct (existsb (fun p => test p name) l) eqn:E.
        -- intros _. apply existsb_exists in E. destruct E as (p & I & T).
           exists l, p. repeat split; assumption.
        -- destruct (returns_at_match test _ name); discriminate.
      * cbn. destruct (returns_at_match test _ name); discriminate.
    + intros (l & p & -> & I & T).
      assert (E : existsb (fun p => test p name) l = true)
        by (apply existsb_exists; exists p; split; assumption).
      rewrite E. reflexivity.
  - unfold detectManualTextureCompressionMode. cbn [returns_at_match].
    destruct (returns_at_match test _ name); reflexivity.
  - unfold detectManualTextureCompressionMode. cbn [returns_at_match].
    destruct (returns_at_match test _ name); reflexivity.
  - unfold detectTextureCompressionMode, getAutoTexturePatterns, test_any_word, test_words.
    cbn [returns_at_match auto_uastc auto_etc1s words ignoreCase existsb].
    change (toLowerCase "detail") with "detail"%string.
    change (toLowerCase "bump") with "bump"%string.
    change (toLowerCase "height") with "height"%string.
    change (toLowerCase "hero") with "hero"%string.
    change (toLowerCase "main") with "main"%string.
    change (toLowerCase "primary") with "primary"%string.
    change (toLowerCase "normal") with "normal"%string.
    change (toLowerCase "specular") with "specular"%string.
    repeat match goal with
           | |- context [includes ?a ?b] =>
               destruct (includes a b); cbn [orb]; try reflexivity
           end.
Qed.

(** The patterns [/normal/i] and [/color/i] on the name of a normal map. *)
Lemma X4_witness :
  let test := fun r s => includes (toLowerCase s) (source r) in
  let normal := {| source := "normal"; flags := "i" |} in
  let color := {| source := "color"; flags := "i" |} in
  all_stateless (Some [color]) = true
  /\ all_stateless (Some [normal]) = true
  /\ detectManualTextureCompressionMode test "Wood_Normal.png" (Some [color])
       (Some [normal]) = uastc
  /\ detectManualTextureCompressionMode test "Wood_Normal.png" None (Some [normal])
     = uastc.
Proof.
  intros test normal color.
  pose proof (X4_uastc_patterns_decide test "Wood_Normal.png" (Some [color]) None
                (Some [normal]) eq_refl eq_refl eq_refl) as (Same & Decides & _).
  split; [reflexivity|]. split; [reflexivity|].
  assert (U : detectManualTextureCompressionMode test "Wood_Normal.png" (Some [color])
                (Some [normal]) = uastc).
  { apply Decides. exists [normal], normal.
    split; [reflexivity|]. split; [left; reflexivity|]. vm_compute. reflexivity. }
  split; [exact U|]. rewrite <- Same. exact U.
Defined.

End Detection.

(** ** The hooks [resolveId] and [load] *)

Section VirtualModules.
Import Plugin.

Lemma startsWith_refl (s : string) : startsWith s s = true.
Proof.
  induction s as [|c s IH]; [reflexivity|].
  change (startsWith (String c s) (String c s)) with (Ascii.eqb c c && startsWith s s).
  rewrite Ascii.eqb_refl. exact IH.
Qed.

Lemma endsWith_refl (s : string) : endsWith s s = true.
Proof. unfold endsWith. apply startsWith_refl. Qed.

Lemma startsWith_concat (p s : string) : startsWith (concat p s) p = true.
Proof.
  induction p as [|c p IH]; [destruct s; reflexivity|].
  change (startsWith (concat (String c p) s) (String c p))
    with (Ascii.eqb c c && startsWith (concat p s) p).
  rewrite Ascii.eqb_refl. exact IH.
Qed.

Lemma blocked_iff (deps : gset string) (n : string) :
  bool_decide (n ∈ deps) || existsb (fun dep => endsWith n dep) (elements deps) = true
  <-> exists dep, dep ∈ deps /\ endsWith n dep = true.
Proof.
  split.
  - intros B. apply orb_true_iff in B. destruct B as [B|B].
    + apply bool_decide_eq_true in B. exists n. split; [exact B | apply endsWith_refl].
    + apply existsb_exists in B. destruct B as (dep & I & E).
      exists dep. split; [|exact E].
      apply elem_of_elements. apply list_elem_of_In. exact I.
  - intros (dep & I & E). apply orb_true_iff. right.
    apply existsb_exists. exists dep. split; [|exact E].
    apply list_elem_of_In. apply elem_of_elements. exact I.
Qed.

(** X5: [resolveId] answers with a virtual module exactly for the ids
    that, once normalized, end with a tracked dependency path (the test
    for membership adds nothing to the test for a suffix), and with [null]
    for every other id, in particular for every id while nothing is
    tracked; [load] answers every id that [resolveId] produced with the
    placeholder module and every id without the virtual prefix with
    [null]; and neither prints unless [verbose] is set. *)
Theorem X5_virtual_dependency_modules (posix_normalize : string -> string)
  (s : State) (id : string) :
  let n := posix_normalize id in
  ((exists dep, dep ∈ dependencyFiles s /\ endsWith n dep = true) ->
   fst (resolveId posix_normalize s id) = Some (concat virtual_prefix n))
  /\ ((forall dep, dep ∈ dependencyFiles s -> endsWith n dep = false) ->
      resolveId posix_normalize s id = (None, []))
  /\ (dependencyFiles s = ∅ -> resolveId posix_normalize s id = (None, []))
  /\ (forall v, fst (resolveId posix_normalize s id) = Some v ->
        fst (load s v) = Some "// GLTF dependency file - handled by gltf-transform"%string)
  /\ (startsWith id virtual_prefix = false -> load s id = (None, []))
  /\ (Processed.verbose (processedOptions s) = false ->
      snd (resolveId posix_normalize s id) = [] /\ snd (load s id) = []).
Proof.
  cbv zeta. unfold resolveId, load.
  pose proof (blocked_iff (dependencyFiles s) (posix_normalize id)) as B.
  destruct (bool_decide _ || existsb _ _) eqn:E.
  - assert (Ex : exists dep, dep ∈ dependencyFiles s
                             /\ endsWith (posix_normalize id) dep = true)
      by (apply B; reflexivity).
    repeat split.
    + intros N. destruct Ex as (dep & I & Ed). rewrite (N dep I) in Ed. discriminate Ed.
    + intros Em. destruct Ex as (dep & I & _). rewrite Em in I.
      exfalso. exact (not_elem_of_empty dep I).
    + intros v [= <-]. cbn [fst]. rewrite startsWith_concat. reflexivity.
    + intros ->. reflexivity.
    + cbn [snd]. rewrite H. reflexivity.
    + destruct (startsWith id virtual_prefix); cbn [snd]; [rewrite H|]; reflexivity.
  - repeat split.
    + intros Ex. apply B in Ex. discriminate Ex.
    + intros v V. discriminate V.
    + intros ->. reflexivity.
    + destruct (startsWith id virtual_prefix); cbn [snd]; [rewrite H|]; reflexivity.
Qed.

End VirtualModules.

(** ** The hook [writeBundle]: the cleanup of original dependency files *)

Section CleanupProperties.
Import GLTFProcessor Plugin.
Context `{Library} `{Host}.

(** The loop of [cleanupOriginalDependencies] over a list of paths: it
    returns, keeps the closure and the bundle, appends nothing to the
    console of the world (the lines it prints are the list it returns),
    and removes the files the paths resolve to. *)
Lemma cleanup_loop (outputDir : string) (v : bool) (l : list string)
  (printed : list hook_message) (b : Build) :
  exists printed' b',
    Eff.for_of l
      (fun relativeFilePath printed =>
         let filePath := path_resolve outputDir relativeFilePath in
         Eff.try_catch
           (_ ← Plugin.in_world (fs_unlink filePath);
            mret (if v then printed ++ [Deleted relativeFilePath] else printed))
           (fun _ =>
              mret (if v then printed ++ [Could_not_delete relativeFilePath] else printed)))
      printed b = (Ok printed', b')
    /\ closure b' = closure b /\ bundle b' = bundle b
    /\ console (world b') = console (world b)
    /\ (v = false -> printed' = printed)
    /\ (forall p, files (world b') !! p
                  = if bool_decide (p ∈ map (path_resolve outputDir) l)
                    then None else files (world b) !! p).
Proof.
  revert printed b. induction l as [|rel l IH]; intros printed b.
  - exists printed, b. repeat split; try reflexivity.
  - cbn [Eff.for_of]. unfold Eff.bind at 1. cbv zeta.
    unfold Eff.try_catch at 1. rewrite run_bind.
    unfold Plugin.in_world at 1, Eff.zoom at 1, fs_unlink at 1.
    destruct b as [c bu [co fi]]. cbn [world files console closure Plugin.bundle].
    destruct (fi !! path_resolve outputDir rel) as [data|] eqn:F.
    + cbn [mret M_ret Eff.ret].
      destruct (IH (if v then printed ++ [Deleted rel] else printed)
                   {| closure := c; bundle := bu;
                      world := {| console := co;
                                  files := delete (path_resolve outputDir rel) fi |} |})
        as (printed' & b' & E & Ec & Eb & Eo & Ep & Ef).
      exists printed', b'. cbn [world files console closure Plugin.bundle] in *.
      split; [exact E|]. repeat split; try assumption.
      * intros ->. apply Ep. reflexivity.
      * intros p. rewrite Ef. cbn [map].
        destruct (decide (p = path_resolve outputDir rel)) as [->|N].
        -- rewrite lookup_delete_eq.
           rewrite (bool_decide_eq_true_2 (_ ∈ _ :: _)) by apply list_elem_of_here.
           destruct (bool_decide _); reflexivity.
        -- rewrite lookup_delete_ne by congruence.
           destruct (bool_decide (p ∈ map (path_resolve outputDir) l)) eqn:D.
           ++ apply bool_decide_eq_true in D.
              rewrite bool_decide_eq_true_2 by (apply list_elem_of_further; exact D).
              reflexivity.
           ++ apply bool_decide_eq_false in D.
              rewrite bool_decide_eq_false_2; [reflexivity|].
              intros I. apply elem_of_cons in I. destruct I as [I|I]; [congruence|].
              exact (D I).
    + cbn [mret M_ret Eff.ret].
      destruct (IH (if v then printed ++ [Could_not_delete rel] else printed)
                   {| closure := c; bundle := bu;
                      world := {| console := co; files := fi |} |})
        as (printed' & b' & E & Ec & Eb & Eo & Ep & Ef).
      exists printed', b'. cbn [world files console closure Plugin.bundle] in *.
      split; [exact E|]. repeat split; try assumption.
      * intros ->. apply Ep. reflexivity.
      * intros p. rewrite Ef. cbn [map].
        destruct (decide (p = path_resolve outputDir rel)) as [->|N].
        -- rewrite (bool_decide_eq_true_2 (_ ∈ _ :: _)) by apply list_elem_of_here.
           rewrite F. destruct (bool_decide _); reflexivity.
        -- destruct (bool_decide (p ∈ map (path_resolve outputDir) l)) eqn:D.
           ++ apply bool_decide_eq_true in D.
              rewrite bool_decide_eq_true_2 by (apply list_elem_of_further; exact D).
              reflexivity.
           ++ apply bool_decide_eq_false in D.
              rewrite bool_decide_eq_false_2; [reflexivity|].
              intros I. apply elem_of_cons in I. destruct I as [I|I]; [congruence|].
              exact (D I).
Qed.

(** X6: the hook [writeBundle] never throws once the configuration is
    resolved.  Under the command 'serve' it does nothing.  Otherwise it
    removes, below the output directory ([options.dir], or "dist" when
    that is missing or empty), every file that a path of
    [originalFilesToCleanup] resolves to, and touches no other file; it
    creates and changes no file, keeps the closure (the set is not
    emptied) and the bundle, and prints nothing unless [verbose] is
    set. *)
Theorem X6_writeBundle_cleanup (dir : option string) (b : Build) (c : Config) :
  config (closure b) = Some c ->
  let outputDir :=
    match dir with
    | Some d => if String.eqb d EmptyString then "dist"%string else d
    | None => "dist"%string
    end in
  exists printed b',
    writeBundle dir b = (Ok printed, b')
    /\ closure b' = closure b /\ bundle b' = bundle b
    /\ (String.eqb (command c) "serve" = true -> b' = b /\ printed = [])
    /\ (String.eqb (command c) "serve" = false ->
        (forall rel, rel ∈ originalFilesToCleanup (closure b) ->
                     files (world b') !! path_resolve outputDir rel = None)
        /\ (forall p, (forall rel, rel ∈ originalFilesToCleanup (closure b) ->
                                   p <> path_resolve outputDir rel) ->
                      files (world b') !! p = files (world b) !! p))
    /\ (forall p, is_Some (files (world b') !! p) ->
                  files (world b') !! p = files (world b) !! p)
    /\ (Processed.verbose (processedOptions (closure b)) = false -> printed = []).
Proof.
  intros C outputDir. unfold writeBundle. rewrite run_bind.
  unfold is_serve. rewrite run_bind. unfold get_closure at 1. rewrite run_bind.
  unfold Eff.get_state at 1. cbn [mret M_ret Eff.ret]. rewrite C. cbn [mret M_ret Eff.ret].
  destruct (String.eqb (command c) "serve") eqn:Sv.
  - exists [], b. repeat split; try reflexivity; try discriminate.
  - fold outputDir. unfold cleanupOriginalDependencies. rewrite run_bind.
    unfold get_closure at 1. rewrite run_bind.
    unfold Eff.get_state at 1. cbn [mret M_ret Eff.ret].
    destruct (Nat.eqb (size (originalFilesToCleanup (closure b))) 0) eqn:Z.
    + exists [], b. apply Nat.eqb_eq in Z. apply size_empty_inv in Z.
      repeat split; try reflexivity; try discriminate.
      intros rel I. exfalso. apply Z in I. exact (not_elem_of_empty rel I).
    + destruct (cleanup_loop outputDir (Processed.verbose (processedOptions (closure b)))
                  (elements (originalFilesToCleanup (closure b)))
                  (if Processed.verbose (processedOptions (closure b))
                   then [Cleaning_up (size (originalFilesToCleanup (closure b)))] else [])
                  b) as (printed' & b' & E & Ec & Eb & Eo & Ep & Ef).
      exists printed', b'. split; [exact E|].
      assert (T : forall p, p ∈ map (path_resolve outputDir)
                                   (elements (originalFilesToCleanup (closure b)))
                            <-> exists rel, rel ∈ originalFilesToCleanup (closure b)
                                            /\ p = path_resolve outputDir rel).
      { intros p. rewrite list_elem_of_In, in_map_iff. split.
        - intros (rel & <- & I). exists rel. split; [|reflexivity].
          apply elem_of_elements, list_elem_of_In, I.
        - intros (rel & I & ->). exists rel. split; [reflexivity|].
          apply list_elem_of_In, elem_of_elements, I. }
      repeat split; try assumption; try discriminate.
      * intros rel I. rewrite Ef. rewrite bool_decide_eq_true_2; [reflexivity|].
        apply T. exists rel. split; [exact I | reflexivity].
      * intros p N. rewrite Ef. rewrite bool_decide_eq_false_2; [reflexivity|].
        intros I. apply T in I. destruct I as (rel & I & ->). exact (N rel I eq_refl).
      * intros p. rewrite Ef. destruct (bool_decide _); [|reflexivity].
        intros [x X]. discriminate X.
      * intros V. rewrite V in Ep. exact (Ep eq_refl).
Qed.

End CleanupProperties.

(** X6 at a build with one scheduled texture: the copy in "dist" is
    removed and the model stays. *)
Lemma X6_witness :
  exists printed b',
    @writeBundle recording_library None build_to_clean = (Ok printed, b')
    /\ Plugin.closure b' = Plugin.closure build_to_clean
    /\ Plugin.bundle b' = Plugin.bundle build_to_clean
    /\ (String.eqb (Plugin.command build_config) "serve" = true ->
        b' = build_to_clean /\ printed = [])
    /\ (String.eqb (Plugin.command build_config) "serve" = false ->
        (forall rel, rel ∈ Plugin.originalFilesToCleanup (Plugin.closure build_to_clean) ->
                     files (Plugin.world b')
                       !! @GLTFProcessor.path_resolve recording_library "dist" rel = None)
        /\ (forall p, (forall rel,
                         rel ∈ Plugin.originalFilesToCleanup (Plugin.closure build_to_clean) ->
                         p <> @GLTFProcessor.path_resolve recording_library "dist" rel) ->
                      files (Plugin.world b') !! p = files (Plugin.world build_to_clean) !! p))
    /\ (forall p, is_Some (files (Plugin.world b') !! p) ->
                  files (Plugin.world b') !! p = files (Plugin.world build_to_clean) !! p)
    /\ (Processed.verbose (Plugin.processedOptions (Plugin.closure build_to_clean)) = false ->
        printed = []).
Proof.
  apply (@X6_writeBundle_cleanup recording_library None build_to_clean
           build_config).
  reflexivity.
Defined.

(** ** PresetManager: the layers of [processOptions] *)

Section OptionLayers.
Import PresetManager.

Lemma preset_exclude (level : option string) :
  Options.exclude (match level with
                   | Some l => if truthy_string l then getPreset l else Options.empty
                   | None => Options.empty
                   end) = None.
Proof.
  destruct level as [l|]; [|reflexivity].
  destruct (truthy_string l); [|reflexivity].
  unfold getPreset. repeat (destruct (String.eqb l _); [reflexivity|]). reflexivity.
Qed.

(** The fields that [processOptions] returns are those of the merged
    object, and its [exclude] is the caller's. *)
Lemma processOptions_fields (o : GLTFOptimizerOptions) :
  let preset := match Options.level o with
                | Some l => if truthy_string l then getPreset l else Options.empty
                | None => Options.empty
                end in
  let merged := merge_options (merge_options (merge_options Options.empty baseDefaults)
                                 preset) o in
  let r := processOptions (Some o) in
  Options.level r = Options.level merged
  /\ Options.include r = Options.include merged
  /\ Options.exclude r = Options.exclude o
  /\ Options.verbose r = Options.verbose merged
  /\ Options.geometry r = Options.geometry merged
  /\ Options.textures r = Options.textures merged.
Proof.
  cbv zeta. unfold processOptions. rewrite preset_exclude.
  unfold deepMerge. cbn [fold_left].
  destruct (Options.exclude o) as [ex|] eqn:E.
  - repeat split. unfold merge_options at 1. cbn [Options.exclude assign].
    rewrite E. reflexivity.
  - repeat split.
Qed.

(** X7: every field that the caller defines is in the resolved options
    as the caller gave it, whatever the level and whatever the value
    ([processOptions] checks no value); the resolved [exclude] is the
    caller's, also when it is undefined. *)
Theorem X7_user_fields_win (o : GLTFOptimizerOptions) :
  let r := processOptions (Some o) in
  (forall v, Options.level o = Some v -> Options.level r = Some v)
  /\ (forall v, Options.include o = Some v -> Options.include r = Some v)
  /\ Options.exclude r = Options.exclude o
  /\ (forall v, Options.verbose o = Some v -> Options.verbose r = Some v)
  /\ (forall g, Options.geometry o = Some g ->
        exists g', Options.geometry r = Some g'
          /\ (forall v, Geometry.compress g = Some v -> Geometry.compress g' = Some v)
          /\ (forall v, Geometry.quality g = Some v -> Geometry.quality g' = Some v)
          /\ (forall v, Geometry.speed g = Some v -> Geometry.speed g' = Some v)
          /\ (forall v, Geometry.precision g = Some v -> Geometry.precision g' = Some v))
  /\ (forall x, Options.textures o = Some x ->
        exists x', Options.textures r = Some x'
          /\ (forall v, Textures.mode x = Some v -> Textures.mode x' = Some v)
          /\ (forall v, Textures.quality x = Some v -> Textures.quality x' = Some v)
          /\ (forall v, Textures.maxSize x = Some v -> Textures.maxSize x' = Some v)
          /\ (forall v, Textures.etc1sPatterns x = Some v ->
                        Textures.etc1sPatterns x' = Some v)
          /\ (forall v, Textures.uastcPatterns x = Some v ->
                        Textures.uastcPatterns x' = Some v)).
Proof.
  cbv zeta.
  destruct (processOptions_fields o) as (El & Ei & Ee & Ev & Eg & Ex).
  cbv zeta in *. rewrite El, Ei, Ee, Ev, Eg, Ex.
  set (base := merge_options (merge_options Options.empty baseDefaults) _).
  unfold merge_options at 1 2 3 4 5.
  cbn [Options.level Options.include Options.verbose Options.geometry Options.textures].
  split; [intros v ->; reflexivity|].
  split; [intros v ->; reflexivity|].
  split; [reflexivity|].
  split; [intros v ->; reflexivity|].
  split.
  - intros g ->. eexists. split; [reflexivity|].
    unfold deepMerge_geometry. cbn [fold_left].
    repeat split; intros v E; unfold merge_geometry at 1;
      cbn [Geometry.compress Geometry.quality Geometry.speed Geometry.precision];
      rewrite E; reflexivity.
  - intros x ->. eexists. split; [reflexivity|].
    unfold deepMerge_textures. cbn [fold_left].
    repeat split; intros v E; unfold merge_textures at 1;
      cbn [Textures.mode Textures.quality Textures.maxSize Textures.etc1sPatterns
           Textures.uastcPatterns];
      rewrite E; reflexivity.
Qed.

(** X8: a level other than 'light' and 'aggressive' resolves like
    'medium': for every other name (unknown, empty) the resolved options
    are those for 'medium' with that name in the field [level]; and giving
    no level is the same as giving 'medium'.  This holds for all other
    options of the caller. *)
Theorem X8_other_levels_resolve_as_medium (o : GLTFOptimizerOptions) (l : string) :
  String.eqb l "light" = false -> String.eqb l "aggressive" = false ->
  processOptions (Some (with_level (Some l) o))
  = with_level (Some l) (processOptions (Some (with_level (Some "medium") o)))
  /\ processOptions (Some (with_level None o))
     = processOptions (Some (with_level (Some "medium") o)).
Proof.
  intros NL NA.
  destruct o as [level include exclude verbose geometry textures].
  unfold processOptions, with_level.
  cbn [Options.level Options.include Options.exclude Options.verbose Options.geometry
       Options.textures].
  unfold getPreset. rewrite NL, NA.
  change (truthy_string "medium") with true.
  change (String.eqb "medium" "light") with false.
  change (String.eqb "medium" "medium") with true. cbv iota.
  assert (P : (if truthy_string l
               then if String.eqb l "medium" then medium_preset else medium_preset
               else Options.empty) = (if truthy_string l then medium_preset else Options.empty))
    by (destruct (truthy_string l), (String.eqb l "medium"); reflexivity).
  rewrite P. clear P.
  split.
  - destruct (truthy_string l), exclude, geometry as [[[] [] [] []]|],
      textures as [[[] [] [] [] []]|]; reflexivity.
  - destruct exclude, geometry as [[[] [] [] []]|],
      textures as [[[] [] [] [] []]|]; reflexivity.
Qed.

End OptionLayers.

(** X8 at the level 'ultra' of the empty options. *)
Lemma X8_witness :
  PresetManager.processOptions (Some (with_level (Some "ultra"%string) Options.empty))
  = with_level (Some "ultra"%string)
      (PresetManager.processOptions (Some (with_level (Some "medium"%string) Options.empty))).
Proof.
  exact (proj1 (X8_other_levels_resolve_as_medium Options.empty "ultra" eq_refl eq_refl)).
Defined.

(** ** PresetManager: options that are valid already *)

Section ValidOptions.
Import PresetManager.

Lemma between_in_unit_range (x : number) :
  between 0%float 1%float x = true -> out_of_unit_range x = false.
Proof.
  unfold between, out_of_unit_range. intros B.
  apply andb_true_iff in B. destruct B as [L U].
  destruct (leb_true_not_nan _ _ L) as [_ Nx].
  rewrite (leb_ord 0%float x eq_refl Nx) in L. rewrite (leb_ord x 1%float Nx eq_refl) in U.
  rewrite (ltb_ord x 0%float Nx eq_refl), (ltb_ord 1%float x eq_refl Nx), Nx.
  apply Z.leb_le in L. apply Z.leb_le in U.
  destruct (Z.ltb_spec (ordf x) (ordf 0%float)), (Z.ltb_spec (ordf 1%float) (ordf x));
    try reflexivity; lia.
Qed.

Lemma positive_not_nonpositive (x : number) :
  (0 <? x)%float = true -> Number_isInteger x = true -> not_positive_integer x = false.
Proof.
  unfold not_positive_integer. intros P I. rewrite I.
  destruct (ltb_true_not_nan _ _ P) as [_ Nx].
  rewrite (ltb_ord 0%float x eq_refl Nx) in P. rewrite (leb_ord x 0%float Nx eq_refl).
  apply Z.ltb_lt in P.
  destruct (Z.leb_spec (ordf x) (ordf 0%float)); [lia | reflexivity].
Qed.

(** X9: [validateOptions] on an options object whose numeric fields are
    all valid (the three geometry fields and the texture quality within
    [0, 1], the maximal size a positive integer) changes nothing in the
    heap, prints nothing, also in verbose mode, and returns the reference
    it was given. *)
Theorem X9_valid_options_pass_unchanged
  (o : ProcessedOptions) (verbose : option bool) (r : ref) (h : heap) :
  in_ranges o -> h !! r = Some o ->
  validateOptions r verbose h
  = Some {| returned := r; heap_after := h; printed := [] |}.
Proof.
  intros (Q & S & P & T & M & I) Hr.
  unfold validateOptions. rewrite Hr.
  rewrite (validate_fixpoint o) by
    (first [apply between_in_unit_range; assumption
           | apply positive_not_nonpositive; assumption]).
  cbn [List.length Nat.eqb negb]. rewrite andb_false_r.
  rewrite insert_id by exact Hr. reflexivity.
Qed.

End ValidOptions.

(** X9 at the options of the 'medium' preset. *)
Lemma X9_witness :
  PresetManager.validateOptions 1%positive (Some true)
    {[ 1%positive := options_with meshopt_c ]}
  = Some {| PresetManager.returned := 1%positive;
            PresetManager.heap_after := {[ 1%positive := options_with meshopt_c ]};
            PresetManager.printed := [] |}.
Proof.
  apply (X9_valid_options_pass_unchanged (options_with meshopt_c) (Some true) 1%positive).
  - repeat split; reflexivity.
  - reflexivity.
Defined.

(** ** GLTFProcessor.loadExternalResources: what is loaded *)

Section LoadedResources.
Import GLTFProcessor.
Context `{Library}.
Variable options : ProcessedOptions.
Variable baseDir : string.
Variable w : World.

Lemma load_sound_print (c : bool) (l : line) :
  triple (load_sound baseDir w)
    (Eff.when c (GLTFProcessor.in_world (print l)))
    (fun _ => load_sound baseDir w) (load_sound baseDir w).
Proof.
  intros [w0 res] (F & K). unfold Eff.when. destruct c; simpl; split; assumption.
Qed.

Lemma print_keeps (c : bool) (l : line) (s : loading) :
  exists w1, Eff.when c (GLTFProcessor.in_world (print l)) s = (Ok tt, (w1, snd s)).
Proof. destruct s as [w0 res]. destruct c; eexists; reflexivity. Qed.

Lemma load_sound_read (path : string) :
  triple (load_sound baseDir w) (GLTFProcessor.in_world (fs_readFile path))
    (fun data s => load_sound baseDir w s /\ files w !! path = Some data)
    (load_sound baseDir w).
Proof.
  intros [w0 res] (F & K).
  unfold GLTFProcessor.in_world, Eff.zoom, fs_readFile. simpl.
  destruct (files w0 !! path) as [data|] eqn:E; simpl.
  - split; [split; assumption|]. rewrite <- F. exact E.
  - split; assumption.
Qed.

Lemma load_sound_store (uri : string) (data : list Byte.byte) :
  startsWith uri "data:" = false ->
  triple (fun s => load_sound baseDir w s /\ files w !! path_resolve baseDir uri = Some data)
    (store_resource uri data) (fun _ => load_sound baseDir w) (load_sound baseDir w).
Proof.
  intros D. apply triple_modify. intros [w0 res] [(F & K) E]. simpl.
  split; [exact F|]. intros k d. simpl in *. rewrite assoc_set_field.
  destruct (String.eqb k uri) eqn:Ek; [|apply K].
  apply String.eqb_eq in Ek. subst k. intros [= <-]. split; assumption.
Qed.

Lemma load_group_sound (gltfJson : json) (key : string) (failed : string -> message) :
  triple (load_sound baseDir w) (load_group options gltfJson baseDir key failed)
    (fun _ => load_sound baseDir w) (load_sound baseDir w).
Proof.
  unfold load_group.
  eapply triple_bind; [apply triple_lift_inv|]. intros group.
  destruct (truthy group); [|apply triple_ret_inv].
  eapply triple_bind; [apply triple_lift_inv|].
  intros items. apply triple_for_of. intros item _.
  eapply triple_bind; [apply triple_lift|].
  intros [uri|]; [|intros s [_ I]; exact I].
  intros s [E I]. revert s I.
  change (triple (load_sound baseDir w)
            (Eff.try_catch
               (data ← GLTFProcessor.in_world (fs_readFile (path_resolve baseDir uri));
                store_resource uri data)
               (fun _ => Eff.when (verbose options)
                           (GLTFProcessor.in_world (print (console_warn (failed uri))))))
            (fun _ => load_sound baseDir w) (load_sound baseDir w)).
  destruct (external_uri_spec item uri E) as (_ & _ & D).
  eapply triple_try_catch.
  - eapply triple_bind; [apply load_sound_read|]. intros data.
    apply load_sound_store, D.
  - intros e. apply load_sound_print.
Qed.

Lemma load_item (item : json) (failed : string -> message) (s : loading) :
  testable item -> files (fst s) = files w ->
  exists w1,
    (uri ← Eff.lift (external_uri item);
     match uri with
     | Some uri =>
         let resourcePath := path_resolve baseDir uri in
         Eff.try_catch
           (data ← GLTFProcessor.in_world (fs_readFile resourcePath);
            store_resource uri data)
           (fun _ => Eff.when (verbose options)
                       (GLTFProcessor.in_world (print (console_warn (failed uri)))))
     | None => mret tt
     end) s = (Ok tt, (w1, stored baseDir w (snd s) item))
    /\ files w1 = files w.
Proof.
  intros [u Eu] F. destruct s as [w0 res]. cbn [fst snd] in *.
  rewrite run_bind. unfold Eff.lift at 1, stored. rewrite Eu.
  destruct u as [uri|]; [|exists w0; split; [reflexivity|exact F]].
  cbv zeta. unfold Eff.try_catch. rewrite run_bind.
  unfold GLTFProcessor.in_world at 1, Eff.zoom at 1, fs_readFile at 1.
  cbn [fst snd]. rewrite F.
  destruct (files w !! path_resolve baseDir uri) as [data|] eqn:R.
  - exists w0. split; [reflexivity|exact F].
  - destruct (verbose options); cbn [Eff.when].
    + eexists. split; [reflexivity|exact F].
    + exists w0. split; [reflexivity|exact F].
Qed.

Lemma load_items (items : list json) (failed : string -> message) (s : loading) :
  Forall (testable) items -> files (fst s) = files w ->
  exists w1,
    Eff.for_of items (fun item (_ : unit) =>
      uri ← Eff.lift (external_uri item);
      match uri with
      | Some uri =>
          let resourcePath := path_resolve baseDir uri in
          Eff.try_catch
            (data ← GLTFProcessor.in_world (fs_readFile resourcePath);
             store_resource uri data)
            (fun _ => Eff.when (verbose options)
                        (GLTFProcessor.in_world (print (console_warn (failed uri)))))
      | None => mret tt
      end) tt s = (Ok tt, (w1, fold_left (stored baseDir w) items (snd s)))
    /\ files w1 = files w.
Proof.
  intros T. revert s. induction T as [|item items Ti T IH]; intros s F.
  - exists (fst s). destruct s. split; [reflexivity|exact F].
  - destruct (load_item item failed s Ti F) as (w1 & E & F1).
    destruct (IH (w1, stored baseDir w (snd s) item) F1) as (w2 & E2 & F2).
    exists w2. split; [|exact F2].
    etransitivity; [apply for_of_step; exact E|exact E2].
Qed.

Lemma load_group_listed (gltfJson : json) (key : string) (failed : string -> message)
    (items : list json) (s : loading) :
  group_of gltfJson key items -> Forall testable items -> files (fst s) = files w ->
  exists w1,
    load_group options gltfJson baseDir key failed s
    = (Ok tt, (w1, fold_left (stored baseDir w) items (snd s)))
    /\ files w1 = files w.
Proof.
  intros G T F. unfold load_group. rewrite run_bind. unfold Eff.lift at 1.
  destruct G as [G|[G ->]]; rewrite G; cbn [truthy].
  - rewrite run_bind. unfold Eff.lift at 1. cbn [iterate].
    apply load_items; assumption.
  - exists (fst s). destruct s. split; [reflexivity|exact F].
Qed.

Lemma stored_keeps (res : Resources) (item : json) (uri : string) (data : list Byte.byte) :
  files w !! path_resolve baseDir uri = Some data ->
  assoc uri res = Some data -> assoc uri (stored baseDir w res item) = Some data.
Proof.
  intros R A. unfold stored.
  destruct (external_uri item) as [[u|]|]; try exact A.
  destruct (files w !! path_resolve baseDir u) as [d|] eqn:Ru; [|exact A].
  rewrite assoc_set_field. destruct (String.eqb uri u) eqn:E; [|exact A].
  apply String.eqb_eq in E. subst u. congruence.
Qed.

Lemma stored_adds (res : Resources) (item : json) (uri : string) (data : list Byte.byte) :
  external_uri item = Ok (Some uri) ->
  files w !! path_resolve baseDir uri = Some data ->
  assoc uri (stored baseDir w res item) = Some data.
Proof.
  intros E R. unfold stored. rewrite E, R, assoc_set_field, String.eqb_refl. reflexivity.
Qed.

Lemma fold_stored_keeps (items : list json) (res : Resources) (uri : string)
    (data : list Byte.byte) :
  files w !! path_resolve baseDir uri = Some data ->
  assoc uri res = Some data -> assoc uri (fold_left (stored baseDir w) items res) = Some data.
Proof.
  intros R. revert res. induction items as [|item items IH]; intros res A; [exact A|].
  apply IH, stored_keeps; assumption.
Qed.

Lemma fold_stored_adds (items : list json) (res : Resources) (item : json) (uri : string)
    (data : list Byte.byte) :
  In item items -> external_uri item = Ok (Some uri) ->
  files w !! path_resolve baseDir uri = Some data ->
  assoc uri (fold_left (stored baseDir w) items res) = Some data.
Proof.
  intros I E R. revert res. induction items as [|x items IH]; intros res; [destruct I|].
  cbn [fold_left]. destruct I as [->|I]; [|apply IH, I].
  apply fold_stored_keeps; [exact R|apply stored_adds; assumption].
Qed.

Lemma loadExternalResources_sound (gltfJson : json) :
  exists resources w',
    loadExternalResources options gltfJson baseDir w = (Ok resources, w')
    /\ load_sound baseDir w (w', resources).
Proof.
  unfold loadExternalResources.
  set (body := (_ ← load_group options gltfJson baseDir "images" Failed_to_load_image;
                _ ← load_group options gltfJson baseDir "buffers" Failed_to_load_buffer;
                resources ← (s ← Eff.get_state; mret (snd s));
                Eff.when (verbose options && negb (Nat.eqb (List.length resources) 0))
                  (GLTFProcessor.in_world
                     (print (console_log (Loaded_resources (List.length resources))))))).
  set (handler := fun error : error =>
                    Eff.when (verbose options)
                      (GLTFProcessor.in_world
                         (print (console_warn (Error_loading_resources error))))).
  assert (Sound : triple (load_sound baseDir w) (Eff.try_catch body handler)
                    (fun _ => load_sound baseDir w) (load_sound baseDir w)).
  { eapply triple_try_catch; [|intros e; apply load_sound_print].
    unfold body.
    eapply triple_bind; [apply load_group_sound|]. intros ?.
    eapply triple_bind; [apply load_group_sound|]. intros ?.
    eapply triple_bind.
    - eapply triple_bind; [apply triple_get_state_inv|]. intros s. apply triple_ret_inv.
    - intros resources. apply load_sound_print. }
  assert (I0 : load_sound baseDir w (w, [])).
  { split; [reflexivity|]. intros uri data A. discriminate A. }
  specialize (Sound (w, []) I0).
  destruct (Eff.try_catch body handler (w, [])) as [r [w' resources]] eqn:Run.
  exists resources, w'. split; [reflexivity|]. destruct r; exact Sound.
Qed.

Lemma loadExternalResources_listed (gltfJson : json) (images buffers : list json) :
  group_of gltfJson "images" images ->
  group_of gltfJson "buffers" buffers ->
  Forall testable (images ++ buffers) ->
  fst (loadExternalResources options gltfJson baseDir w)
  = Ok (fold_left (stored baseDir w) buffers (fold_left (stored baseDir w) images [])).
Proof.
  intros Gi Gb T. apply Forall_app in T. destruct T as [Ti Tb].
  destruct (load_group_listed gltfJson "images" Failed_to_load_image images (w, [])
              Gi Ti eq_refl) as (w1 & E1 & F1).
  destruct (load_group_listed gltfJson "buffers" Failed_to_load_buffer buffers
              (w1, fold_left (stored baseDir w) images []) Gb Tb F1) as (w2 & E2 & F2).
  cbn [snd] in E1, E2.
  unfold loadExternalResources, Eff.try_catch. rewrite run_bind, E1, run_bind, E2.
  rewrite run_bind, run_bind. unfold Eff.get_state. cbn [mret M_ret Eff.ret snd].
  match goal with
  | |- context [Eff.when ?c (GLTFProcessor.in_world (print ?l)) ?s] =>
      destruct (print_keeps c l s) as (w3 & E3)
  end.
  cbn [snd] in E3. rewrite E3. reflexivity.
Qed.

(** X10. [loadExternalResources] always returns, and never changes a
    file. Every resource it returns is the content of the file its URI
    resolves to under [baseDir], and no URI starts with "data:". When
    [images] and [buffers] are arrays (or absent) of elements whose URI
    can be tested, every external URI of theirs whose file can be read is
    among the resources. *)
Theorem X10_loaded_resources (gltfJson : json) :
  exists resources w',
    loadExternalResources options gltfJson baseDir w = (Ok resources, w')
    /\ files w' = files w
    /\ (forall uri data, assoc uri resources = Some data ->
          files w !! path_resolve baseDir uri = Some data
          /\ startsWith uri "data:" = false)
    /\ (forall images buffers,
          group_of gltfJson "images" images ->
          group_of gltfJson "buffers" buffers ->
          Forall testable (images ++ buffers) ->
          forall item uri data,
            In item (images ++ buffers) ->
            external_uri item = Ok (Some uri) ->
            files w !! path_resolve baseDir uri = Some data ->
            assoc uri resources = Some data).
Proof.
  destruct (loadExternalResources_sound gltfJson) as (resources & w' & Run & F & K).
  exists resources, w'. split; [exact Run|]. split; [exact F|]. split; [exact K|].
  intros images buffers Gi Gb T item uri data In_item E R.
  pose proof (loadExternalResources_listed gltfJson images buffers Gi Gb T) as L.
  rewrite Run in L. cbn [fst] in L. injection L as ->.
  apply in_app_or in In_item. destruct In_item as [Ii|Ib].
  - apply fold_stored_keeps; [exact R|]. apply fold_stored_adds with item; assumption.
  - apply fold_stored_adds with item; assumption.
Qed.

End LoadedResources.

(** ** GLTFProcessor.processFile and the file system *)

Section ProcessorFiles.
Import GLTFProcessor.
Context `{Library}.
Variable options : ProcessedOptions.
Variable I : gmap string (list Byte.byte) -> Prop.

Lemma files_print (l : line) : preserves (files_inv I) (print l).
Proof. apply preserves_modify. intros w Hw. exact Hw. Qed.

Lemma files_readFile (path : string) : preserves (files_inv I) (fs_readFile path).
Proof. intros w Hw. unfold fs_readFile. destruct (files w !! path); exact Hw. Qed.

Hint Resolve files_print files_readFile : preserves.

Lemma files_stat_size (path : string) : preserves (files_inv I) (fs_stat_size path).
Proof. unfold fs_stat_size. preserve. Qed.

Lemma files_loadExternalResources (gltfJson : json) (baseDir : string) :
  preserves (files_inv I) (loadExternalResources options gltfJson baseDir).
Proof.
  intros w Hw.
  destruct (loadExternalResources_sound options baseDir w gltfJson)
    as (resources & w' & -> & Fw & _).
  unfold files_inv. cbn [fst] in Fw. rewrite Fw. exact Hw.
Qed.

Lemma files_applyGeometryOptimizations (document : Document) (fileName : string) :
  preserves (files_inv I) (applyGeometryOptimizations options document fileName).
Proof. unfold applyGeometryOptimizations. preserve. Qed.

Lemma files_applyTextureOptimizations (document : Document) (fileName : string) :
  preserves (files_inv I) (applyTextureOptimizations options document fileName).
Proof. unfold applyTextureOptimizations. preserve. Qed.

Hint Resolve files_stat_size files_loadExternalResources
  files_applyGeometryOptimizations files_applyTextureOptimizations : preserves.

Lemma files_processBuffer (inputBuffer : Buffer) (fileName : string) :
  preserves (files_inv I) (processBuffer options inputBuffer fileName).
Proof. unfold processBuffer. preserve. Qed.

Lemma files_processFile (filePath : string) :
  preserves (files_inv I) (processFile options filePath true).
Proof. unfold processFile. cbv iota. preserve. Qed.

Lemma files_writeFile (path : string) (data : list Byte.byte) :
  (forall m p d, I m -> I (<[p := d]> m)) ->
  preserves (files_inv I) (fs_writeFile path data).
Proof. intros W. apply preserves_modify. intros w Hw. apply W, Hw. Qed.

Hint Resolve files_writeFile : preserves.

Lemma files_processFile_writing (filePath : string) (returnResources : bool) :
  (forall m p d, I m -> I (<[p := d]> m)) ->
  preserves (files_inv I) (processFile options filePath returnResources).
Proof. intros W. unfold processFile. preserve. Qed.

End ProcessorFiles.

Section ProcessFile.
Import GLTFProcessor.
Context `{Library}.
Variable options : ProcessedOptions.

Lemma processFile_handler (filePath : string) (returnResources : bool) (e : error)
    (w : World) :
  (_ ← print (console_error (Failed_to_process (path_basename filePath) e));
   inputBuffer ← fs_readFile filePath;
   mret (if returnResources then WithResources (NodeBuffer.from inputBuffer) []
         else Plain (NodeBuffer.from inputBuffer))) w
  = (match files w !! filePath with
     | Some data => Ok (original returnResources data)
     | None => Throw (SystemError "ENOENT")
     end,
     {| console := console w ++ [console_error (Failed_to_process (path_basename filePath) e)];
        files := files w |}).
Proof.
  rewrite run_bind. unfold print at 1, Eff.modify at 1. rewrite run_bind.
  unfold fs_readFile. cbn [files]. destruct (files w !! filePath); reflexivity.
Qed.

(** X11. When the file does not exist, [processFile] throws the error of
    [fs.readFile] (from its fallback), in either calling convention, and
    writes no file. *)
Theorem X11_processFile_missing_file
    (filePath : string) (returnResources : bool) (w : World) :
  files w !! filePath = None ->
  exists w',
    processFile options filePath returnResources w = (Throw (SystemError "ENOENT"), w')
    /\ files w' = files w.
Proof.
  intros Missing. unfold processFile. rewrite run_bind.
  destruct (when_print (verbose options)
              (console_log (Processing (path_basename filePath))) w) as [w0 E0].
  assert (F0 : files w0 = files w).
  { revert E0. unfold Eff.when. destruct (verbose options); intros [= <-]; reflexivity. }
  rewrite E0. unfold Eff.try_catch at 1.
  match goal with
  | |- context [match ?body w0 with _ => _ end] =>
      assert (B : triple (files_inv (eq (files w))) body (fun _ _ => False)
                    (files_inv (eq (files w))));
      [|specialize (B w0 (eq_sym F0)); destruct (body w0) as [[r|e] w1]]
  end.
  - eapply triple_bind with (Q := fun _ _ => False); [|intros d s []].
    intros s Hs. unfold files_inv in Hs.
    assert (R : forall A (k : list Byte.byte -> Eff.M World A),
               (fs_readFile filePath ≫= k) s = (Throw (SystemError "ENOENT"), s)).
    { intros A k. rewrite run_bind. unfold fs_readFile. rewrite <- Hs, Missing. reflexivity. }
    destruct (endsWith (toLowerCase (path_basename filePath)) ".gltf");
      [rewrite R; exact Hs|].
    destruct (endsWith (toLowerCase (path_basename filePath)) ".glb");
      [rewrite R; exact Hs|exact Hs].
  - destruct B.
  - unfold files_inv in B. rewrite processFile_handler, <- B, Missing.
    eexists. split; [reflexivity|]. reflexivity.
Qed.

(** X12. A file whose name ends neither in ".gltf" nor in ".glb" is not
    rejected with an error: [processFile] prints the error and returns
    the bytes of the file as they are, without resources, and it writes
    no file. *)
Theorem X12_processFile_unsupported_format
    (filePath : string) (returnResources : bool) (w : World) (data : list Byte.byte) :
  endsWith (toLowerCase (path_basename filePath)) ".gltf" = false ->
  endsWith (toLowerCase (path_basename filePath)) ".glb" = false ->
  files w !! filePath = Some data ->
  processFile options filePath returnResources w
  = (Ok (original returnResources data),
     {| console :=
          console w
          ++ (if verbose options
              then [console_log (Processing (path_basename filePath))] else [])
          ++ [console_error
                (Failed_to_process (path_basename filePath)
                   (Error (concat "Unsupported file format: " (path_basename filePath))))];
        files := files w |}).
Proof.
  intros G B R. unfold processFile. rewrite G, B.
  rewrite run_bind.
  assert (E0 : Eff.when (verbose options)
                 (print (console_log (Processing (path_basename filePath)))) w
               = (Ok tt, {| console := console w
                              ++ (if verbose options
                                  then [console_log (Processing (path_basename filePath))]
                                  else []);
                            files := files w |})).
  { unfold Eff.when. destruct (verbose options); [reflexivity|].
    rewrite app_nil_r. destruct w; reflexivity. }
  rewrite E0. unfold Eff.try_catch at 1. rewrite run_bind. unfold Eff.throw at 1.
  rewrite processFile_handler. cbn [files console]. rewrite R.
  rewrite <- app_assoc. reflexivity.
Qed.

(** X13. When the file exists, [processFile] returns, in either calling
    convention, and deletes no file; when the resources are returned to
    the caller, it writes no file either. *)
Theorem X13_processFile_returns
    (filePath : string) (returnResources : bool) (w : World) (data : list Byte.byte) :
  files w !! filePath = Some data ->
  exists r w',
    processFile options filePath returnResources w = (Ok r, w')
    /\ (forall p, is_Some (files w !! p) -> is_Some (files w' !! p))
    /\ (returnResources = true -> files w' = files w).
Proof.
  intros R.
  set (J := fun m : gmap string (list Byte.byte) =>
              forall p, is_Some (files w !! p) -> is_Some (m !! p)).
  assert (JW : forall m p d, J m -> J (<[p := d]> m)).
  { intros m p d Jm q Hq. destruct (decide (p = q)) as [->|N].
    - rewrite lookup_insert_eq. eauto.
    - rewrite lookup_insert_ne by exact N. apply Jm, Hq. }
  assert (J0 : files_inv J w) by (intros p Hp; exact Hp).
  pose proof (preserves_run _ _ w (files_processFile_writing options J filePath returnResources JW) J0) as J1.
  assert (T : triple (files_inv J) (processFile options filePath returnResources)
                (fun _ _ => True) (fun _ => False)).
  { unfold processFile.
    eapply triple_bind; [apply triple_when, files_print|]. intros ?.
    eapply triple_try_catch with (E' := files_inv J).
    - eapply triple_conseq with (P' := files_inv J) (Q' := fun _ => files_inv J)
        (E' := files_inv J); [|auto..].
      match goal with |- triple ?I0 ?m _ _ => change (preserves I0 m) end.
      pose proof (files_writeFile J) as W.
      pose proof (files_print J) as P.
      pose proof (files_readFile J) as Rd.
      pose proof (files_stat_size J) as St.
      pose proof (files_loadExternalResources options J) as L.
      pose proof (files_applyGeometryOptimizations options J) as Ge.
      pose proof (files_applyTextureOptimizations options J) as Te.
      preserve; auto.
    - intros e s Hs. rewrite processFile_handler.
      destruct (Hs filePath) as [d ->]; [rewrite R; eauto|exact Logic.I]. }
  specialize (T w J0).
  destruct (processFile options filePath returnResources w) as [[r|e] w'] eqn:Run;
    [|destruct T].
  exists r, w'. split; [reflexivity|]. split; [exact J1|].
  intros ->.
  pose proof (preserves_run _ _ w (files_processFile options (eq (files w)) filePath) eq_refl) as Fw.
  rewrite Run in Fw. symmetry. exact Fw.
Qed.

End ProcessFile.

(** X11 at the recording library: a container that does not exist. *)
Lemma X11_witness :
  files empty_world !! "gltf/a.glb"%string = None
  /\ exists w',
       @GLTFProcessor.processFile recording_library (options_with meshopt_c)
         "gltf/a.glb" false empty_world
       = (Throw (SystemError "ENOENT"), w')
       /\ files w' = files empty_world.
Proof.
  split; [reflexivity|].
  apply (@X11_processFile_missing_file recording_library (options_with meshopt_c)
           "gltf/a.glb" false empty_world).
  reflexivity.
Defined.

(** X12 at the recording library: a text file. *)
Lemma X12_witness :
  @GLTFProcessor.processFile recording_library (options_with meshopt_c)
    "notes.txt" true (one_file "notes.txt" [Byte.x68; Byte.x69])
  = (Ok (original true [Byte.x68; Byte.x69]),
     {| console :=
          [console_error
             (Failed_to_process "notes.txt" (Error "Unsupported file format: notes.txt"))];
        files := files (one_file "notes.txt" [Byte.x68; Byte.x69]) |}).
Proof.
  apply (@X12_processFile_unsupported_format recording_library (options_with meshopt_c)
           "notes.txt" true (one_file "notes.txt" [Byte.x68; Byte.x69])
           [Byte.x68; Byte.x69]); reflexivity.
Defined.

(** X13 at the recording library: a binary container that is read,
    transformed and written. *)
Lemma X13_witness :
  exists r w',
    @GLTFProcessor.processFile recording_library (options_with meshopt_c)
      "gltf/a.glb" true (one_file "gltf/a.glb" tiny_glb) = (Ok r, w')
    /\ (forall p, is_Some (files (one_file "gltf/a.glb" tiny_glb) !! p) ->
                  is_Some (files w' !! p))
    /\ (true = true -> files w' = files (one_file "gltf/a.glb" tiny_glb)).
Proof.
  apply (@X13_processFile_returns recording_library (options_with meshopt_c)
           "gltf/a.glb" true (one_file "gltf/a.glb" tiny_glb) tiny_glb).
  reflexivity.
Defined.

(** ** The hook buildStart *)

Section BuildStart.
Import GLTFProcessor Plugin.
Context `{Library} `{Host}.

(** Run a hook on a build whose closure is given field by field. *)
Ltac run_hook :=
  cbv beta iota zeta delta
    [buildStart generateBundle closeBundle writeBundle is_serve get_closure update_closure set_closure Plugin.in_world print
     mbind M_bind mret M_ret Eff.bind Eff.ret Eff.get_state Eff.throw Eff.lift
     Eff.modify Eff.when Eff.zoom closure bundle world config ktxAvailable
     warnedAboutKTX isInitialized processedOptions dependencyFiles
     originalFilesToCleanup optimizationStats sharedKTXCache fst snd id console files].

Lemma applyTextureOptimizations_manual (options : ProcessedOptions)
    (document : Document) (fileName : string) (w : World) :
  PTextures.mode (Processed.textures options) = manual ->
  fst (applyTextureOptimizations options document fileName w)
  = transform document
      [textureCompress (PTextures.maxSize (Processed.textures options),
                        PTextures.maxSize (Processed.textures options))].
Proof.
  intros M. unfold applyTextureOptimizations. rewrite M.
  rewrite run_bind. destruct (when_print (verbose options) (console_log (Texture_mode manual)) w) as [w0 ->].
  rewrite run_bind. destruct (when_print (verbose options) (console_log (Applying_KTX2 manual)) w0) as [w1 ->].
  rewrite run_bind, run_bind.
  destruct (when_print (verbose options) (console_log No_KTX2) w1) as [w2 ->].
  unfold Eff.lift at 1.
  destruct (transform document _) as [d|e]; [|reflexivity].
  rewrite run_bind.
  destruct (when_print (verbose options) (console_log Texture_done) w2) as [w3 ->].
  reflexivity.
Qed.

(** X14. A build on a machine without the KTX tool: the first
    [buildStart] records that the tool is missing, warns (unless a warning
    was printed before) and sets the texture mode to 'manual', leaving the
    other options as they are -- also when the initialization that follows
    fails.  From then on [applyTextureOptimizations] asks for the resize
    transform only, with no KTX2 encoding. *)
Theorem X14_buildStart_without_ktx (b : Build) (c : Config) :
  config (closure b) = Some c ->
  String.eqb (command c) "serve" = false ->
  ktxAvailable (closure b) = None ->
  checkKTXAvailable (world b) = false ->
  ktxAvailable (closure (snd (buildStart b))) = Some false
  /\ warnedAboutKTX (closure (snd (buildStart b))) = true
  /\ processedOptions (closure (snd (buildStart b)))
     = set_texture_mode manual (processedOptions (closure b))
  /\ (warnedAboutKTX (closure b) = false ->
      In (console_warn KTX_not_found) (console (world (snd (buildStart b)))))
  /\ (forall document fileName w,
        fst (applyTextureOptimizations (processedOptions (closure (snd (buildStart b))))
               document fileName w)
        = transform document
            [textureCompress
               (PTextures.maxSize (Processed.textures (processedOptions (closure b))),
                PTextures.maxSize (Processed.textures (processedOptions (closure b))))]).
Proof.
  intros C S K A.
  assert (G : ktxAvailable (closure (snd (buildStart b))) = Some false
              /\ warnedAboutKTX (closure (snd (buildStart b))) = true
              /\ processedOptions (closure (snd (buildStart b)))
                 = set_texture_mode manual (processedOptions (closure b))
              /\ (warnedAboutKTX (closure b) = false ->
                  In (console_warn KTX_not_found)
                     (console (world (snd (buildStart b)))))).
  { destruct b as [[po ini cfg ktx warned deps cleanup stats cache] bu w].
    cbn [closure world config ktxAvailable warnedAboutKTX processedOptions] in *.
    subst cfg ktx. run_hook. rewrite S. run_hook. rewrite A. run_hook.
    destruct warned; run_hook; destruct ini; run_hook;
      try (destruct (initialize (set_texture_mode manual po)) as [[]|e]; run_hook;
           try (destruct (Processed.verbose (set_texture_mode manual po)); run_hook));
      repeat split; try discriminate;
      try (intros _; rewrite ?in_app_iff; cbn [In]; auto). }
  destruct G as (G1 & G2 & G3 & G4). repeat split; try assumption.
  intros document fileName w. rewrite applyTextureOptimizations_manual; rewrite G3; reflexivity.
Qed.

(** X15. The preflight check and the initialization happen once per
    plugin instance: after a [buildStart] that returned, a later
    [buildStart] of the same instance -- whatever the bundle and the
    world, so also after the KTX tool was installed or removed -- returns
    without changing the closure and without printing. *)
Theorem X15_buildStart_once (b b1 : Build) (bundle' : Bundle) (w' : World) :
  buildStart b = (Ok tt, b1) ->
  buildStart (next_build b1 bundle' w') = (Ok tt, next_build b1 bundle' w').
Proof.
  destruct b as [[po ini cfg ktx warned deps cleanup stats cache] bu w].
  run_hook. destruct cfg as [c|]; [|discriminate]. run_hook.
  destruct (String.eqb (command c) "serve") eqn:S; run_hook.
  - intros [= <-]. unfold next_build. run_hook. rewrite S. reflexivity.
  - destruct ktx as [k|]; run_hook;
      [|destruct (checkKTXAvailable w) eqn:A; run_hook; [|destruct warned; run_hook]];
      destruct ini; run_hook;
      try (destruct (initialize _) as [[]|e]; run_hook;
           try (destruct (Processed.verbose _); run_hook));
      try discriminate;
      intros [= <-]; unfold next_build; run_hook; rewrite S; reflexivity.
Qed.

(** X19. Under the command 'serve' the hooks [buildStart],
    [generateBundle], [writeBundle] and [closeBundle] return at once: the
    closure, the bundle and the world are as before, and nothing is
    printed. *)
Theorem X19_hooks_do_nothing_in_serve_mode (b : Build) (c : Config) (dir : option string) :
  config (closure b) = Some c ->
  command c = "serve"%string ->
  buildStart b = (Ok tt, b)
  /\ generateBundle b = (Ok tt, b)
  /\ writeBundle dir b = (Ok [], b)
  /\ closeBundle b = (Ok tt, b).
Proof.
  destruct b as [[po ini cfg ktx warned deps cleanup stats cache] bu w].
  cbn [closure config]. intros -> S.
  repeat split; run_hook; rewrite S; reflexivity.
Qed.

End BuildStart.

(** X14 at a configured build on a host without the tool. *)
Lemma X14_witness :
  Plugin.ktxAvailable (Plugin.closure (snd (@Plugin.buildStart host_without_ktx configured_build)))
  = Some false
  /\ Plugin.warnedAboutKTX (Plugin.closure (snd (@Plugin.buildStart host_without_ktx configured_build)))
     = true
  /\ Plugin.processedOptions (Plugin.closure (snd (@Plugin.buildStart host_without_ktx configured_build)))
     = Plugin.set_texture_mode manual (options_with quantize_c)
  /\ (false = false ->
      In (console_warn KTX_not_found)
         (console (Plugin.world (snd (@Plugin.buildStart host_without_ktx configured_build)))))
  /\ (forall document fileName w,
        fst (@GLTFProcessor.applyTextureOptimizations recording_library
               (Plugin.processedOptions
                  (Plugin.closure (snd (@Plugin.buildStart host_without_ktx configured_build))))
               document fileName w)
        = @GLTFProcessor.transform recording_library document
            [GLTFProcessor.textureCompress (1024%float, 1024%float)]).
Proof.
  apply (@X14_buildStart_without_ktx recording_library host_without_ktx
           configured_build build_config); reflexivity.
Defined.

(** X15 at a configured build: the first [buildStart], then the one of
    a second build with a new bundle. *)
Lemma X15_witness :
  @Plugin.buildStart simple_host
    (next_build (snd (@Plugin.buildStart simple_host configured_build)) [] empty_world)
  = (Ok tt, next_build (snd (@Plugin.buildStart simple_host configured_build)) [] empty_world).
Proof.
  apply (@X15_buildStart_once simple_host configured_build
           (snd (@Plugin.buildStart simple_host configured_build)) [] empty_world).
  reflexivity.
Defined.


(** X19 at a dev server. *)
Lemma X19_witness :
  @Plugin.buildStart simple_host served_build
  = (Ok tt, served_build)
  /\ @Plugin.generateBundle recording_library simple_host served_build
     = (Ok tt, served_build)
  /\ @writeBundle recording_library None served_build
     = (Ok [], served_build)
  /\ Plugin.closeBundle served_build
     = (Ok tt, served_build).
Proof.
  apply (@X19_hooks_do_nothing_in_serve_mode recording_library simple_host served_build
           {| Plugin.command := "serve"; Plugin.publicDir := None |} None);
    reflexivity.
Defined.

(** ** findGLTFAssets *)

Section FindAssets.
Import GLTFProcessor Plugin.
Context `{Host}.

(** X16. For an [include] pattern, and an [exclude] pattern when there is
    one, that keep no state (neither the flag [g] nor [y]; with one of them
    the answer of [test] depends on the entries tested before, and nothing is
    stated), [findGLTFAssets] returns exactly the entries of the bundle of
    type 'asset' whose file name matches [include] and does not match
    [exclude], each with the source of its entry, in the order of the
    bundle. *)
Theorem X16_findGLTFAssets_selects (processedOptions : ProcessedOptions) (bundle : Bundle)
  (include_stateless : stateless (Processed.include processedOptions) = true)
  (exclude_stateless : forall exclude,
     Processed.exclude processedOptions = Some exclude -> stateless exclude = true) :
  (forall a,
     In a (findGLTFAssets processedOptions bundle)
     <-> exists e,
           In (fileName a, e) bundle
           /\ entry_type e = "asset"%string
           /\ regexp_test (Processed.include processedOptions) (fileName a) = true
           /\ (forall exclude, Processed.exclude processedOptions = Some exclude ->
                               regexp_test exclude (fileName a) = false)
           /\ source a = entry_source e
           /\ isAsset a = true)
  /\ sublist (map fileName (findGLTFAssets processedOptions bundle)) (map fst bundle).
Proof.
  split.
  - intros a. unfold findGLTFAssets. rewrite in_flat_map. split.
    + intros ([k e] & I & A). exists e.
      destruct (String.eqb (entry_type e) "asset") eqn:T; [|destruct A].
      destruct (regexp_test (Processed.include processedOptions) k) eqn:Inc; [|destruct A].
      cbn [negb] in A.
      destruct (Processed.exclude processedOptions) as [ex|] eqn:Ex.
      * destruct (regexp_test ex k) eqn:X; [destruct A|].
        destruct A as [<-|[]]. cbn. apply String.eqb_eq in T.
        repeat split; try assumption. intros ex' [= <-]. exact X.
      * destruct A as [<-|[]]. cbn. apply String.eqb_eq in T.
        repeat split; try assumption. intros ex' E. discriminate E.
    + intros (e & I & T & Inc & X & Sa & Ia). exists (fileName a, e). split; [exact I|].
      apply String.eqb_eq in T. rewrite T, Inc. cbn [negb].
      destruct (Processed.exclude processedOptions) as [ex|] eqn:Ex.
      * rewrite (X ex eq_refl). left. destruct a; cbn in *. subst. reflexivity.
      * left. destruct a; cbn in *. subst. reflexivity.
  - unfold findGLTFAssets. induction bundle as [|[k e] l IH]; [constructor|].
    cbn [flat_map map fst]. 
    destruct (negb (String.eqb (entry_type e) "asset")); [apply sublist_cons, IH|].
    destruct (negb (regexp_test (Processed.include processedOptions) k));
      [apply sublist_cons, IH|].
    destruct (match Processed.exclude processedOptions with
              | Some exclude => regexp_test exclude k
              | None => false
              end); [apply sublist_cons, IH|].
    cbn [app map fileName]. apply sublist_skip, IH.
Qed.

End FindAssets.

(** The bundle of one binary container and one script, with the pattern
    [/\.(gltf|glb)$/i] of the presets and no [exclude]. *)
Lemma X16_witness :
  stateless (Processed.include (options_with draco_c)) = true
  /\ Processed.exclude (options_with draco_c) = None
  /\ map Plugin.fileName
       (Plugin.findGLTFAssets (options_with draco_c) (Plugin.bundle bundled_build))
     = ["assets/model.glb"%string]
  /\ sublist ["assets/model.glb"%string] ["assets/model.glb"%string; "assets/index.js"%string].
Proof.
  split; [reflexivity|]. split; [reflexivity|]. split; [reflexivity|].
  assert (no_exclude : forall exclude,
             Processed.exclude (options_with draco_c) = Some exclude ->
             stateless exclude = true) by (intros exclude E; discriminate E).
  exact (proj2 (X16_findGLTFAssets_selects (options_with draco_c)
                  (Plugin.bundle bundled_build) eq_refl no_exclude)).
Defined.

(** ** What the hooks of a build keep *)

Section Zoom.
Context {S T : Type}.

Lemma preserves_zoom_inner {A} (I : T -> Prop) (J : S -> Prop) (proj : T -> S)
    (upd : S -> T -> T) (m : Eff.M S A) :
  preserves J m ->
  (forall t, I t -> J (proj t)) ->
  (forall s t, J s -> I t -> I (upd s t)) ->
  preserves I (Eff.zoom proj upd m).
Proof.
  intros Hm Hp Hu t Ht. unfold Eff.zoom. specialize (Hm (proj t) (Hp t Ht)).
  destruct (m (proj t)) as [[a|e] s']; apply Hu; assumption.
Qed.

Lemma triple_for_of_catching {A V} (I : T -> Prop) (E : T -> Prop) (l : list A)
    (body : A -> V -> Eff.M T V) (v : V) :
  (forall x v', triple I (body x v') (fun _ => I) E) ->
  triple I (Eff.for_of l body v) (fun _ => I) E.
Proof.
  intros Hb. revert v. induction l as [|x l IH]; intros v.
  - intros s Hs. exact Hs.
  - cbn [Eff.for_of]. eapply triple_bind; [apply Hb|]. intros v'. apply IH.
Qed.

End Zoom.

Section ProcessBufferReturns.
Import GLTFProcessor.
Context `{Library}.

Lemma processBuffer_returns (options : ProcessedOptions) (inputBuffer : Buffer)
    (fileName : string) :
  returns (processBuffer options inputBuffer fileName).
Proof.
  unfold processBuffer. apply returns_bind; [apply returns_when, returns_print|].
  intros _. apply returns_try_catch. intros e w. rewrite processBuffer_handler. eauto.
Qed.

Lemma files_findOriginalDependencies `{Plugin.Host}
    (I : gmap string (list Byte.byte) -> Prop) (gltfPath : string) :
  preserves (files_inv I) (Plugin.findOriginalDependencies gltfPath).
Proof.
  intros w Hw. unfold Plugin.findOriginalDependencies.
  match goal with
  | |- context [match ?body (w, []) with _ => _ end] =>
      assert (B : preserves (fun s : World * list string => files_inv I (fst s)) body)
  end.
  { pose proof (files_readFile I) as Rd.
    assert (Z : forall A (m : Eff.M World A),
               preserves (files_inv I) m ->
               preserves (fun s : World * list string => files_inv I (fst s))
                 (Eff.zoom fst (fun w s => (w, snd s)) m)).
    { intros A m Hm. eapply preserves_zoom_inner; [exact Hm|auto|auto]. }
    assert (P : forall f, preserves (fun s : World * list string => files_inv I (fst s))
                            (Eff.modify (fun s => (fst s, f s)))).
    { intros f. apply preserves_modify. intros s Hs. exact Hs. }
    pose proof (@preserves_for_each_dependency) as D.
    preserve; auto. }
  specialize (B (w, []) Hw).
  match goal with
  | |- context [match ?body (w, []) with _ => _ end] =>
      destruct (body (w, [])) as [[a|e] [w' deps]]
  end; exact B.
Qed.

End ProcessBufferReturns.

Section Growth.
Import GLTFProcessor Plugin.
Context `{Library} `{Host}.
Variable R : Bundle -> Prop.
Variable b0 : Build.

Lemma grows_in_world {A} (m : Eff.M World A) :
  preserves (files_inv (eq (files (world b0)))) m ->
  preserves (grows_from R b0) (Plugin.in_world m).
Proof.
  intros Hm. eapply preserves_zoom_inner; [exact Hm| |].
  - intros b (_ & F & _). unfold files_inv. symmetry. exact F.
  - intros w b Hw (RB & F & Rest). unfold files_inv in Hw.
    split; [exact RB|]. split; [symmetry; exact Hw|exact Rest].
Qed.

Lemma grows_set_closure (f : State -> State) :
  (forall s, config (f s) = config s) ->
  (forall s, processedOptions (f s) = processedOptions s) ->
  (forall s, dependencyFiles s ⊆ dependencyFiles (f s)) ->
  (forall s, originalFilesToCleanup s ⊆ originalFilesToCleanup (f s)) ->
  preserves (grows_from R b0) (set_closure f).
Proof.
  intros Fc Fo Fd Fk. apply preserves_modify.
  intros b (RB & F & C & O & D & K). unfold grows_from. cbn [closure bundle world].
  rewrite Fc, Fo. repeat split; try assumption.
  - etransitivity; [exact D|apply Fd].
  - etransitivity; [exact K|apply Fk].
Qed.

Lemma grows_set_bundle (f : Bundle -> Bundle) :
  (forall B, R B -> R (f B)) -> preserves (grows_from R b0) (set_bundle f).
Proof.
  intros Hf. apply preserves_modify. intros b (RB & Rest). split; [apply Hf, RB|exact Rest].
Qed.

Lemma grows_get_closure : preserves (grows_from R b0) get_closure.
Proof. unfold get_closure. preserve. Qed.

Hint Resolve grows_get_closure : preserves.

Lemma grows_is_verbose : preserves (grows_from R b0) is_verbose.
Proof. unfold is_verbose. preserve. Qed.

Lemma grows_is_serve : preserves (grows_from R b0) is_serve.
Proof. unfold is_serve. preserve. Qed.

Lemma grows_public_dir : preserves (grows_from R b0) public_dir.
Proof. unfold public_dir. preserve. Qed.

Lemma grows_add_dependency (p : string) : preserves (grows_from R b0) (add_dependency p).
Proof.
  apply grows_set_closure; intros s; cbn; try reflexivity. set_solver.
Qed.

Lemma grows_set_cache f : preserves (grows_from R b0) (set_cache f).
Proof. apply grows_set_closure; intros s; reflexivity. Qed.

Lemma grows_push_stat stat : preserves (grows_from R b0) (push_stat stat).
Proof. apply grows_set_closure; intros s; reflexivity. Qed.

Lemma grows_schedule_cleanup rel : preserves (grows_from R b0) (schedule_cleanup rel).
Proof.
  apply grows_set_closure; intros s; cbn; try reflexivity. set_solver.
Qed.

Lemma grows_print (l : line) : preserves (grows_from R b0) (Plugin.in_world (print l)).
Proof. apply grows_in_world, files_print. Qed.

Hint Resolve grows_is_verbose grows_is_serve grows_public_dir grows_add_dependency
  grows_set_cache grows_push_stat grows_schedule_cleanup grows_print
  preserves_for_each_dependency : preserves.

Lemma grows_trackDependencyFiles (gltfFileName : string) (gltfBuffer : Buffer) :
  preserves (grows_from R b0) (trackDependencyFiles gltfFileName gltfBuffer).
Proof. unfold trackDependencyFiles. preserve. Qed.

Lemma trackDependencyFiles_returns (gltfFileName : string) (gltfBuffer : Buffer) :
  returns (trackDependencyFiles gltfFileName gltfBuffer).
Proof.
  unfold trackDependencyFiles. apply returns_try_catch. intros e b.
  cbv beta iota delta [is_verbose get_closure mbind M_bind Eff.bind Eff.get_state mret M_ret Eff.ret].
  destruct (Processed.verbose (processedOptions (closure b))); eexists _, _; reflexivity.
Qed.

Hypothesis R_set_field : forall k x B, R B -> R (set_field k x B).

Hint Resolve grows_in_world grows_set_bundle files_processBuffer files_processFile
  files_readFile files_findOriginalDependencies grows_trackDependencyFiles : preserves.

Lemma grows_processAsset (asset : AssetInfo) :
  preserves (grows_from R b0) (processAsset asset).
Proof. unfold processAsset. preserve. Qed.

Lemma grows_emit_resources (resourceDir : string) (resources : Resources) :
  preserves (grows_from R b0) (emit_resources resourceDir resources).
Proof. unfold emit_resources. preserve. unfold emit_resource. preserve. Qed.

Hint Resolve grows_processAsset grows_emit_resources : preserves.

Lemma grows_processPublicSourceGLTFFile (filePath : string) :
  preserves (grows_from R b0) (processPublicSourceGLTFFile filePath).
Proof. unfold processPublicSourceGLTFFile. preserve. Qed.

Lemma print_returns (l : line) : returns (Plugin.in_world (print l)).
Proof. intros b. eexists _, _. reflexivity. Qed.

Lemma generateBundle_grows (c : Config) :
  config (closure b0) = Some c ->
  triple (grows_from R b0) generateBundle (fun _ => grows_from R b0) (fun _ => False).
Proof.
  intros C. unfold generateBundle.
  eapply triple_bind with (Q := fun _ => grows_from R b0).
  - intros b Hb. destruct Hb as (RB & F & Cb & Rest).
    cbv beta iota delta [is_serve get_closure mbind M_bind Eff.bind Eff.get_state mret
                         M_ret Eff.ret].
    rewrite Cb, C. cbv beta iota. unfold grows_from. auto.
  - intros [|]; [intros b Hb; exact Hb|].
    eapply triple_bind with (Q := fun _ => grows_from R b0);
      [intros b Hb; exact Hb|].
    intros b. eapply triple_bind with (Q := fun _ => grows_from R b0).
    + apply triple_for_of_catching. intros asset [].
      eapply triple_try_catch; [apply grows_processAsset|].
      intros e. apply triple_returning; [apply grows_print|apply print_returns].
    + intros _. unfold processPublicSourceGLTFFiles.
      eapply triple_try_catch with (E' := grows_from R b0).
      * match goal with |- triple ?I0 ?m _ _ => change (preserves I0 m) end.
        pose proof grows_processPublicSourceGLTFFile as G.
        preserve.
      * intros e. apply triple_returning; [apply grows_print|apply print_returns].
Qed.

End Growth.

Section Hooks.
Import GLTFProcessor Plugin.
Context `{Library} `{Host}.

Lemma set_field_keys {A} (k : string) (x y : A) (l : list (string * A)) :
  assoc k l = Some y -> map fst (set_field k x l) = map fst l.
Proof.
  induction l as [|[k' v] l IH]; [discriminate|]. cbn [assoc set_field].
  destruct (String.eqb k k') eqn:E.
  - apply String.eqb_eq in E. subst k'. reflexivity.
  - intros A0. cbn [map fst]. rewrite IH by exact A0. reflexivity.
Qed.

Lemma keeps_entries_set_field (B0 : Bundle) (k : string) (x : BundleEntry) (B : Bundle) :
  keeps_entries B0 B -> keeps_entries B0 (set_field k x B).
Proof.
  intros K q Hq. rewrite assoc_set_field. destruct (String.eqb q k); [eauto|apply K, Hq].
Qed.

(** X17. [processAsset] on an asset of the bundle returns; the entry of
    the asset then holds the buffer [processBuffer] returned and is
    otherwise the same, the other entries and the order of the bundle are
    as before, no file is written, and no path is removed from the
    tracked dependencies. *)
Theorem X17_processAsset_replaces_source (asset : AssetInfo) (b : Build) (e : BundleEntry) :
  assoc (fileName asset) (bundle b) = Some e ->
  exists optimized b',
    processAsset asset b = (Ok tt, b')
    /\ fst (processBuffer (processedOptions (closure b)) (input_buffer (source asset))
              (fileName asset) (world b)) = Ok optimized
    /\ assoc (fileName asset) (bundle b')
       = Some (set_entry_source (SourceBuffer optimized) e)
    /\ (forall k, k <> fileName asset -> assoc k (bundle b') = assoc k (bundle b))
    /\ map fst (bundle b') = map fst (bundle b)
    /\ files (world b') = files (world b)
    /\ dependencyFiles (closure b) ⊆ dependencyFiles (closure b').
Proof.
  intros A.
  destruct (processBuffer_returns (processedOptions (closure b))
              (input_buffer (source asset)) (fileName asset) (world b))
    as (optimized & w1 & E1).
  pose proof (preserves_run _ _ (world b)
                (files_processBuffer (processedOptions (closure b)) (eq (files (world b)))
                   (input_buffer (source asset)) (fileName asset)) eq_refl) as F1.
  rewrite E1 in F1. cbn [snd] in F1. unfold files_inv in F1.
  set (b2 := {| closure := closure b;
                bundle := set_field (fileName asset)
                            (set_entry_source (SourceBuffer optimized) e) (bundle b);
                world := w1 |}).
  destruct (trackDependencyFiles_returns (fileName asset) (input_buffer (source asset)) b2)
    as ([] & b3 & E3).
  pose proof (preserves_run _ _ b2
                (grows_trackDependencyFiles (eq (bundle b2)) b2 (fileName asset)
                   (input_buffer (source asset)))) as G.
  rewrite E3 in G. cbn [snd] in G.
  destruct G as (B3 & F3 & _ & _ & D3 & _).
  { repeat split; reflexivity. }
  exists optimized, b3. split.
  - unfold processAsset.
    cbv beta iota delta [get_closure mbind M_bind Eff.bind Eff.get_state mret M_ret Eff.ret].
    unfold Plugin.in_world at 1, Eff.zoom at 1. rewrite E1. cbn [bundle]. rewrite A.
    unfold set_bundle at 1, Eff.modify at 1. cbn [closure bundle world]. exact E3.
  - split; [rewrite E1; reflexivity|]. rewrite <- B3. unfold b2 in *.
    cbn [bundle closure world] in *.
    split; [rewrite assoc_set_field, String.eqb_refl; reflexivity|].
    split.
    { intros k N. rewrite assoc_set_field.
      destruct (String.eqb k (fileName asset)) eqn:E; [|reflexivity].
      apply String.eqb_eq in E. contradiction. }
    split; [apply set_field_keys with e, A|].
    split; [rewrite F3; symmetry; exact F1|exact D3].
Qed.

(** X18. Once the configuration is resolved, [generateBundle] returns:
    an asset or a file that fails is reported and skipped.  It writes and
    deletes no file, removes no entry from the bundle, keeps the
    configuration and the options, and removes no path from the tracked
    dependencies or from the files scheduled for cleanup. *)
Theorem X18_generateBundle_returns (b : Build) (c : Config) :
  config (closure b) = Some c ->
  exists b',
    generateBundle b = (Ok tt, b')
    /\ files (world b') = files (world b)
    /\ (forall k, is_Some (assoc k (bundle b)) -> is_Some (assoc k (bundle b')))
    /\ config (closure b') = Some c
    /\ processedOptions (closure b') = processedOptions (closure b)
    /\ dependencyFiles (closure b) ⊆ dependencyFiles (closure b')
    /\ originalFilesToCleanup (closure b) ⊆ originalFilesToCleanup (closure b').
Proof.
  intros C.
  pose proof (generateBundle_grows (keeps_entries (bundle b)) b
                (keeps_entries_set_field (bundle b)) c C b) as G.
  destruct (generateBundle b) as [[[]|e] b'].
  - destruct G as (K & F & Cb & O & D & Cl).
    + repeat split; try reflexivity. intros k Hk. exact Hk.
    + exists b'. rewrite Cb, C. repeat split; assumption.
  - exfalso. apply G. repeat split; try reflexivity. intros k Hk. exact Hk.
Qed.

End Hooks.

(** ** The resources of a JSON container: new keys and emission *)

Section SetFields.
Context {A : Type}.
Variable f : string -> string.

Lemma fold_set_field_other (l : list (string * A)) (acc : list (string * A)) (key : string) :
  (forall u d, In (u, d) l -> f u <> key) ->
  assoc key (fold_left (fun remapped '(uri, buf) => set_field (f uri) buf remapped) l acc)
  = assoc key acc.
Proof.
  revert acc. induction l as [|[u d] l IH]; intros acc N; [reflexivity|].
  cbn [fold_left]. rewrite IH by (intros u' d' I; apply (N u' d'); right; exact I).
  rewrite assoc_set_field. destruct (String.eqb key (f u)) eqn:E; [|reflexivity].
  apply String.eqb_eq in E. exfalso. apply (N u d); [left; reflexivity|congruence].
Qed.

Lemma fold_set_field_last (before after : list (string * A)) (uri : string) (buf : A)
    (acc : list (string * A)) :
  (forall u d, In (u, d) after -> f u <> f uri) ->
  assoc (f uri)
    (fold_left (fun remapped '(uri, buf) => set_field (f uri) buf remapped)
       (before ++ (uri, buf) :: after) acc)
  = Some buf.
Proof.
  intros N. rewrite fold_left_app. cbn [fold_left].
  rewrite fold_set_field_other by exact N.
  rewrite assoc_set_field, String.eqb_refl. reflexivity.
Qed.

Lemma fold_set_field_keys (l : list (string * A)) (acc : list (string * A)) (key : string) :
  is_Some (assoc key
             (fold_left (fun remapped '(uri, buf) => set_field (f uri) buf remapped) l acc))
  <-> is_Some (assoc key acc) \/ exists u d, In (u, d) l /\ key = f u.
Proof.
  revert acc. induction l as [|[u d] l IH]; intros acc.
  - cbn [fold_left]. split; [auto|]. intros [S|(u & d & [] & _)]. exact S.
  - cbn [fold_left]. rewrite IH, assoc_set_field. split.
    + intros [S|(u' & d' & I & E)].
      * destruct (String.eqb key (f u)) eqn:E; [|auto].
        apply String.eqb_eq in E. right. exists u, d. split; [left; reflexivity|exact E].
      * right. exists u', d'. split; [right; exact I|exact E].
    + intros [S|(u' & d' & [I|I] & E)].
      * left. destruct (String.eqb key (f u)); [eauto|exact S].
      * injection I as <- <-. left. subst key. rewrite String.eqb_refl. eauto.
      * right. exists u', d'. split; assumption.
Qed.

End SetFields.

Section Remap.
Import GLTFProcessor Plugin.

(** X20. The new keys of the resources of a JSON container: the remapped
    object has exactly the keys [remap_key] gives, and under the new key
    of a resource it holds the bytes of that resource unless a later
    resource has the same new key -- then the later one replaces it, as
    for two KTX2 textures of the same file name in different
    directories. *)
Theorem X20_remapped_resources (binPrefix : string) (ktx2Emitted : bool)
    (before after : Resources) (uri : string) (buf : list Byte.byte) :
  (forall u d, In (u, d) after ->
               remap_key binPrefix ktx2Emitted u <> remap_key binPrefix ktx2Emitted uri) ->
  assoc (remap_key binPrefix ktx2Emitted uri)
    (remap_resources binPrefix ktx2Emitted (before ++ (uri, buf) :: after)) = Some buf
  /\ (forall key,
        is_Some (assoc key (remap_resources binPrefix ktx2Emitted
                              (before ++ (uri, buf) :: after)))
        <-> exists u d, In (u, d) (before ++ (uri, buf) :: after)
                        /\ key = remap_key binPrefix ktx2Emitted u).
Proof.
  intros N. unfold remap_resources. split.
  - apply (fold_set_field_last (remap_key binPrefix ktx2Emitted)). exact N.
  - intros key. rewrite (fold_set_field_keys (remap_key binPrefix ktx2Emitted)).
    split; [intros [[x X]|E]; [discriminate X|exact E]|auto].
Qed.

End Remap.

(** X20 for two textures that are flattened to the same name: the second
    one is kept. *)
Lemma X20_witness :
  assoc (Plugin.remap_key "foo_bin/" true "b/wood.ktx2")
    (Plugin.remap_resources "foo_bin/" true
       ([("a/wood.ktx2"%string, [Byte.x01])] ++ ("b/wood.ktx2"%string, [Byte.x02]) :: []))
  = Some [Byte.x02]
  /\ (forall key,
        is_Some (assoc key
                   (Plugin.remap_resources "foo_bin/" true
                      ([("a/wood.ktx2"%string, [Byte.x01])]
                       ++ ("b/wood.ktx2"%string, [Byte.x02]) :: [])))
        <-> exists u d,
              In (u, d) ([("a/wood.ktx2"%string, [Byte.x01])]
                         ++ ("b/wood.ktx2"%string, [Byte.x02]) :: [])
              /\ key = Plugin.remap_key "foo_bin/" true u).
Proof.
  apply (X20_remapped_resources "foo_bin/" true [("a/wood.ktx2"%string, [Byte.x01])] []
           "b/wood.ktx2" [Byte.x02]).
  intros u d [].
Defined.

Section Emission.
Import GLTFProcessor Plugin.
Context `{Library} `{Host}.

Lemma emit_resource_step (resourceDir uri : string) (data : list Byte.byte) (b : Build) :
  cache_in_bundle b ->
  exists b',
    emit_resource resourceDir uri data b = (Ok tt, b')
    /\ cache_in_bundle b'
    /\ is_Some (assoc (posix_join resourceDir uri) (bundle b'))
    /\ keeps_entries (bundle b) (bundle b').
Proof.
  intros C. unfold emit_resource.
  destruct b as [s bu w]. unfold cache_in_bundle in *. cbn [closure Plugin.bundle] in *.
  cbv [get_closure mbind M_bind Eff.bind Eff.get_state mret M_ret Eff.ret
       closure Plugin.bundle world].
  assert (K : forall x, keeps_entries bu (set_field (posix_join resourceDir uri) x bu)).
  { intros x. apply keeps_entries_set_field. intros k Hk. exact Hk. }
  assert (S : forall x, is_Some (assoc (posix_join resourceDir uri)
                                   (set_field (posix_join resourceDir uri) x bu))).
  { intros x. rewrite assoc_set_field, String.eqb_refl. eauto. }
  assert (Cset : forall x (cache : gmap string CacheEntry),
             (forall p, is_Some (cache !! p) ->
                        p = posix_join resourceDir uri \/ is_Some (sharedKTXCache s !! p)) ->
             forall p, is_Some (cache !! p) ->
                       is_Some (assoc p (set_field (posix_join resourceDir uri) x bu))).
  { intros x cache Hc p Hp. destruct (Hc p Hp) as [->|Hs]; [apply S|apply K, C, Hs]. }
  destruct (endsWith (toLowerCase uri) ".ktx2").
  - destruct (sharedKTXCache s !! posix_join resourceDir uri) as [c|] eqn:L;
      [destruct (Plugin.rank c <? _)%float|];
      destruct (Processed.verbose (processedOptions s));
      cbv [set_cache set_closure set_bundle Eff.modify Eff.when Plugin.in_world
           Eff.zoom print closure Plugin.bundle world snd
           processedOptions sharedKTXCache mret M_ret Eff.ret];
      eexists; (split; [reflexivity|]);
      cbn [closure Plugin.bundle sharedKTXCache];
      (split;
       [first
          [ exact C
          | apply Cset; intros p Hp;
            destruct (decide (p = posix_join resourceDir uri)) as [->|Np];
            [left; reflexivity
            |right; rewrite lookup_insert_ne in Hp by congruence; exact Hp] ]
       |split;
        [first [ apply S | solve [apply C; rewrite L; eauto] ]
        |first [ apply K | solve [intros k Hk; exact Hk] ]]]).
  - destruct (Processed.verbose (processedOptions s));
      cbv [set_cache set_closure set_bundle Eff.modify Eff.when Plugin.in_world
           Eff.zoom print closure Plugin.bundle world snd
           processedOptions sharedKTXCache mret M_ret Eff.ret];
      eexists; (split; [reflexivity|]);
      cbn [closure Plugin.bundle sharedKTXCache];
      (split; [apply Cset; intros p Hp; right; exact Hp|split; [apply S|apply K]]).
Qed.

(** X21. While every path of the cache of KTX2 textures has an entry in
    the bundle (as in the first build of a plugin instance, where the
    cache starts empty), the loop that emits the resources of a model
    returns, leaves every resource of the model with an entry in the
    bundle at its path, removes no entry, and keeps the cache within the
    bundle. *)
Theorem X21_emitted_resources_in_bundle
    (resourceDir : string) (resources : Resources) (b : Build) :
  cache_in_bundle b ->
  exists b',
    emit_resources resourceDir resources b = (Ok tt, b')
    /\ cache_in_bundle b'
    /\ (forall uri data, In (uri, data) resources ->
                         is_Some (assoc (posix_join resourceDir uri) (bundle b')))
    /\ keeps_entries (bundle b) (bundle b').
Proof.
  unfold emit_resources. revert b. induction resources as [|[uri data] l IH]; intros b C.
  - exists b. repeat split; [exact C|intros uri data []|intros k Hk; exact Hk].
  - destruct (emit_resource_step resourceDir uri data b C) as (b1 & E1 & C1 & S1 & K1).
    destruct (IH b1 C1) as (b2 & E2 & C2 & S2 & K2).
    exists b2. split.
    + etransitivity; [apply for_of_step; exact E1|exact E2].
    + split; [exact C2|]. split.
      * intros u d [I|I]; [injection I as <- <-; apply K2, S1|apply (S2 u d I)].
      * intros k Hk. apply K2, K1, Hk.
Qed.

(** X22. A KTX2 texture that the cache holds with a rank that is not
    lower is not emitted: the bundle and the cache stay as they are.  The
    cache belongs to the plugin instance, so in a later build of the same
    instance, whose bundle is new, such a texture gets no entry in the
    bundle. *)
Theorem X22_cached_texture_is_not_emitted
    (resourceDir uri : string) (data : list Byte.byte) (b : Build) (c : CacheEntry) :
  endsWith (toLowerCase uri) ".ktx2" = true ->
  sharedKTXCache (closure b) !! posix_join resourceDir uri = Some c ->
  (Plugin.rank c <? computeTextureRank (processedOptions (closure b)) uri)%float = false ->
  exists b',
    emit_resource resourceDir uri data b = (Ok tt, b')
    /\ bundle b' = bundle b
    /\ closure b' = closure b
    /\ (assoc (posix_join resourceDir uri) (bundle b) = None ->
        assoc (posix_join resourceDir uri) (bundle b') = None).
Proof.
  intros K L R. unfold emit_resource. rewrite K.
  destruct b as [s bu w]. cbn [closure Plugin.bundle] in *.
  cbv [get_closure mbind M_bind Eff.bind Eff.get_state mret M_ret Eff.ret
       closure Plugin.bundle world].
  rewrite L, R.
  destruct (Processed.verbose (processedOptions s));
    cbv [Eff.when Plugin.in_world Eff.zoom print closure Plugin.bundle world snd
         mret M_ret Eff.ret Eff.modify];
    eexists; (split; [reflexivity|]); cbn [closure Plugin.bundle]; auto.
Qed.

End Emission.

(** X17 at a bundle with one binary container. *)
Lemma X17_witness :
  exists optimized b',
    @Plugin.processAsset recording_library simple_host
      {| Plugin.fileName := "assets/model.glb";
         Plugin.source := Plugin.entry_source model_entry;
         Plugin.isAsset := true |} bundled_build = (Ok tt, b')
    /\ fst (@GLTFProcessor.processBuffer recording_library
              (Plugin.processedOptions (Plugin.closure bundled_build))
              (Plugin.input_buffer (Plugin.entry_source model_entry))
              "assets/model.glb" (Plugin.world bundled_build)) = Ok optimized
    /\ assoc "assets/model.glb" (Plugin.bundle b')
       = Some (Plugin.set_entry_source (Plugin.SourceBuffer optimized) model_entry)
    /\ (forall k, k <> "assets/model.glb"%string ->
                  assoc k (Plugin.bundle b') = assoc k (Plugin.bundle bundled_build))
    /\ map fst (Plugin.bundle b') = map fst (Plugin.bundle bundled_build)
    /\ files (Plugin.world b') = files (Plugin.world bundled_build)
    /\ Plugin.dependencyFiles (Plugin.closure bundled_build)
       ⊆ Plugin.dependencyFiles (Plugin.closure b').
Proof.
  apply (@X17_processAsset_replaces_source recording_library simple_host
           {| Plugin.fileName := "assets/model.glb";
              Plugin.source := Plugin.entry_source model_entry;
              Plugin.isAsset := true |} bundled_build model_entry).
  reflexivity.
Defined.

(** X18 at the same bundle. *)
Lemma X18_witness :
  exists b',
    @Plugin.generateBundle recording_library simple_host bundled_build = (Ok tt, b')
    /\ files (Plugin.world b') = files (Plugin.world bundled_build)
    /\ (forall k, is_Some (assoc k (Plugin.bundle bundled_build)) ->
                  is_Some (assoc k (Plugin.bundle b')))
    /\ Plugin.config (Plugin.closure b') = Some build_config
    /\ Plugin.processedOptions (Plugin.closure b')
       = Plugin.processedOptions (Plugin.closure bundled_build)
    /\ Plugin.dependencyFiles (Plugin.closure bundled_build)
       ⊆ Plugin.dependencyFiles (Plugin.closure b')
    /\ Plugin.originalFilesToCleanup (Plugin.closure bundled_build)
       ⊆ Plugin.originalFilesToCleanup (Plugin.closure b').
Proof.
  apply (@X18_generateBundle_returns recording_library simple_host bundled_build build_config).
  reflexivity.
Defined.

(** X21 at a fresh build, whose cache is empty. *)
Lemma X21_witness :
  exists b',
    @Plugin.emit_resources simple_host "gltf"
      [("wood.ktx2"%string, [Byte.x01]); ("foo_bin/data.bin"%string, [Byte.x02])]
      fresh_build = (Ok tt, b')
    /\ cache_in_bundle b'
    /\ (forall uri data,
          In (uri, data)
             [("wood.ktx2"%string, [Byte.x01]); ("foo_bin/data.bin"%string, [Byte.x02])] ->
          is_Some (assoc (@Plugin.posix_join simple_host "gltf" uri) (Plugin.bundle b')))
    /\ keeps_entries (Plugin.bundle fresh_build) (Plugin.bundle b').
Proof.
  apply (@X21_emitted_resources_in_bundle simple_host "gltf"
           [("wood.ktx2"%string, [Byte.x01]); ("foo_bin/data.bin"%string, [Byte.x02])]
           fresh_build).
  intros p [c L]. vm_compute in L. discriminate L.
Defined.

(** X22 in the build after the one that emitted the texture: the bundle
    of that build stays without the texture. *)
Lemma X22_witness :
  exists b',
    @Plugin.emit_resource simple_host "gltf" "wood.ktx2" [Byte.x01] build_after_texture
    = (Ok tt, b')
    /\ Plugin.bundle b' = Plugin.bundle build_after_texture
    /\ Plugin.closure b' = Plugin.closure build_after_texture
    /\ (assoc "gltf/wood.ktx2" (Plugin.bundle build_after_texture) = None ->
        assoc "gltf/wood.ktx2" (Plugin.bundle b') = None).
Proof.
  apply (@X22_cached_texture_is_not_emitted simple_host "gltf" "wood.ktx2" [Byte.x01]
           build_after_texture
           {| Plugin.rank := Plugin.computeTextureRank (options_with quantize_c) "wood.ktx2";
              Plugin.cached := NodeBuffer.from [Byte.x01] |});
    vm_compute; reflexivity.
Defined.
